(** * OpenClaw: the reasoning pipeline of [agent.py], with [tools.py],
    [todo.py] and [memory.py]

    A shallow embedding of the agent's per-utterance pipeline
    ([Agent.process_single_intent]) and of the tool layer it calls.

    Conventions of the model.
    - A Python [str] is a [string]; characters are read as ASCII code
      points, so [lower] only maps 'A'..'Z' and [strip] only removes ASCII
      white space.  Text outside ASCII is outside the model.
    - A value decoded from JSON, or held in a Python variable that the code
      does not type, is a [pyval].
    - The agent's attributes, the task file [todo.json], the documents handed
      to the vector store and the history of calls to outside services are
      the fields of one [world]; every function of the source that reads or
      writes them is a computation in the monad [M].
    - A Python exception that the source does not catch is the outcome
      [Raise]; exceptions the source catches are handled where it does.
      The exceptions modelled are those the data itself causes (a method
      of [str] called on a value that is not text, [hash] of a list).
    - Outside services (the language model, [json.loads], [difflib], the
      vector store, the web search client, the clock) are the fields of a
      [services] record.  [ollama.chat] without a handler around it
      ([call_model_plain]) is taken to answer.
    - [todo.json] holds the records the code itself writes, and can be
      written. *)

From Stdlib Require Import String Ascii List Bool Arith Lia QArith.
Import ListNotations.

Local Open Scope string_scope.
Local Open Scope list_scope.
Local Open Scope nat_scope.

Infix "+++" := String.append (right associativity, at level 60).

(* ================================================================= *)
(** ** Python string operations *)

Module PyStr.

(** [str.lower()] on ASCII text. *)
Definition lower_char (c : ascii) : ascii :=
  let n := nat_of_ascii c in
  if (65 <=? n) && (n <=? 90) then ascii_of_nat (n + 32) else c.

Fixpoint lower (s : string) : string :=
  match s with
  | EmptyString => EmptyString
  | String c r => String (lower_char c) (lower r)
  end.

(** [str.isspace()] for one ASCII character: TAB, LF, VT, FF, CR, the four
    separators FS, GS, RS, US, and the space. *)
Definition isspace (c : ascii) : bool :=
  let n := nat_of_ascii c in
  ((9 <=? n) && (n <=? 13)) || ((28 <=? n) && (n <=? 32)).

Fixpoint lstrip (s : string) : string :=
  match s with
  | EmptyString => EmptyString
  | String c r => if isspace c then lstrip r else s
  end.

Fixpoint rstrip (s : string) : string :=
  match s with
  | EmptyString => EmptyString
  | String c r =>
      match rstrip r with
      | EmptyString => if isspace c then EmptyString else String c EmptyString
      | r' => String c r'
      end
  end.

(** [s.strip()] *)
Definition strip (s : string) : string := rstrip (lstrip s).

(** [s.startswith(p)] *)
Fixpoint startswith (s p : string) : bool :=
  match p with
  | EmptyString => true
  | String b p' =>
      match s with
      | EmptyString => false
      | String a s' => Ascii.eqb a b && startswith s' p'
      end
  end.

(** [s.endswith(p)]: some suffix of [s] is [p]. *)
Fixpoint endswith (s p : string) : bool :=
  String.eqb s p ||
  match s with
  | EmptyString => false
  | String _ r => endswith r p
  end.

(** [sub in s] *)
Fixpoint contains (sub s : string) : bool :=
  startswith s sub ||
  match s with
  | EmptyString => false
  | String _ r => contains sub r
  end.

Fixpoint drop (n : nat) (s : string) : string :=
  match n, s with
  | S k, String _ r => drop k r
  | _, _ => s
  end.

Fixpoint take (n : nat) (s : string) : string :=
  match n, s with
  | S k, String c r => String c (take k r)
  | _, _ => EmptyString
  end.

(** [s.find(sep)]: index of the leftmost occurrence. *)
Fixpoint find (sep s : string) : option nat :=
  if startswith s sep then Some 0
  else match s with
       | EmptyString => None
       | String _ r => option_map S (find sep r)
       end.

(** [s.split(sep)] for a non-empty [sep]: cut at the leftmost occurrence,
    go on after it.  Each cut consumes at least one character, so
    [String.length s] rounds are enough. *)
Fixpoint split_rounds (n : nat) (sep s : string) : list string :=
  match n with
  | 0 => [s]
  | S n' =>
      match find sep s with
      | None => [s]
      | Some i => take i s :: split_rounds n' sep (drop (i + String.length sep) s)
      end
  end.

Definition split (sep s : string) : list string :=
  split_rounds (String.length s) sep s.

(** [sep.join(parts)] *)
Fixpoint join (sep : string) (parts : list string) : string :=
  match parts with
  | [] => EmptyString
  | [p] => p
  | p :: rest => p +++ sep +++ join sep rest
  end.

(** [xs[-1]] of a list that [split] returned (never empty). *)
Definition last_piece (xs : list string) : string := List.last xs EmptyString.

(** The text after the rightmost place where [sep] occurs in [s], if it
    occurs: the reading of "what follows the last occurrence" that
    [split] is compared with. *)
Fixpoint after_last (sep s : string) : option string :=
  match s with
  | EmptyString => None
  | String _ r =>
      match after_last sep r with
      | Some t => Some t
      | None => if startswith s sep then Some (drop (String.length sep) s) else None
      end
  end.

(** No proper non-empty suffix of [sep] starts [sep] again: two occurrences
    of such a [sep] never overlap. *)
Fixpoint no_suffix_starts (sep u : string) : bool :=
  match u with
  | EmptyString => true
  | String _ u' => negb (startswith sep u) && no_suffix_starts sep u'
  end.

Definition borderless (sep : string) : bool :=
  match sep with
  | EmptyString => false
  | String _ t => no_suffix_starts sep t
  end.


End PyStr.
Import PyStr.

Definition nl : string := String (ascii_of_nat 10) EmptyString.

(* ================================================================= *)
(** ** Python values *)

#[warnings="-register-all"]
Inductive pyval : Type :=
| PNone
| PBool (b : bool)
| PNum (q : Q)
| PStr (s : string)
| PList (items : list pyval)
| PDict (items : list (string * pyval)).

(** Truth value of [v] in [if v:] and [not v]. *)
Definition truthy (v : pyval) : bool :=
  match v with
  | PNone => false
  | PBool b => b
  | PNum q => negb (Qeq_bool q 0)
  | PStr s => negb (String.eqb s "")
  | PList l => match l with [] => false | _ => true end
  | PDict d => match d with [] => false | _ => true end
  end.

(** [d.get(key, default)] on the items of a dict (keys are distinct). *)
Fixpoint dict_get (d : list (string * pyval)) (key : string) (default : pyval) : pyval :=
  match d with
  | [] => default
  | (k, v) :: rest => if String.eqb k key then v else dict_get rest key default
  end.

(** [a == "text"] where [a] is any value. *)
Definition is_str (v : pyval) (s : string) : bool :=
  match v with
  | PStr t => String.eqb t s
  | _ => false
  end.

(** [str(v)], as an f-string renders [v].  The text of a number, list or
    dict is left to [repr_other]. *)
Definition py_str (repr_other : pyval -> string) (v : pyval) : string :=
  match v with
  | PNone => "None"
  | PBool true => "True"
  | PBool false => "False"
  | PStr s => s
  | _ => repr_other v
  end.

(** [a > b] on scores. *)
Definition Qgtb (a b : Q) : bool := negb (Qle_bool a b).

(* ================================================================= *)
(** ** Data *)

(** One message of the conversation window: [{"role": ..., "content": ...}]. *)
Record turn : Type := mkTurn { role : string; content : pyval }.

(** One record of [todo.json]: [{"task": ..., "done": ...}]. *)
Record todo : Type := mkTodo { task : string; done : bool }.

(** [st.session_state.config] *)
Record config : Type := mkConfig {
  user_name : string;
  user_info : string;
  agent_name : string;
  agent_role : string;
  system_instructions : string }.

(** One result of [DDGS().text]. *)
Record hit : Type := mkHit { title : string; body : string }.

(** What [collection.query] returns for the single query text: the matched
    documents and, when the store reports them, their distances. *)
Record qresult : Type := mkQResult {
  q_documents : list string;
  q_distances : option (list Q) }.

(** A call to an outside service, as the pipeline issues it. *)
Inductive event : Type :=
| ChatPlain (messages : list turn)
| ChatJson (messages : list turn)
| MemoryQuery (query : string) (k : nat)
| WebSearch (query : string)
| ClockRead.

(** The answer of a service that may fail with a message. *)
Inductive reply (A : Type) : Type :=
| Answer (a : A)
| Failure (message : string).
Arguments Answer {A} a.
Arguments Failure {A} message.

(** The agent's attributes and everything outside it that the pipeline
    reads or writes. *)
Record world : Type := mkWorld {
  cfg : config;                 (* self.config *)
  short_term : list turn;       (* self.short_term *)
  internal_log : list string;   (* self.internal_log *)
  todo_file : list todo;        (* todo.json *)
  collection : list pyval;      (* documents handed to collection.add *)
  trace : list event }.         (* service calls so far, oldest first *)

Definition set_short_term (v : list turn) (w : world) : world :=
  mkWorld (cfg w) v (internal_log w) (todo_file w) (collection w) (trace w).
Definition set_internal_log (v : list string) (w : world) : world :=
  mkWorld (cfg w) (short_term w) v (todo_file w) (collection w) (trace w).
Definition set_todo_file (v : list todo) (w : world) : world :=
  mkWorld (cfg w) (short_term w) (internal_log w) v (collection w) (trace w).
Definition set_collection (v : list pyval) (w : world) : world :=
  mkWorld (cfg w) (short_term w) (internal_log w) (todo_file w) v (trace w).
Definition set_trace (v : list event) (w : world) : world :=
  mkWorld (cfg w) (short_term w) (internal_log w) (todo_file w) (collection w) v.

(** The outside services.  Each one that can answer differently from call
    to call takes the calls made so far. *)
Record services : Type := mkServices {
  json_loads : string -> option pyval;             (* None: json.loads raises *)
  repr_other : pyval -> string;                    (* str() of numbers, lists, dicts *)
  ratio : string -> string -> Q;                   (* difflib.SequenceMatcher(None, a, b).ratio() *)
  chat_plain : list event -> list turn -> string;  (* ollama.chat(...)["message"]["content"] *)
  chat_json : list event -> list turn -> reply string;  (* the same with format="json" *)
  collection_query : list event -> list pyval -> string -> nat -> option qresult;
                                                   (* None: collection.query raises *)
  ddgs_text : list event -> string -> nat -> reply (list hit);
  concat_error : pyval -> string;                  (* str(e) of the TypeError of [query + "..."] *)
  collection_accepts : pyval -> bool;              (* collection.add takes a document that is not text *)
  strftime_now : list event -> string }.           (* datetime.now().strftime("%A, %B %d, %Y") *)

(* ================================================================= *)
(** ** The monad of the pipeline: state and uncaught exceptions *)

Inductive exn : Type := AttributeError | TypeError | ValueError.

Inductive result (A : Type) : Type :=
| Ok (a : A)
| Raise (e : exn).
Arguments Ok {A} a.
Arguments Raise {A} e.

Definition M (A : Type) : Type := world -> result A * world.

Definition ret {A : Type} (a : A) : M A := fun w => (Ok a, w).

Definition bind {A B : Type} (m : M A) (k : A -> M B) : M B :=
  fun w => match m w with
           | (Ok a, w') => k a w'
           | (Raise e, w') => (Raise e, w')
           end.

Definition raise {A : Type} (e : exn) : M A := fun w => (Raise e, w).

Definition gets {A : Type} (f : world -> A) : M A := fun w => (Ok (f w), w).

Definition modify (f : world -> world) : M unit := fun w => (Ok tt, f w).

Declare Scope py_scope.
Delimit Scope py_scope with py.
Notation "x <- m ;; k" := (bind m (fun x => k))
  (at level 61, m at next level, right associativity) : py_scope.
Notation "m ;; k" := (bind m (fun _ => k))
  (at level 61, right associativity) : py_scope.
Local Open Scope py_scope.

(** [self.internal_log.append(entry)] *)
Definition log (entry : string) : M unit :=
  modify (fun w => set_internal_log (internal_log w ++ [entry]) w).

(** Record a call to an outside service. *)
Definition emit (e : event) : M unit :=
  modify (fun w => set_trace (trace w ++ [e]) w).

(** [xs[-n:]] *)
Definition slice_last {A : Type} (n : nat) (xs : list A) : list A :=
  match n with
  | 0 => xs
  | _ => skipn (length xs - n) xs
  end.

(** [self.max_context], set once in [__init__]. *)
Definition max_context : nat := 6.

(** The two lines that follow every answer and the incoming message:
    [self.short_term.append({"role": r, "content": c})] and
    [self.short_term = self.short_term[-self.max_context:]]. *)
Definition push_turn (r : string) (c : pyval) : M unit :=
  modify (fun w => set_short_term (slice_last max_context (short_term w ++ [mkTurn r c])) w).

Section Pipeline.

Variable sv : services.

(* ================================================================= *)
(** ** todo.py *)

(** [load_todos()]: the records of the file; a missing or unreadable file
    reads as the empty list. *)
Definition load_todos : M (list todo) := gets todo_file.

(** [save_todos(todos)], on a writable file. *)
Definition save_todos (todos : list todo) : M unit := modify (set_todo_file todos).

(** [add_task(task)] *)
Definition add_task (task : string) : M string :=
  todos <- load_todos ;;
  save_todos (todos ++ [mkTodo task false]) ;;
  ret ("Task '" +++ task +++ "' added.").

(** [todos[index]["done"] = True] *)
Fixpoint set_done (index : nat) (todos : list todo) : list todo :=
  match todos, index with
  | [], _ => []
  | t :: rest, 0 => mkTodo (task t) true :: rest
  | t :: rest, S i => t :: set_done i rest
  end.

(** [mark_done(index)] *)
Definition mark_done (index : nat) : M string :=
  todos <- load_todos ;;
  match nth_error todos index with
  | Some t =>
      save_todos (set_done index todos) ;;
      ret ("Task '" +++ task t +++ "' marked as done.")
  | None => ret "Invalid task index."
  end.

(* ================================================================= *)
(** ** tools.py *)

(** The body of the [for r in results] loop and the final join of
    [internet_search]. *)
Definition format_hits (results : list hit) : string :=
  join (nl +++ nl +++ "---" +++ nl +++ nl)
       (firstn 3 (map (fun r => title r +++ nl +++ body r)
                      (filter (fun r => 40 <? String.length (body r)) results))).

(** [internet_search(query)]: the whole body is inside [try], so the
    [TypeError] of [query + "..."] on a value that is not text is caught
    like a failure of the search client. *)
Definition internet_search (query : pyval) : M string :=
  match query with
  | PStr q =>
      let q' := q +++ " explanation meaning context" in
      tr <- gets trace ;;
      emit (WebSearch q') ;;
      match ddgs_text sv tr q' 6 with
      | Failure e => ret ("Search failed: " +++ e)
      | Answer [] => ret "No relevant results found."
      | Answer results => ret (format_hits results)
      end
  | _ => ret ("Search failed: " +++ concat_error sv query)
  end.

(** [add_todo(task)]: [task.strip()] needs text. *)
Definition add_todo (task_arg : pyval) : M string :=
  todos <- load_todos ;;
  match task_arg with
  | PStr s =>
      let cleaned := lower (strip s) in
      if existsb (fun t => String.eqb cleaned (lower (strip (task t)))) todos
      then ret "Task already exists."
      else add_task s
  | _ => raise AttributeError
  end.

(** The [for i, t in enumerate(todos)] loop of [complete_todo], from index
    [i] on, with the loop variables [best_match] and [best_score]. *)
Fixpoint best_candidate (text : string) (todos : list todo) (i : nat)
    (best_match : option nat) (best_score : Q) : option nat * Q :=
  match todos with
  | [] => (best_match, best_score)
  | t :: rest =>
      if done t then best_candidate text rest (S i) best_match best_score
      else
        let score := ratio sv (lower text) (lower (task t)) in
        if Qgtb score best_score
        then best_candidate text rest (S i) (Some i) score
        else best_candidate text rest (S i) best_match best_score
  end.

(** The acceptance threshold, [0.45]. *)
Definition threshold : Q := 45 # 100.

(** [complete_todo(task_text)]: [task_text.lower()] is reached, and needs
    text, as soon as one task is not done. *)
Definition complete_todo (task_text : pyval) : M string :=
  todos <- load_todos ;;
  match todos with
  | [] => ret "There are no tasks to complete."
  | _ =>
      match task_text with
      | PStr s =>
          match best_candidate s todos 0 None 0%Q with
          | (Some best_match, best_score) =>
              if Qgtb best_score threshold then mark_done best_match
              else ret "No matching task found."
          | (None, _) => ret "No matching task found."
          end
      | _ =>
          if existsb (fun t => negb (done t)) todos then raise AttributeError
          else ret "No matching task found."
      end
  end.

(** [get_current_date()] *)
Definition get_current_date : M string :=
  tr <- gets trace ;;
  emit ClockRead ;;
  ret (strftime_now sv tr).

(* ================================================================= *)
(** ** memory.py *)

(** [LongTermMemory.add_memory(text)].  Text is stored.  A list or a dict
    has no [hash]; what the store makes of any other value is the store's
    business. *)
Definition add_memory (text : pyval) : M unit :=
  match text with
  | PStr _ => modify (fun w => set_collection (collection w ++ [text]) w)
  | PList _ | PDict _ => raise TypeError
  | _ =>
      if collection_accepts sv text
      then modify (fun w => set_collection (collection w ++ [text]) w)
      else raise ValueError
  end.

(** [LongTermMemory.query(query, k)]: a failing store reads as
    [{"documents": [[]]}]. *)
Definition memory_query (query : string) (k : nat) : M qresult :=
  tr <- gets trace ;;
  docs <- gets collection ;;
  emit (MemoryQuery query k) ;;
  match collection_query sv tr docs query k with
  | Some r => ret r
  | None => ret (mkQResult [] None)
  end.

(* ================================================================= *)
(** ** agent.py *)

Definition dq : string := String (ascii_of_nat 34) EmptyString.

(** [f"{v}"] *)
Definition fmt (v : pyval) : string := py_str (repr_other sv) v.

(** [Agent.system_prompt(retrieved_memory)], line by line. *)
Definition system_prompt (c : config) (retrieved_memory : pyval) : string :=
  join nl
    [ "";
      "You are " +++ agent_name c +++ ".";
      "Role: " +++ agent_role c +++ ".";
      "";
      "System Instructions:";
      system_instructions c;
      "";
      "User: " +++ user_name c;
      "User Info: " +++ user_info c;
      "";
      "Retrieved Memory:";
      fmt retrieved_memory;
      "";
      "Rules:";
      "- Use tools ONLY if necessary.";
      "- For normal knowledge questions, answer directly.";
      "- Use add_todo only for explicit task creation.";
      "- Use complete_todo only if user clearly says task is finished.";
      "- Use date only for date requests.";
      "";
      "Reasoning format:";
      "";
      "{";
      " " +++ dq +++ "thought" +++ dq +++ ": " +++ dq +++ "..." +++ dq +++ ",";
      " " +++ dq +++ "action" +++ dq +++ ": " +++ dq
          +++ "search | add_todo | complete_todo | date | none" +++ dq +++ ",";
      " " +++ dq +++ "action_input" +++ dq +++ ": " +++ dq +++ "..." +++ dq +++ ",";
      " " +++ dq +++ "save_memory" +++ dq +++ ": true/false,";
      " " +++ dq +++ "memory_content" +++ dq +++ ": " +++ dq +++ "..." +++ dq +++ ",";
      " " +++ dq +++ "final_answer" +++ dq +++ ": " +++ dq +++ "..." +++ dq;
      "}";
      "" ].

(** The longest prefix of [s] that ends with a closing brace. *)
Fixpoint upto_last_close (s : string) : option string :=
  match s with
  | EmptyString => None
  | String c r =>
      match upto_last_close r with
      | Some p => Some (String c p)
      | None => if Ascii.eqb c "}" then Some (String c EmptyString) else None
      end
  end.

(** [re.search(r"\{.*\}", text, re.DOTALL)]: from the first opening brace to
    the last closing brace after it. *)
Fixpoint brace_span (text : string) : option string :=
  match text with
  | EmptyString => None
  | String c r =>
      if Ascii.eqb c "{" then
        match upto_last_close r with
        | Some p => Some (String c p)
        | None => brace_span r
        end
      else brace_span r
  end.

(** [Agent.safe_parse(text)]; [PNone] is Python's [None]. *)
Definition safe_parse (text : string) : pyval :=
  match json_loads sv text with
  | Some v => v
  | None =>
      match brace_span text with
      | Some m =>
          match json_loads sv m with
          | Some v => v
          | None => PNone
          end
      | None => PNone
      end
  end.

(** [Agent.call_model_json(messages)] *)
Definition call_model_json (messages : list turn) : M pyval :=
  tr <- gets trace ;;
  emit (ChatJson messages) ;;
  match chat_json sv tr messages with
  | Answer text => ret (safe_parse text)
  | Failure e =>
      log ("Model JSON call failed: " +++ e) ;;
      ret PNone
  end.

(** [Agent.call_model_plain(messages)] *)
Definition call_model_plain (messages : list turn) : M string :=
  tr <- gets trace ;;
  emit (ChatPlain messages) ;;
  ret (chat_plain sv tr messages).

(** [Agent.execute_tool(action, action_input)]; the result is text or
    [None]. *)
Definition execute_tool (action action_input : pyval) : M pyval :=
  log ("Tool selected: " +++ fmt action) ;;
  log ("Tool input: " +++ fmt action_input) ;;
  result <-
    (if is_str action "search" then r <- internet_search action_input ;; ret (PStr r)
     else if is_str action "add_todo" then r <- add_todo action_input ;; ret (PStr r)
     else if is_str action "complete_todo" then r <- complete_todo action_input ;; ret (PStr r)
     else if is_str action "date" then r <- get_current_date ;; ret (PStr r)
     else ret PNone) ;;
  (if truthy result then log ("Tool observation: " +++ fmt result) else ret tt) ;;
  ret result.

(** The [second_messages] built from an observation. *)
Definition second_messages (observation : pyval) : list turn :=
  [ mkTurn "system" (PStr "Produce the final answer based on the observation.");
    mkTurn "user" (PStr ("Observation: " +++ fmt observation)) ].

(** One [if action != "none":] block: run the tool, then ask the model for
    the answer from the observation.  The source has this block twice. *)
Definition tool_then_synthesize (action action_input : pyval) : M string :=
  observation <- execute_tool action action_input ;;
  call_model_plain (second_messages observation).

(** Answer, push the assistant turn, return: the tail of every branch. *)
Definition respond (response : pyval) : M pyval :=
  push_turn "assistant" response ;;
  ret response.

Definition preference_prefixes : list string :=
  ["i like"; "i love"; "i prefer"; "my favorite"; "remember"].
Definition completion_keywords : list string := ["i did"; "i finished"; "completed"].
Definition task_triggers : list string := ["i need to"; "i have to"; "remind me to"].
Definition date_keywords : list string := ["today"; "current date"].
Definition knowledge_prefixes : list string :=
  ["what is"; "who is"; "define"; "explain"; "why"].
Definition search_intent_keywords : list string :=
  ["search"; "latest"; "recent"; "find"; "trend"; "news"].

(** The test of rule 1. *)
Definition is_preference (user_lower : string) : bool :=
  (startswith user_lower "i like"
   || startswith user_lower "i love"
   || startswith user_lower "i prefer"
   || startswith user_lower "my favorite"
   || startswith user_lower "remember")
  && negb (endswith user_lower "?").

(** The test of rule 2: [any(k in user_lower for k in [...])]. *)
Definition is_completion (user_lower : string) : bool :=
  existsb (fun k => contains k user_lower) completion_keywords.

(** The [for trigger in task_triggers] loop up to its first hit. *)
Definition first_trigger (user_lower : string) : option string :=
  List.find (fun trigger => contains trigger user_lower) task_triggers.

(** The test of rule 4. *)
Definition is_date_query (user_lower : string) : bool :=
  contains "today" user_lower || contains "current date" user_lower.

(** The two tests of rule 5. *)
Definition is_knowledge_question (user_lower : string) : bool :=
  existsb (fun p => startswith user_lower p) knowledge_prefixes.
Definition has_search_intent (user_lower : string) : bool :=
  existsb (fun k => contains k user_lower) search_intent_keywords.

(** The [if save_memory and memory_content:] block. *)
Definition memory_directive (save_memory memory_content : pyval) : M unit :=
  if truthy save_memory && truthy memory_content
  then add_memory memory_content ;;
       log ("Memory saved by LLM: " +++ fmt memory_content)
  else ret tt.

(** The part of [process_single_intent] after [parsed] is known to be a
    truthy dict [d]: the decision fields, the two tool blocks, the fallback
    between them, the memory directive and the closing append. *)
Definition act_on_decision (d : list (string * pyval)) : M pyval :=
  let thought := dict_get d "thought" (PStr "") in
  let action := dict_get d "action" (PStr "none") in
  let action_input := dict_get d "action_input" (PStr "") in
  let final_answer0 :=
    (let v := dict_get d "final_answer" (PStr "") in if truthy v then v else PStr "") in
  let save_memory := dict_get d "save_memory" (PBool false) in
  let memory_content := dict_get d "memory_content" (PStr "") in
  log ("Thought: " +++ fmt thought) ;;
  final_answer1 <-
    (if negb (is_str action "none")
     then r <- tool_then_synthesize action action_input ;; ret (PStr r)
     else ret final_answer0) ;;
  final_answer2 <-
    (if negb (truthy final_answer1)
     then log "Final answer missing from JSON. Falling back to plain model." ;;
          window <- gets short_term ;;
          r <- call_model_plain window ;;
          ret (PStr r)
     else ret final_answer1) ;;
  log ("Thought: " +++ fmt thought) ;;
  final_answer <-
    (if negb (is_str action "none")
     then r <- tool_then_synthesize action action_input ;; ret (PStr r)
     else ret final_answer2) ;;
  memory_directive save_memory memory_content ;;
  respond final_answer.

(** Step 6 of [process_single_intent], "LLM reasoning loop": everything
    below the knowledge guard.  [parsed.get] on a truthy value that is not a
    dict raises. *)
Definition reasoning_cycle (user_input : string) : M pyval :=
  retrieved <- memory_query user_input 2 ;;
  let retrieved_docs := PList (map PStr (q_documents retrieved)) in
  let distances :=
    match q_distances retrieved with
    | Some ds => PList (map PNum ds)
    | None => PList []
    end in
  log ("Retrieved memory: " +++ fmt retrieved_docs) ;;
  log ("Distances: " +++ fmt distances) ;;
  c <- gets cfg ;;
  window <- gets short_term ;;
  parsed <- call_model_json (mkTurn "system" (PStr (system_prompt c retrieved_docs)) :: window) ;;
  if negb (truthy parsed) then
    window' <- gets short_term ;;
    response <- call_model_plain window' ;;
    respond (PStr response)
  else
    match parsed with
    | PDict d => act_on_decision d
    | _ => raise AttributeError
    end.

(** The messages of the knowledge guard's call. *)
Definition knowledge_messages (c : config) (user_input : string) : list turn :=
  [ mkTurn "system" (PStr ("You are " +++ agent_role c +++ "."));
    mkTurn "user" (PStr user_input) ].

(** Rules 1 to 5 and the fall-through, on the window that already holds the
    user's message. *)
Definition route (user_input : string) : M pyval :=
  let user_lower := strip (lower user_input) in
  if is_preference user_lower then
    add_memory (PStr ("User preference: " +++ strip user_input)) ;;
    log "Preference stored deterministically." ;;
    respond (PStr "Got it. I'll remember that.")
  else if is_completion user_lower then
    response <- complete_todo (PStr user_input) ;;
    respond (PStr response)
  else
    match first_trigger user_lower with
    | Some trigger =>
        let task_text := strip (last_piece (split trigger user_lower)) in
        response <- add_todo (PStr task_text) ;;
        respond (PStr response)
    | None =>
        if is_date_query user_lower then
          response <- get_current_date ;;
          respond (PStr response)
        else if is_knowledge_question user_lower && negb (has_search_intent user_lower) then
          log "Knowledge guard triggered." ;;
          c <- gets cfg ;;
          response <- call_model_plain (knowledge_messages c user_input) ;;
          respond (PStr response)
        else reasoning_cycle user_input
    end.

(** [Agent.process_single_intent(user_input)] *)
Definition process_single_intent (user_input : string) : M pyval :=
  push_turn "user" (PStr user_input) ;;
  route user_input.

(** [Agent.reasoning_loop(user_input)] *)
Definition reasoning_loop (user_input : string) : M pyval :=
  process_single_intent user_input.

(** [Agent.proactive_check()]: the suggestion for the first task that is
    not done, or [None]. *)
Definition proactive_check : M pyval :=
  todos <- load_todos ;;
  match List.find (fun t => negb (done t)) todos with
  | Some t =>
      log "Proactive suggestion triggered." ;;
      ret (PStr ("I see we still need to '" +++ task t +++ "'. Shall I handle it now?"))
  | None => ret PNone
  end.

(** [Agent.get_working_memory()] and [Agent.get_internal_log()] *)
Definition get_working_memory : M (list turn) := gets short_term.
Definition get_internal_log : M (list string) := gets internal_log.

(** A session: the utterances are processed one after the other on the
    same agent, as [app.py] does; an utterance whose processing raises
    leaves the agent as the exception found it.  The outcome of each
    utterance is kept. *)
Fixpoint run_session (inputs : list string) (w : world)
    : list (string * result pyval) * world :=
  match inputs with
  | [] => ([], w)
  | u :: rest =>
      let '(r, w') := reasoning_loop u w in
      let '(outs, w'') := run_session rest w' in
      ((u, r) :: outs, w'')
  end.

(** The turns a session appended, in the order of the appends: the message
    of every utterance, followed by the answer when there was one. *)
Fixpoint appended_turns (outs : list (string * result pyval)) : list turn :=
  match outs with
  | [] => []
  | (u, Ok r) :: rest => mkTurn "user" (PStr u) :: mkTurn "assistant" r :: appended_turns rest
  | (u, Raise _) :: rest => mkTurn "user" (PStr u) :: appended_turns rest
  end.

End Pipeline.

(** [Agent.__init__]: an agent that has not spoken yet. *)
Definition new_agent (c : config) (todos : list todo) : world :=
  mkWorld c [] [] todos [] [].

(** What the claims compare the code with. *)

(** The best similarity score among the tasks that are not done, [0] when
    there is none. *)
Definition Qmaxb (a b : Q) : Q := if Qle_bool a b then b else a.

Definition best_open_score (sv : services) (text : string) (todos : list todo) : Q :=
  fold_right
    (fun t acc => if done t then acc
                  else Qmaxb (ratio sv (lower text) (lower (task t))) acc)
    0%Q todos.

(** What [memory_query] hands back in world [w], as a function. *)
Definition recall (sv : services) (w : world) (query : string) (k : nat) : qresult :=
  match collection_query sv (trace w) (collection w) query k with
  | Some r => r
  | None => mkQResult [] None
  end.

(** The messages of the structured call of the reasoning cycle in [w]. *)
Definition decision_messages (sv : services) (w : world) (user_input : string) : list turn :=
  mkTurn "system"
    (PStr (system_prompt sv (cfg w)
             (PList (map PStr (q_documents (recall sv w user_input 2))))))
  :: short_term w.

(** The two entries the reasoning cycle logs about retrieval. *)
Definition retrieval_log (sv : services) (w : world) (user_input : string) : list string :=
  let r := recall sv w user_input 2 in
  [ "Retrieved memory: " +++ fmt sv (PList (map PStr (q_documents r)));
    "Distances: " +++ fmt sv (match q_distances r with
                               | Some ds => PList (map PNum ds)
                               | None => PList []
                               end) ].

(** A computation that appends its answer as the one assistant turn, and
    appends nothing when it raises. *)
Definition answers_once (m : M pyval) : Prop :=
  forall w,
    match m w with
    | (Ok r, w') =>
        short_term w' = slice_last max_context (short_term w ++ [mkTurn "assistant" r])
    | (Raise _, w') => short_term w' = short_term w
    end.

(** A computation that never raises. *)
Definition returns {A : Type} (m : M A) : Prop :=
  forall w, exists a w', m w = (Ok a, w').

(** A computation that leaves the part [f] of the world alone. *)
Definition keeps {A X : Type} (f : world -> X) (m : M A) : Prop :=
  forall w, f (snd (m w)) = f w.

(** A computation that only appends to the list [f] of the world. *)
Definition extends {A X : Type} (f : world -> list X) (m : M A) : Prop :=
  forall w, exists added, f (snd (m w)) = f w ++ added.

(** A computation whose final world is related to its initial world by [R]. *)
Definition steps {A : Type} (R : world -> world -> Prop) (m : M A) : Prop :=
  forall w, R w (snd (m w)).

(** Every task of [old] is still at its place in [new], with its text, and
    still done if it was. *)
Definition tasks_preserved (old new : list todo) : Prop :=
  forall j t, nth_error old j = Some t ->
    exists t', nth_error new j = Some t' /\ task t' = task t /\
               (done t = true -> done t' = true).

Definition keeps_tasks (w w' : world) : Prop :=
  tasks_preserved (todo_file w) (todo_file w').

(** Between [w] and [w'] the memory store received nothing, or received
    [mc] on a directive that was set. *)
Definition memory_written (sm mc : pyval) (w w' : world) : Prop :=
  collection w' = collection w \/
  (truthy sm && truthy mc = true /\ collection w' = collection w ++ [mc]).

(** The values [add_memory] stores without raising. *)
Definition storable (sv : services) (v : pyval) : bool :=
  match v with
  | PStr _ => true
  | PList _ | PDict _ => false
  | _ => collection_accepts sv v
  end.

(** The exception [add_memory] ends with on a value it does not store. *)
Definition rejection (v : pyval) : exn :=
  match v with
  | PList _ | PDict _ => TypeError
  | _ => ValueError
  end.

(** Whether [execute_tool] raises on the task list [todos]: [add_todo]
    strips its input, and [complete_todo] lower-cases it when it meets a
    task that is not done; both need text. *)
Definition tool_raises (action input : pyval) (todos : list todo) : bool :=
  match input with
  | PStr _ => false
  | _ =>
      is_str action "add_todo"
      || (is_str action "complete_todo" && existsb (fun t => negb (done t)) todos)
  end.

(** The world in which the first tool block of the reasoning cycle on [w]
    starts, once the structured call is answered with a decision: the store
    was queried, the two retrieval entries and the first "Thought" entry are
    logged, the memory query and the structured call are recorded. *)
Definition decision_point (sv : services) (w : world) (user_input : string)
    (thought : pyval) : world :=
  mkWorld (cfg w) (short_term w)
    (internal_log w ++ retrieval_log sv w user_input ++ ["Thought: " +++ fmt sv thought])
    (todo_file w) (collection w)
    (trace w ++ [MemoryQuery user_input 2; ChatJson (decision_messages sv w user_input)]).

(** The structured model calls among the calls to outside services. *)
Definition is_structured (e : event) : bool :=
  match e with
  | ChatJson _ => true
  | _ => false
  end.

(** A computation that records calls to outside services of the kind [P]
    only. *)
Definition calls_only {A : Type} (P : event -> Prop) (m : M A) : Prop :=
  forall w, exists added, trace (snd (m w)) = trace w ++ added /\ Forall P added.

(* ================================================================= *)
(** ** A concrete environment, to run the pipeline on examples *)

Module Demo.

Definition persona : config :=
  mkConfig "User" "" "OpenClaw" "Autonomous AI Agent" "".

(** The text of a decision that asks for the add-task tool. *)
Definition decision_text : string :=
  "{" +++ dq +++ "action" +++ dq +++ ": " +++ dq +++ "add_todo" +++ dq +++ ", "
      +++ dq +++ "action_input" +++ dq +++ ": " +++ dq +++ "Call Bob" +++ dq +++ ", "
      +++ dq +++ "final_answer" +++ dq +++ ": " +++ dq +++ "Noted." +++ dq +++ "}".

Definition decision : list (string * pyval) :=
  [ ("action", PStr "add_todo"); ("action_input", PStr "Call Bob");
    ("final_answer", PStr "Noted.") ].

(** Decodes the one decision above and the empty object; everything else
    is not JSON. *)
Definition loads (s : string) : option pyval :=
  if String.eqb s decision_text then Some (PDict decision)
  else if String.eqb s "{}" then Some (PDict [])
  else None.

Definition repr (v : pyval) : string :=
  match v with
  | PList [] => "[]"
  | _ => "<value>"
  end.

(** Twice the length of [b] over the total length when [b] occurs in [a],
    which is what [difflib] gives when the rest of [a] matches nothing. *)
Definition similarity (a b : string) : Q :=
  if String.eqb a b then 1%Q
  else if contains b a
       then (Z.of_nat (2 * String.length b) # Pos.of_nat (String.length a + String.length b))
       else 0%Q.

Definition digit (n : nat) : string := String (ascii_of_nat (48 + Nat.modulo n 10)) EmptyString.

(** The model answers with the number of calls made before. *)
Definition plain (tr : list event) (messages : list turn) : string :=
  "answer " +++ digit (length tr).

(** The model emits the decision when the last message mentions Bob, and
    prose otherwise. *)
Definition structured (tr : list event) (messages : list turn) : reply string :=
  match content (List.last messages (mkTurn "" PNone)) with
  | PStr s => if contains "bob" (lower s) then Answer decision_text
              else Answer "Sure, here is what I think."
  | _ => Failure "bad request"
  end.

Definition env : services :=
  mkServices loads repr similarity plain structured
    (fun _ _ _ _ => None)
    (fun _ _ _ => Failure "offline")
    (fun _ => "can only concatenate str to str")
    (fun _ => false)
    (fun _ => "Tuesday, November 03, 2026").

Definition fresh (todos : list todo) : world := new_agent persona todos.

(** The world after the user's message of a first utterance is stored. *)
Definition heard (u : string) (todos : list todo) : world :=
  snd (push_turn "user" (PStr u) (fresh todos)).

Definition four_utterances : list string :=
  [ "I like tea"; "What is photosynthesis"; "Remind me to Call Bob"; "tell me something" ].

End Demo.

(** More answers of the model, for the other branches of the reasoning
    cycle. *)
Module Cases.

(** A decision that answers directly and asks for a memory to be saved. *)
Definition direct : list (string * pyval) :=
  [ ("thought", PStr "I know this."); ("action", PStr "none");
    ("final_answer", PStr "Paris."); ("save_memory", PBool true);
    ("memory_content", PStr "User asked about France") ].

Definition direct_text : string :=
  "{" +++ dq +++ "thought" +++ dq +++ ": " +++ dq +++ "I know this." +++ dq +++ ", "
      +++ dq +++ "action" +++ dq +++ ": " +++ dq +++ "none" +++ dq +++ ", "
      +++ dq +++ "final_answer" +++ dq +++ ": " +++ dq +++ "Paris." +++ dq +++ ", "
      +++ dq +++ "save_memory" +++ dq +++ ": true, "
      +++ dq +++ "memory_content" +++ dq +++ ": " +++ dq +++ "User asked about France"
      +++ dq +++ "}".

(** A decision without an answer. *)
Definition silent : list (string * pyval) :=
  [ ("thought", PStr "Not sure."); ("action", PStr "none") ].

Definition silent_text : string :=
  "{" +++ dq +++ "thought" +++ dq +++ ": " +++ dq +++ "Not sure." +++ dq +++ ", "
      +++ dq +++ "action" +++ dq +++ ": " +++ dq +++ "none" +++ dq +++ "}".

Definition loads (s : string) : option pyval :=
  if String.eqb s direct_text then Some (PDict direct)
  else if String.eqb s silent_text then Some (PDict silent)
  else if String.eqb s "[1]" then Some (PList [PNum 1])
  else Demo.loads s.

(** An environment whose structured call always gets the reply [r], and
    whose search finds one page with a short body. *)
Definition env (r : reply string) : services :=
  mkServices loads Demo.repr Demo.similarity Demo.plain
    (fun _ _ => r)
    (fun _ _ _ _ => None)
    (fun _ _ _ => Answer [mkHit "Rocq" "A proof assistant."])
    (fun _ => "can only concatenate str to str")
    (fun _ => false)
    (fun _ => "Tuesday, November 03, 2026").

(** The inside of the braces of [Demo.decision_text]. *)
Definition decision_inside : string :=
  String.substring 1 (String.length Demo.decision_text - 2) Demo.decision_text.

End Cases.

(** Decisions with a field that a small model got wrong. *)
Module Slips.

(** A decision that names the add-task tool and gives it no input. *)
Definition no_input : list (string * pyval) :=
  [ ("action", PStr "add_todo"); ("action_input", PNone) ].

Definition no_input_text : string :=
  "{" +++ dq +++ "action" +++ dq +++ ": " +++ dq +++ "add_todo" +++ dq +++ ", "
      +++ dq +++ "action_input" +++ dq +++ ": null}".

(** A decision that answers directly and asks for a list to be saved. *)
Definition hoard : list (string * pyval) :=
  [ ("action", PStr "none"); ("final_answer", PStr "Paris.");
    ("save_memory", PBool true);
    ("memory_content", PList [PStr "France"; PStr "Paris"]) ].

Definition hoard_text : string :=
  "{" +++ dq +++ "action" +++ dq +++ ": " +++ dq +++ "none" +++ dq +++ ", "
      +++ dq +++ "final_answer" +++ dq +++ ": " +++ dq +++ "Paris." +++ dq +++ ", "
      +++ dq +++ "save_memory" +++ dq +++ ": true, "
      +++ dq +++ "memory_content" +++ dq +++ ": ["
      +++ dq +++ "France" +++ dq +++ ", " +++ dq +++ "Paris" +++ dq +++ "]}".

(** The same without an answer. *)
Definition hoard_silent : list (string * pyval) :=
  [ ("action", PStr "none"); ("save_memory", PBool true);
    ("memory_content", PList [PStr "France"; PStr "Paris"]) ].

Definition hoard_silent_text : string :=
  "{" +++ dq +++ "action" +++ dq +++ ": " +++ dq +++ "none" +++ dq +++ ", "
      +++ dq +++ "save_memory" +++ dq +++ ": true, "
      +++ dq +++ "memory_content" +++ dq +++ ": ["
      +++ dq +++ "France" +++ dq +++ ", " +++ dq +++ "Paris" +++ dq +++ "]}".

Definition loads (s : string) : option pyval :=
  if String.eqb s no_input_text then Some (PDict no_input)
  else if String.eqb s hoard_text then Some (PDict hoard)
  else if String.eqb s hoard_silent_text then Some (PDict hoard_silent)
  else None.

(** An environment whose structured call always gets the reply [r]. *)
Definition env (r : reply string) : services :=
  mkServices loads Demo.repr Demo.similarity Demo.plain
    (fun _ _ => r)
    (fun _ _ _ _ => None)
    (fun _ _ _ => Failure "offline")
    (fun _ => "can only concatenate str to str")
    (fun _ => false)
    (fun _ => "Tuesday, November 03, 2026").

End Slips.

(* ================================================================= *)
(** * Properties *)

Section Properties.

Variable sv : services.

(** ** Parts of the world a computation leaves alone *)

Lemma kp_ret (A X : Type) (f : world -> X) (a : A) : keeps f (ret a).
Proof. intro w. reflexivity. Qed.

Lemma kp_raise (A X : Type) (f : world -> X) (e : exn) : keeps f (@raise A e).
Proof. intro w. reflexivity. Qed.

Lemma kp_gets (A X : Type) (f : world -> X) (g : world -> A) : keeps f (gets g).
Proof. intro w. reflexivity. Qed.

Lemma kp_modify (X : Type) (f : world -> X) (g : world -> world) :
  (forall w, f (g w) = f w) -> keeps f (modify g).
Proof. intros H w. apply H. Qed.

Lemma kp_bind (A B X : Type) (f : world -> X) (m : M A) (k : A -> M B) :
  keeps f m -> (forall a, keeps f (k a)) -> keeps f (bind m k).
Proof.
  intros Hm Hk w. unfold bind. specialize (Hm w).
  destruct (m w) as [[a|e] w1]; cbn in *.
  - rewrite Hk. exact Hm.
  - exact Hm.
Qed.

Ltac kp_step :=
  match goal with
  | |- keeps _ (bind _ _) => apply kp_bind; [| intro]
  | |- keeps _ (ret _) => apply kp_ret
  | |- keeps _ (raise _) => apply kp_raise
  | |- keeps _ (gets _) => apply kp_gets
  | |- keeps _ (modify _) => apply kp_modify; intro; reflexivity
  | |- keeps _ (if ?b then _ else _) => destruct b
  | |- keeps _ (match ?x with _ => _ end) => destruct x
  end.
Ltac kp := repeat kp_step.

(** Unfold the pipeline down to the monad's operations and discharge a
    [keeps] goal. *)
Ltac frame :=
  unfold tool_then_synthesize, execute_tool, memory_directive, internet_search,
    add_todo, complete_todo, get_current_date, mark_done, add_task, load_todos,
    save_todos, memory_query, call_model_json, call_model_plain, add_memory, log, emit;
  kp.

(** Nothing is handed to the memory store by a tool or by a model call. *)
Lemma execute_tool_collection (a i : pyval) : keeps collection (execute_tool sv a i).
Proof. frame. Qed.

Lemma call_model_plain_collection (ms : list turn) :
  keeps collection (call_model_plain sv ms).
Proof. frame. Qed.

(** ** The conversation window *)

Lemma slice_last_length (A : Type) (n : nat) (xs : list A) :
  0 < n -> length (slice_last n xs) <= n.
Proof.
  intros Hn. unfold slice_last. destruct n as [|n]; [lia|].
  rewrite length_skipn. lia.
Qed.

Lemma slice_last_short (A : Type) (n : nat) (xs : list A) :
  length xs <= n -> slice_last n xs = xs.
Proof.
  intros H. unfold slice_last. destruct n as [|n]; [reflexivity|].
  replace (length xs - S n) with 0 by lia. reflexivity.
Qed.

Lemma slice_last_app (A : Type) (n : nat) (xs ys : list A) :
  slice_last n (slice_last n xs ++ ys) = slice_last n (xs ++ ys).
Proof.
  unfold slice_last. destruct n as [|n]; [reflexivity|].
  destruct (Nat.le_gt_cases (length xs) (S n)) as [Hle|Hgt].
  - replace (length xs - S n) with 0 by lia. reflexivity.
  - rewrite !length_app, length_skipn.
    rewrite !skipn_app, length_skipn, skipn_skipn.
    f_equal.
    + f_equal. lia.
    + f_equal. lia.
Qed.

Lemma push_turn_window (r : string) (c : pyval) (w : world) :
  short_term (snd (push_turn r c w)) = slice_last max_context (short_term w ++ [mkTurn r c]).
Proof. reflexivity. Qed.

Lemma ao_respond (r : pyval) : answers_once (respond r).
Proof. intro w. reflexivity. Qed.

Lemma ao_raise (e : exn) : answers_once (raise e).
Proof. intro w. reflexivity. Qed.

Lemma ao_bind (A : Type) (m : M A) (k : A -> M pyval) :
  keeps short_term m -> (forall a, answers_once (k a)) -> answers_once (bind m k).
Proof.
  intros Hm Hk w. unfold bind. specialize (Hm w).
  destruct (m w) as [[a|e] w1]; cbn in *.
  - specialize (Hk a w1). destruct (k a w1) as [[r|e] w2]; rewrite Hk, Hm; reflexivity.
  - exact Hm.
Qed.

Ltac ao_step :=
  match goal with
  | |- answers_once (respond _) => apply ao_respond
  | |- answers_once (raise _) => apply ao_raise
  | |- answers_once (bind _ _) => apply ao_bind; [solve [frame] | intro]
  | |- answers_once (if ?b then _ else _) => destruct b
  | |- answers_once (match ?x with _ => _ end) => destruct x
  end.
Ltac ao := repeat ao_step.

Lemma ao_act_on_decision (d : list (string * pyval)) : answers_once (act_on_decision sv d).
Proof. unfold act_on_decision. ao. Qed.

Lemma ao_reasoning_cycle (u : string) : answers_once (reasoning_cycle sv u).
Proof. unfold reasoning_cycle. ao; apply ao_act_on_decision. Qed.

Lemma ao_route (u : string) : answers_once (route sv u).
Proof. unfold route. cbv zeta. ao; apply ao_reasoning_cycle. Qed.

Lemma process_window (u : string) (w : world) :
  short_term (snd (process_single_intent sv u w)) =
  slice_last max_context
    (short_term w ++ appended_turns [(u, fst (process_single_intent sv u w))]).
Proof.
  unfold process_single_intent, bind. cbn [push_turn modify].
  set (w1 := set_short_term _ w).
  pose proof (ao_route u w1) as H.
  destruct (route sv u w1) as [[r|e] w2]; cbn [fst snd appended_turns].
  - rewrite H. subst w1. cbn [short_term set_short_term].
    rewrite slice_last_app, <- app_assoc. reflexivity.
  - rewrite H. reflexivity.
Qed.

Lemma run_session_window (inputs : list string) (w : world) :
  length (short_term w) <= max_context ->
  short_term (snd (run_session sv inputs w)) =
  slice_last max_context (short_term w ++ appended_turns (fst (run_session sv inputs w))).
Proof.
  revert w. induction inputs as [|u rest IH]; intros w Hw.
  - cbn [run_session fst snd appended_turns]. rewrite app_nil_r.
    symmetry. apply slice_last_short. exact Hw.
  - cbn [run_session]. unfold reasoning_loop.
    pose proof (process_window u w) as Hp.
    destruct (process_single_intent sv u w) as [r w1] eqn:E1. cbn [fst snd] in Hp.
    assert (Hw1 : length (short_term w1) <= max_context).
    { rewrite Hp. apply slice_last_length. unfold max_context. lia. }
    specialize (IH w1 Hw1).
    destruct (run_session sv rest w1) as [outs w2] eqn:E2. cbn [fst snd] in *.
    rewrite IH, Hp, slice_last_app, <- app_assoc.
    destruct r as [a|e]; reflexivity.
Qed.

(** C3. The conversation window never holds more than [max_context] = 6
    turns: not after the user's turn is appended, not after the whole
    utterance is processed (the assistant's turn appended).  In a session
    of a new agent the window is the last 6 of the appended turns, and once
    more than 6 turns were appended it is exactly the 6 most recent of
    them, in the order of their appends. *)
Theorem C3_window_is_the_last_six :
  (forall u w, length (short_term (snd (push_turn "user" (PStr u) w))) <= max_context) /\
  (forall u w, length (short_term (snd (process_single_intent sv u w))) <= max_context) /\
  (forall inputs c todos,
      let outs := fst (run_session sv inputs (new_agent c todos)) in
      let w := snd (run_session sv inputs (new_agent c todos)) in
      let turns := appended_turns outs in
      length (short_term w) <= max_context /\
      short_term w = slice_last max_context turns /\
      (max_context < length turns ->
         short_term w = skipn (length turns - max_context) turns /\
         length (short_term w) = max_context)).
Proof.
  assert (Hpos : 0 < max_context) by (unfold max_context; lia).
  split; [|split].
  - intros u w. rewrite push_turn_window. apply slice_last_length, Hpos.
  - intros u w. rewrite process_window. apply slice_last_length, Hpos.
  - intros inputs c todos outs w turns.
    assert (Hw : short_term w = slice_last max_context turns).
    { subst w turns outs. rewrite run_session_window; [reflexivity|].
      cbn. lia. }
    split; [rewrite Hw; apply slice_last_length, Hpos|].
    split; [exact Hw|].
    intros Hlen. rewrite Hw. unfold slice_last, max_context in *.
    split; [reflexivity|]. rewrite length_skipn. lia.
Qed.

(** ** The task tools *)

Lemma Qgtb_true (a b : Q) : Qgtb a b = true <-> (b < a)%Q.
Proof.
  unfold Qgtb. rewrite negb_true_iff. split.
  - intros H. apply Qnot_le_lt. intros Hle.
    apply Qle_bool_iff in Hle. congruence.
  - intros H. destruct (Qle_bool a b) eqn:E; [|reflexivity].
    apply Qle_bool_iff in E. exfalso. exact (Qlt_not_le _ _ H E).
Qed.

Lemma Qgtb_false (a b : Q) : Qgtb a b = false <-> (a <= b)%Q.
Proof.
  unfold Qgtb. rewrite negb_false_iff. apply Qle_bool_iff.
Qed.

Lemma best_candidate_bound (text : string) (todos : list todo) :
  forall i bm bs x,
    (snd (best_candidate sv text todos i bm bs) <= x)%Q <->
    (bs <= x)%Q /\ (forall t, In t todos -> done t = false -> (ratio sv (lower text) (lower (task t)) <= x)%Q).
Proof.
  induction todos as [|t rest IH]; intros i bm bs x; cbn [best_candidate snd].
  - split; [intros H; split; [exact H | intros t []] | intros [H _]; exact H].
  - destruct (done t) eqn:Ed.
    + rewrite IH. split; intros [Hb Hall]; (split; [exact Hb|]).
      * intros t' [<-|Hin] Hd; [congruence | auto].
      * intros t' Hin Hd. apply Hall; [right; exact Hin | exact Hd].
    + destruct (Qgtb (ratio sv (lower text) (lower (task t))) bs) eqn:Eg; rewrite IH.
      * apply Qgtb_true in Eg.
        split; intros [Hb Hall]; split.
        -- apply Qlt_le_weak. eapply Qlt_le_trans; eassumption.
        -- intros t' [<-|Hin] Hd; [exact Hb | auto].
        -- apply Hall; [left; reflexivity | exact Ed].
        -- intros t' Hin Hd. apply Hall; [right; exact Hin | exact Hd].
      * apply Qgtb_false in Eg.
        split; intros [Hb Hall]; (split; [exact Hb|]).
        -- intros t' [<-|Hin] Hd; [eapply Qle_trans; eassumption | auto].
        -- intros t' Hin Hd. apply Hall; [right; exact Hin | exact Hd].
Qed.

Lemma best_open_score_bound (text : string) (todos : list todo) (x : Q) :
  (best_open_score sv text todos <= x)%Q <->
  (0 <= x)%Q /\ (forall t, In t todos -> done t = false -> (ratio sv (lower text) (lower (task t)) <= x)%Q).
Proof.
  induction todos as [|t rest IH]; cbn [best_open_score fold_right].
  - split; [intros H; split; [exact H | intros t []] | intros [H _]; exact H].
  - fold (best_open_score sv text rest). destruct (done t) eqn:Ed.
    + rewrite IH. split; intros [Hb Hall]; (split; [exact Hb|]).
      * intros t' [<-|Hin] Hd; [congruence | auto].
      * intros t' Hin Hd. apply Hall; [right; exact Hin | exact Hd].
    + unfold Qmaxb. destruct (Qle_bool (ratio sv (lower text) (lower (task t))) (best_open_score sv text rest)) eqn:El.
      * apply Qle_bool_iff in El. rewrite IH.
        split; intros [Hb Hall]; (split; [exact Hb|]).
        -- intros t' [<-|Hin] Hd; [|auto].
           eapply Qle_trans; [exact El|]. apply IH. split; assumption.
        -- intros t' Hin Hd. apply Hall; [right; exact Hin | exact Hd].
      * assert (Hlt : (best_open_score sv text rest < ratio sv (lower text) (lower (task t)))%Q).
        { apply Qnot_le_lt. intros Hle. apply Qle_bool_iff in Hle. congruence. }
        split.
        -- intros Hx. assert (Hr : (best_open_score sv text rest <= x)%Q).
           { apply Qlt_le_weak. eapply Qlt_le_trans; eassumption. }
           apply IH in Hr. destruct Hr as [H0 Hall]. split; [exact H0|].
           intros t' [<-|Hin] Hd; [exact Hx | auto].
        -- intros [_ Hall]. apply Hall; [left; reflexivity | exact Ed].
Qed.

Lemma best_candidate_accepts (text : string) (todos : list todo) (i : nat) (bm : option nat) :
  Qgtb (snd (best_candidate sv text todos i bm 0%Q)) threshold =
  Qgtb (best_open_score sv text todos) threshold.
Proof.
  unfold Qgtb. f_equal. apply eq_true_iff_eq.
  rewrite !Qle_bool_iff, best_candidate_bound, best_open_score_bound. reflexivity.
Qed.

Lemma best_candidate_index (text : string) (todos : list todo) :
  forall i0 bm bs i s,
    best_candidate sv text todos i0 bm bs = (Some i, s) ->
    bm = Some i \/
    (i0 <= i /\ exists t, nth_error todos (i - i0) = Some t /\ done t = false).
Proof.
  induction todos as [|t rest IH]; intros i0 bm bs i s H; cbn [best_candidate] in H.
  - left. congruence.
  - assert (Hstep : forall bm' bs',
               best_candidate sv text rest (S i0) bm' bs' = (Some i, s) ->
               bm' = Some i \/
               (i0 <= i /\ exists t0, nth_error (t :: rest) (i - i0) = Some t0 /\ done t0 = false)).
    { intros bm' bs' H'. apply IH in H'. destruct H' as [H' | [Hle [t0 [Hn Hd]]]]; [left; exact H'|].
      right. split; [lia|]. exists t0. split; [|exact Hd].
      replace (i - i0) with (S (i - S i0)) by lia. exact Hn. }
    destruct (done t) eqn:Ed; [apply Hstep in H; exact H|].
    destruct (Qgtb (ratio sv (lower text) (lower (task t))) bs); apply Hstep in H; [|exact H].
    destruct H as [H|H]; [|right; exact H].
    injection H as <-. right. split; [lia|]. exists t.
    rewrite Nat.sub_diag. split; [reflexivity | exact Ed].
Qed.

Lemma best_candidate_none (text : string) (todos : list todo) :
  forall i0 bm bs s,
    best_candidate sv text todos i0 bm bs = (None, s) -> bm = None /\ s = bs.
Proof.
  induction todos as [|t rest IH]; intros i0 bm bs s H; cbn [best_candidate] in H.
  - injection H as -> ->. split; reflexivity.
  - destruct (done t); [apply IH in H; exact H|].
    destruct (Qgtb (ratio sv (lower text) (lower (task t))) bs); apply IH in H; [|exact H].
    destruct H as [H _]. discriminate H.
Qed.

Lemma set_done_length (i : nat) (todos : list todo) :
  length (set_done i todos) = length todos.
Proof.
  revert i. induction todos as [|t rest IH]; intros [|i]; cbn; try reflexivity.
  f_equal. apply IH.
Qed.

Lemma set_done_tasks (i : nat) (todos : list todo) :
  map task (set_done i todos) = map task todos.
Proof.
  revert i. induction todos as [|t rest IH]; intros [|i]; cbn; try reflexivity.
  f_equal. apply IH.
Qed.

Lemma set_done_at (i : nat) (todos : list todo) (t : todo) :
  nth_error todos i = Some t ->
  nth_error (set_done i todos) i = Some (mkTodo (task t) true).
Proof.
  revert i. induction todos as [|t0 rest IH]; intros [|i] H; cbn in *; try discriminate.
  - injection H as ->. reflexivity.
  - apply IH, H.
Qed.

Lemma set_done_elsewhere (i j : nat) (todos : list todo) :
  j <> i -> nth_error (set_done i todos) j = nth_error todos j.
Proof.
  revert i j. induction todos as [|t0 rest IH]; intros [|i] [|j] H; cbn; try reflexivity.
  - lia.
  - apply IH. lia.
Qed.

(** What a call of [complete_todo] can do: nothing to the world, with a
    refusal or an exception, or mark one task that was not done. *)
Lemma complete_todo_cases (v : pyval) (w : world) :
  (snd (complete_todo sv v w) = w /\
   (fst (complete_todo sv v w) = Ok "There are no tasks to complete." \/
    fst (complete_todo sv v w) = Ok "No matching task found." \/
    fst (complete_todo sv v w) = Raise AttributeError)) \/
  (exists i t,
      nth_error (todo_file w) i = Some t /\ done t = false /\
      complete_todo sv v w =
        (Ok ("Task '" +++ task t +++ "' marked as done."),
         set_todo_file (set_done i (todo_file w)) w)).
Proof.
  unfold complete_todo, bind, load_todos, gets.
  destruct (todo_file w) as [|t0 rest] eqn:Et; [left; cbn; auto|].
  destruct v as [| | |s| |];
    try (left; destruct (existsb _ _); cbn; auto).
  destruct (best_candidate sv s (t0 :: rest) 0 None 0%Q) as [[i|] bs] eqn:Eb;
    [|left; cbn; auto].
  destruct (Qgtb bs threshold); [|left; cbn; auto].
  apply best_candidate_index in Eb. destruct Eb as [Eb|[_ [t [Hn Hd]]]]; [discriminate|].
  rewrite Nat.sub_0_r in Hn. right. exists i, t.
  split; [exact Hn|]. split; [exact Hd|].
  unfold mark_done, bind, load_todos, gets, save_todos, modify, ret.
  rewrite Et, Hn. reflexivity.
Qed.

(** C2, as the code has it.  [complete_todo] answers "There are no tasks
    to complete." when the task list is empty, and "No matching task
    found." when the list is not empty and the best similarity score over
    the tasks that are not done is at most 0.45; in both cases nothing
    changes.  It changes the world only when the best score is strictly
    above 0.45, and then it does mark a task that was not done. *)
Theorem C2_complete_todo_refusals (text : string) (w : world) :
  (todo_file w = [] ->
     complete_todo sv (PStr text) w = (Ok "There are no tasks to complete.", w)) /\
  (todo_file w <> [] ->
   (best_open_score sv text (todo_file w) <= threshold)%Q ->
     complete_todo sv (PStr text) w = (Ok "No matching task found.", w)) /\
  (snd (complete_todo sv (PStr text) w) <> w ->
     (threshold < best_open_score sv text (todo_file w))%Q) /\
  (todo_file w <> [] ->
   (threshold < best_open_score sv text (todo_file w))%Q ->
     exists i t,
       nth_error (todo_file w) i = Some t /\ done t = false /\
       complete_todo sv (PStr text) w =
         (Ok ("Task '" +++ task t +++ "' marked as done."),
          set_todo_file (set_done i (todo_file w)) w)).
Proof.
  pose proof (best_candidate_accepts text (todo_file w) 0 None) as Hacc.
  unfold complete_todo, bind, load_todos, gets.
  destruct (todo_file w) as [|t0 rest] eqn:Et.
  - split; [reflexivity|]. split; [intros H; contradiction|].
    split; [intros H; cbn in H; contradiction|]. intros H; contradiction.
  - split; [discriminate|].
    destruct (best_candidate sv text (t0 :: rest) 0 None 0%Q) as [[i|] bs] eqn:Eb;
      cbn [snd] in Hacc.
    + destruct (Qgtb bs threshold) eqn:Eg.
      * symmetry in Hacc. apply Qgtb_true in Hacc.
        split; [intros _ Hle; exfalso; exact (Qlt_not_le _ _ Hacc Hle)|].
        split; [intros _; exact Hacc|]. intros _ _.
        apply best_candidate_index in Eb.
        destruct Eb as [Eb|[_ [t [Hn Hd]]]]; [discriminate|].
        rewrite Nat.sub_0_r in Hn. exists i, t.
        split; [exact Hn|]. split; [exact Hd|].
        unfold mark_done, bind, load_todos, gets, save_todos, modify, ret.
        rewrite Et, Hn. reflexivity.
      * symmetry in Hacc. apply Qgtb_false in Hacc.
        split; [reflexivity|].
        split; [intros H; cbn in H; contradiction|].
        intros _ Hlt. exfalso. exact (Qlt_not_le _ _ Hlt Hacc).
    + apply best_candidate_none in Eb. destruct Eb as [_ ->].
      assert (H0 : Qgtb 0 threshold = false) by reflexivity.
      rewrite H0 in Hacc. symmetry in Hacc. apply Qgtb_false in Hacc.
      split; [reflexivity|].
      split; [intros H; cbn in H; contradiction|].
      intros _ Hlt. exfalso. exact (Qlt_not_le _ _ Hlt Hacc).
Qed.

(** C10. [complete_todo] keeps the length of the task list, every task
    text in its place, and every task that is already done as it is.
    Either the list is unchanged and the answer is not a confirmation, or
    exactly one entry, one that was not done, has its flag set and every
    other entry is what it was. *)
Theorem C10_complete_todo_frame (task_text : pyval) (w : world) :
  let r := fst (complete_todo sv task_text w) in
  let w' := snd (complete_todo sv task_text w) in
  length (todo_file w') = length (todo_file w) /\
  map task (todo_file w') = map task (todo_file w) /\
  (forall j t, nth_error (todo_file w) j = Some t -> done t = true ->
               nth_error (todo_file w') j = Some t) /\
  ((todo_file w' = todo_file w /\
    forall s, r <> Ok ("Task '" +++ s +++ "' marked as done.")) \/
   (exists i t,
       nth_error (todo_file w) i = Some t /\ done t = false /\
       r = Ok ("Task '" +++ task t +++ "' marked as done.") /\
       nth_error (todo_file w') i = Some (mkTodo (task t) true) /\
       forall j, j <> i -> nth_error (todo_file w') j = nth_error (todo_file w) j)).
Proof.
  intros r w'. subst r w'.
  destruct (complete_todo_cases task_text w) as [[Hw Hr]|[i [t [Hn [Hd Hc]]]]].
  - rewrite Hw. split; [reflexivity|]. split; [reflexivity|].
    split; [intros j t H _; exact H|]. left. split; [reflexivity|].
    intros s. destruct Hr as [Hr | [Hr | Hr]]; rewrite Hr; cbn; discriminate.
  - rewrite Hc. cbn [fst snd todo_file set_todo_file].
    split; [apply set_done_length|]. split; [apply set_done_tasks|].
    split.
    + intros j t' Hj Hdone. destruct (Nat.eq_dec j i) as [->|Hne].
      * rewrite Hn in Hj. injection Hj as <-. congruence.
      * rewrite set_done_elsewhere; assumption.
    + right. exists i, t. split; [exact Hn|]. split; [exact Hd|].
      split; [reflexivity|]. split; [apply set_done_at, Hn|].
      intros j Hne. apply set_done_elsewhere, Hne.
Qed.

Lemma add_todo_duplicate (s : string) (w : world) :
  existsb (fun t => String.eqb (lower (strip s)) (lower (strip (task t)))) (todo_file w) = true ->
  add_todo (PStr s) w = (Ok "Task already exists.", w).
Proof.
  intros H. unfold add_todo, bind, load_todos, gets. rewrite H. reflexivity.
Qed.

Lemma add_todo_new (s : string) (w : world) :
  existsb (fun t => String.eqb (lower (strip s)) (lower (strip (task t)))) (todo_file w) = false ->
  add_todo (PStr s) w =
    (Ok ("Task '" +++ s +++ "' added."),
     set_todo_file (todo_file w ++ [mkTodo s false]) w).
Proof.
  intros H. unfold add_todo, bind, load_todos, gets. rewrite H. reflexivity.
Qed.

(** C6, as the code has it.  Of two calls of [add_todo] with texts that
    are equal after trimming and lower-casing, the second answers "Task
    already exists." and adds nothing.  Over the two calls the task list
    grows by exactly one entry when no task with that text (up to trimming
    and case) was there before the first call, and by none when one was. *)
Theorem C6_add_todo_twice (t1 t2 : string) (w : world) :
  lower (strip t1) = lower (strip t2) ->
  let w1 := snd (add_todo (PStr t1) w) in
  let w2 := snd (add_todo (PStr t2) w1) in
  fst (add_todo (PStr t2) w1) = Ok "Task already exists." /\
  todo_file w2 = todo_file w1 /\
  ((forall t, In t (todo_file w) -> lower (strip (task t)) <> lower (strip t1)) ->
     fst (add_todo (PStr t1) w) = Ok ("Task '" +++ t1 +++ "' added.") /\
     todo_file w2 = todo_file w ++ [mkTodo t1 false] /\
     length (todo_file w2) = length (todo_file w) + 1) /\
  ((exists t, In t (todo_file w) /\ lower (strip (task t)) = lower (strip t1)) ->
     fst (add_todo (PStr t1) w) = Ok "Task already exists." /\
     todo_file w2 = todo_file w).
Proof.
  intros Heq w1 w2. subst w2 w1.
  destruct (existsb (fun t => String.eqb (lower (strip t1)) (lower (strip (task t))))
                    (todo_file w)) eqn:E1.
  - rewrite (add_todo_duplicate t1 w E1). cbn [fst snd].
    assert (E2 : existsb (fun t => String.eqb (lower (strip t2)) (lower (strip (task t))))
                         (todo_file w) = true) by (rewrite <- Heq; exact E1).
    rewrite (add_todo_duplicate t2 w E2). cbn [fst snd].
    split; [reflexivity|]. split; [reflexivity|]. split.
    + intros Hfresh. apply existsb_exists in E1. destruct E1 as [t [Hin Ht]].
      apply String.eqb_eq in Ht. exfalso. apply (Hfresh t Hin). symmetry. exact Ht.
    + intros _. split; reflexivity.
  - rewrite (add_todo_new t1 w E1). cbn [fst snd].
    assert (E2 : existsb (fun t => String.eqb (lower (strip t2)) (lower (strip (task t))))
                         (todo_file (set_todo_file (todo_file w ++ [mkTodo t1 false]) w)) = true).
    { cbn [todo_file set_todo_file]. rewrite existsb_app. apply orb_true_iff. right.
      cbn [existsb task]. rewrite Heq, String.eqb_refl. reflexivity. }
    rewrite (add_todo_duplicate t2 _ E2). cbn [fst snd todo_file set_todo_file].
    split; [reflexivity|]. split; [reflexivity|]. split.
    + intros _. split; [reflexivity|]. split; [reflexivity|].
      rewrite length_app. reflexivity.
    + intros [t [Hin Ht]]. exfalso.
      assert (Hex : existsb (fun t => String.eqb (lower (strip t1)) (lower (strip (task t))))
                            (todo_file w) = true).
      { apply existsb_exists. exists t. split; [exact Hin|].
        apply String.eqb_eq. symmetry. exact Ht. }
      congruence.
Qed.

(** ** Strings: [split] and the last occurrence *)

Lemma startswith_nil (s : string) : startswith s "" = true.
Proof. destruct s; reflexivity. Qed.

Lemma startswith_app_short (sep : string) :
  forall u b, startswith (u +++ b) sep = true ->
              String.length u <= String.length sep ->
              startswith sep u = true.
Proof.
  induction sep as [|c' sep' IH]; intros [|c u'] b H Hlen; cbn in *; try reflexivity; try lia.
  apply andb_true_iff in H. destruct H as [Hc Hs].
  apply Ascii.eqb_eq in Hc. subst c'.
  rewrite Ascii.eqb_refl. cbn. apply (IH u' b Hs). lia.
Qed.

Lemma startswith_split (sep : string) :
  forall s, startswith s sep = true -> s = sep +++ drop (String.length sep) s.
Proof.
  induction sep as [|c' sep' IH]; intros s H.
  - destruct s; reflexivity.
  - destruct s as [|c r]; cbn in H; [discriminate|].
    apply andb_true_iff in H. destruct H as [Hc Hs].
    apply Ascii.eqb_eq in Hc. subst c'. cbn. f_equal. apply IH, Hs.
Qed.

Lemma append_length (a b : string) :
  String.length (a +++ b) = String.length a + String.length b.
Proof. induction a as [|c a IH]; cbn; [reflexivity | rewrite IH; reflexivity]. Qed.

Lemma drop_app_length (a b : string) : drop (String.length a) (a +++ b) = b.
Proof. induction a as [|c a IH]; cbn; [destruct b; reflexivity | exact IH]. Qed.

Lemma drop_length (k : nat) : forall s, String.length (drop k s) = String.length s - k.
Proof.
  induction k as [|k IH]; intros [|c r]; cbn; try reflexivity.
  apply IH.
Qed.

Lemma after_last_skip (sep b : string) :
  forall u, String.length u < String.length sep ->
            no_suffix_starts sep u = true ->
            after_last sep (u +++ b) = after_last sep b.
Proof.
  induction u as [|c u' IH]; intros Hlen Hns; [reflexivity|].
  cbn [no_suffix_starts] in Hns. apply andb_true_iff in Hns. destruct Hns as [Hn Hns].
  apply negb_true_iff in Hn.
  change (String c u' +++ b) with (String c (u' +++ b)).
  cbn [after_last]. rewrite IH; [|cbn in Hlen; lia | exact Hns].
  destruct (after_last sep b) as [t|]; [reflexivity|].
  destruct (startswith (String c (u' +++ b)) sep) eqn:Es; [|reflexivity].
  change (String c (u' +++ b)) with (String c u' +++ b) in Es.
  apply startswith_app_short in Es; [congruence | lia].
Qed.

Lemma after_last_at_occurrence (sep s : string) :
  borderless sep = true -> startswith s sep = true ->
  after_last sep s =
    Some (match after_last sep (drop (String.length sep) s) with
          | Some t => t
          | None => drop (String.length sep) s
          end).
Proof.
  intros Hb Hs. pose proof (startswith_split sep s Hs) as Hsplit.
  set (b := drop (String.length sep) s) in *.
  destruct sep as [|c t]; [discriminate Hb|].
  cbn [borderless] in Hb. rewrite Hsplit.
  change (String c t +++ b) with (String c (t +++ b)).
  cbn [after_last]. rewrite (after_last_skip (String c t) b t); [|cbn; lia | exact Hb].
  destruct (after_last (String c t) b) as [x|]; [reflexivity|].
  change (String c (t +++ b)) with (String c t +++ b).
  rewrite <- Hsplit, Hs. reflexivity.
Qed.

Lemma after_last_from_find (sep : string) :
  borderless sep = true ->
  forall s i, find sep s = Some i ->
    after_last sep s =
      Some (match after_last sep (drop (i + String.length sep) s) with
            | Some t => t
            | None => drop (i + String.length sep) s
            end).
Proof.
  intros Hb. induction s as [|c r IH]; intros i Hf.
  - destruct sep; [discriminate Hb | discriminate Hf].
  - cbn [find] in Hf. destruct (startswith (String c r) sep) eqn:Es.
    + injection Hf as <-. apply after_last_at_occurrence; assumption.
    + destruct (find sep r) as [i'|] eqn:Ef; [|discriminate]. cbn in Hf.
      injection Hf as <-. cbn [after_last]. rewrite (IH i' eq_refl).
      reflexivity.
Qed.

Lemma after_last_no_find (sep : string) :
  forall s, find sep s = None -> after_last sep s = None.
Proof.
  induction s as [|c r IH]; intros Hf; [reflexivity|].
  cbn [find] in Hf. destruct (startswith (String c r) sep) eqn:Es; [discriminate|].
  destruct (find sep r) eqn:Ef; [discriminate|].
  cbn [after_last]. rewrite (IH eq_refl), Es. reflexivity.
Qed.

Lemma contains_find (sep : string) :
  forall s, contains sep s = true -> exists i, find sep s = Some i.
Proof.
  induction s as [|c r IH]; intros H; cbn [contains] in H.
  - rewrite orb_false_r in H. exists 0. cbn [find]. rewrite H. reflexivity.
  - cbn [find]. destruct (startswith (String c r) sep); [exists 0; reflexivity|].
    cbn in H. destruct (IH H) as [i Hi]. exists (S i). rewrite Hi. reflexivity.
Qed.

Lemma find_bound (sep : string) :
  forall s i, find sep s = Some i -> i + String.length sep <= String.length s.
Proof.
  induction s as [|c r IH]; intros i Hf; cbn [find] in Hf.
  - destruct sep; [injection Hf as <-; cbn; lia | discriminate Hf].
  - destruct (startswith (String c r) sep) eqn:Es.
    + injection Hf as <-. apply startswith_split in Es.
      apply (f_equal String.length) in Es. rewrite append_length in Es.
      cbn in *. lia.
    + destruct (find sep r) as [i'|] eqn:Ef; [|discriminate]. injection Hf as <-.
      specialize (IH i' eq_refl). cbn. lia.
Qed.

Lemma split_rounds_not_nil (n : nat) (sep s : string) : split_rounds n sep s <> [].
Proof. destruct n; cbn; [discriminate|]. destruct (find sep s); discriminate. Qed.

Lemma last_piece_cons (a : string) (l : list string) :
  l <> [] -> last_piece (a :: l) = last_piece l.
Proof. intros H. unfold last_piece. destruct l; [contradiction | reflexivity]. Qed.

Lemma split_rounds_last (sep : string) :
  borderless sep = true ->
  forall n s, String.length s <= n ->
    last_piece (split_rounds n sep s) =
      match after_last sep s with
      | Some t => t
      | None => s
      end.
Proof.
  intros Hb. induction n as [|n IH]; intros s Hlen.
  - destruct s; [reflexivity | cbn in Hlen; lia].
  - cbn [split_rounds]. destruct (find sep s) as [i|] eqn:Ef.
    + rewrite last_piece_cons by apply split_rounds_not_nil.
      rewrite (after_last_from_find sep Hb s i Ef).
      apply IH. rewrite drop_length.
      pose proof (find_bound sep s i Ef).
      destruct sep; [discriminate Hb | cbn in *; lia].
    + rewrite (after_last_no_find sep s Ef). reflexivity.
Qed.

(** For a separator whose occurrences cannot overlap, the last piece of
    [split] is what follows the last occurrence. *)
Lemma split_last_is_after_last (sep s : string) :
  borderless sep = true -> contains sep s = true ->
  after_last sep s = Some (last_piece (split sep s)).
Proof.
  intros Hb Hc. unfold split. rewrite (split_rounds_last sep Hb) by lia.
  destruct (contains_find sep s Hc) as [i Hi].
  rewrite (after_last_from_find sep Hb s i Hi). reflexivity.
Qed.

Lemma task_triggers_borderless (t : string) :
  In t task_triggers -> borderless t = true.
Proof.
  intros [<-|[<-|[<-|[]]]]; reflexivity.
Qed.

(** ** Strings: lower case *)









(** ** Tests over the rule lists *)

Lemma existsb_all_false (A : Type) (f : A -> bool) (l : list A) :
  (forall x, In x l -> f x = false) -> existsb f l = false.
Proof.
  induction l as [|a l IH]; intros H; [reflexivity|].
  cbn. rewrite (H a (or_introl eq_refl)). apply IH.
  intros x Hx. apply H. right. exact Hx.
Qed.

Lemma find_all_false (A : Type) (f : A -> bool) (l : list A) :
  (forall x, In x l -> f x = false) -> List.find f l = None.
Proof.
  induction l as [|a l IH]; intros H; [reflexivity|].
  cbn. rewrite (H a (or_introl eq_refl)). apply IH.
  intros x Hx. apply H. right. exact Hx.
Qed.

Lemma find_first (A : Type) (f : A -> bool) (pre post : list A) (x : A) :
  (forall y, In y pre -> f y = false) -> f x = true ->
  List.find f (pre ++ x :: post) = Some x.
Proof.
  induction pre as [|a pre IH]; intros Hpre Hx; cbn.
  - rewrite Hx. reflexivity.
  - rewrite (Hpre a (or_introl eq_refl)). apply IH; [|exact Hx].
    intros y Hy. apply Hpre. right. exact Hy.
Qed.

Lemma is_preference_true (user_lower : string) :
  (exists p, In p preference_prefixes /\ startswith user_lower p = true) ->
  endswith user_lower "?" = false ->
  is_preference user_lower = true.
Proof.
  intros [p [Hin Hp]] He. unfold is_preference. rewrite He.
  rewrite andb_true_r.
  destruct Hin as [<-|[<-|[<-|[<-|[<-|[]]]]]]; rewrite Hp;
    rewrite ?orb_true_r; reflexivity.
Qed.

Lemma add_todo_ok (s : string) (w : world) :
  exists msg w', add_todo (PStr s) w = (Ok msg, w').
Proof.
  destruct (existsb (fun t => String.eqb (lower (strip s)) (lower (strip (task t))))
                    (todo_file w)) eqn:E.
  - rewrite (add_todo_duplicate s w E). eauto.
  - rewrite (add_todo_new s w E). eauto.
Qed.

(** ** The deterministic rules *)

Lemma process_rule1 (u : string) (w : world) :
  is_preference (strip (lower u)) = true ->
  process_single_intent sv u w =
    (Ok (PStr "Got it. I'll remember that."),
     snd (push_turn "assistant" (PStr "Got it. I'll remember that.")
       (snd (log "Preference stored deterministically."
         (snd (add_memory sv (PStr ("User preference: " +++ strip u))
           (snd (push_turn "user" (PStr u) w)))))))).
Proof.
  intros H. unfold process_single_intent, route. cbv zeta. rewrite H. reflexivity.
Qed.

Lemma process_rule3 (u trigger : string) (w : world) :
  is_preference (strip (lower u)) = false ->
  is_completion (strip (lower u)) = false ->
  first_trigger (strip (lower u)) = Some trigger ->
  process_single_intent sv u w =
    bind (add_todo (PStr (strip (last_piece (split trigger (strip (lower u)))))))
         (fun response => respond (PStr response))
         (snd (push_turn "user" (PStr u) w)).
Proof.
  intros H1 H2 H3. unfold process_single_intent, route. cbv zeta.
  rewrite H1, H2, H3. reflexivity.
Qed.

Lemma process_rule5 (u : string) (w : world) :
  is_preference (strip (lower u)) = false ->
  is_completion (strip (lower u)) = false ->
  first_trigger (strip (lower u)) = None ->
  is_date_query (strip (lower u)) = false ->
  is_knowledge_question (strip (lower u)) = true ->
  has_search_intent (strip (lower u)) = false ->
  let w1 := snd (push_turn "user" (PStr u) w) in
  let ms := knowledge_messages (cfg w) u in
  let answer := chat_plain sv (trace w) ms in
  process_single_intent sv u w =
    (Ok (PStr answer),
     snd (push_turn "assistant" (PStr answer)
       (snd (emit (ChatPlain ms)
         (snd (log "Knowledge guard triggered." w1)))))).
Proof.
  intros H1 H2 H3 H4 H5 H6. unfold process_single_intent, route. cbv zeta.
  rewrite H1, H2, H3, H4, H5, H6. reflexivity.
Qed.

(** C5. When the lower-cased, trimmed input starts with one of the
    preference phrasings and does not end with a question mark, processing
    it answers with the fixed acknowledgment, hands exactly one document to
    the memory store, "User preference: " followed by the trimmed input,
    and calls no outside service: no language-model call is issued. *)
Theorem C5_preference_capture (u : string) (w : world) :
  (exists p, In p preference_prefixes /\ startswith (strip (lower u)) p = true) ->
  endswith (strip (lower u)) "?" = false ->
  let r := fst (process_single_intent sv u w) in
  let w' := snd (process_single_intent sv u w) in
  r = Ok (PStr "Got it. I'll remember that.") /\
  collection w' = collection w ++ [PStr ("User preference: " +++ strip u)] /\
  trace w' = trace w /\
  todo_file w' = todo_file w.
Proof.
  intros Hp He r w'. subst r w'.
  rewrite (process_rule1 u w (is_preference_true _ Hp He)).
  repeat split.
Qed.

(** C7. When rules 1 to 4 do not match, the normalised input starts with a
    knowledge-question prefix and holds no search-intent keyword, the
    answer is the text of one plain model call whose messages are the
    persona line and the raw question.  That call is the only call to an
    outside service: the memory store is not queried, no tool runs, and
    neither the memory store nor the task list changes. *)
Theorem C7_knowledge_guard (u : string) (w : world) :
  is_preference (strip (lower u)) = false ->
  (forall k, In k completion_keywords -> contains k (strip (lower u)) = false) ->
  (forall t, In t task_triggers -> contains t (strip (lower u)) = false) ->
  (forall k, In k date_keywords -> contains k (strip (lower u)) = false) ->
  (exists p, In p knowledge_prefixes /\ startswith (strip (lower u)) p = true) ->
  (forall k, In k search_intent_keywords -> contains k (strip (lower u)) = false) ->
  let question :=
    [ mkTurn "system" (PStr ("You are " +++ agent_role (cfg w) +++ "."));
      mkTurn "user" (PStr u) ] in
  let r := fst (process_single_intent sv u w) in
  let w' := snd (process_single_intent sv u w) in
  r = Ok (PStr (chat_plain sv (trace w) question)) /\
  trace w' = trace w ++ [ChatPlain question] /\
  collection w' = collection w /\
  todo_file w' = todo_file w.
Proof.
  intros H1 H2 H3 H4 [p [Hin Hp]] H6 question r w'. subst r w' question.
  rewrite (process_rule5 u w H1).
  - repeat split.
  - apply existsb_all_false. exact H2.
  - apply find_all_false. exact H3.
  - unfold is_date_query.
    rewrite (H4 "today"), (H4 "current date"); cbn; auto.
  - apply existsb_exists. exists p. split; assumption.
  - apply existsb_all_false. exact H6.
Qed.

(** C8. When rules 1 and 2 do not match and [trigger] is the first of the
    task-creation triggers, in their configured order, that occurs in the
    normalised input, the text handed to [add_todo] is the trimmed text that
    follows the last occurrence of [trigger] in the normalised input, and
    the answer is the text [add_todo] returned.  Triggers later in the
    order play no part. *)
Theorem C8_task_creation (u trigger : string) (pre post : list string) (w : world) :
  is_preference (strip (lower u)) = false ->
  (forall k, In k completion_keywords -> contains k (strip (lower u)) = false) ->
  task_triggers = pre ++ trigger :: post ->
  (forall t, In t pre -> contains t (strip (lower u)) = false) ->
  contains trigger (strip (lower u)) = true ->
  exists rest msg w2,
    after_last trigger (strip (lower u)) = Some rest /\
    add_todo (PStr (strip rest)) (snd (push_turn "user" (PStr u) w)) = (Ok msg, w2) /\
    process_single_intent sv u w =
      (Ok (PStr msg), snd (push_turn "assistant" (PStr msg) w2)).
Proof.
  intros H1 H2 Hlist Hpre Hocc.
  assert (Hin : In trigger task_triggers).
  { rewrite Hlist. apply in_or_app. right. left. reflexivity. }
  assert (Hfirst : first_trigger (strip (lower u)) = Some trigger).
  { unfold first_trigger. rewrite Hlist.
    apply (find_first _ (fun t => contains t (strip (lower u)))); assumption. }
  pose proof (split_last_is_after_last trigger (strip (lower u))
                (task_triggers_borderless trigger Hin) Hocc) as Hlast.
  set (rest := last_piece (split trigger (strip (lower u)))) in *.
  destruct (add_todo_ok (strip rest) (snd (push_turn "user" (PStr u) w))) as [msg [w2 Hadd]].
  exists rest, msg, w2. split; [exact Hlast|]. split; [exact Hadd|].
  rewrite (process_rule3 u trigger w H1 (existsb_all_false _ _ _ H2) Hfirst).
  fold rest. unfold bind. rewrite Hadd. reflexivity.
Qed.

(** ** Strings: trimming *)






(** ** Strings: what lower-casing keeps *)








(** ** Computations that never raise *)

Lemma rt_ret (A : Type) (a : A) : returns (ret a).
Proof. intro w. eexists; eexists; reflexivity. Qed.

Lemma rt_gets (A : Type) (f : world -> A) : returns (gets f).
Proof. intro w. eexists; eexists; reflexivity. Qed.

Lemma rt_modify (f : world -> world) : returns (modify f).
Proof. intro w. eexists; eexists; reflexivity. Qed.

Lemma rt_bind (A B : Type) (m : M A) (k : A -> M B) :
  returns m -> (forall a, returns (k a)) -> returns (bind m k).
Proof.
  intros Hm Hk w. destruct (Hm w) as [a [w1 E1]]. destruct (Hk a w1) as [b [w2 E2]].
  exists b, w2. unfold bind. rewrite E1. exact E2.
Qed.

Ltac rt_step :=
  match goal with
  | |- returns (bind _ _) => apply rt_bind; [| intro]
  | |- returns (ret _) => apply rt_ret
  | |- returns (gets _) => apply rt_gets
  | |- returns (modify _) => apply rt_modify
  | |- returns (if ?b then _ else _) => destruct b
  | |- returns (match ?x with _ => _ end) => destruct x
  end.
Ltac rt := repeat rt_step.

Lemma rt_log (entry : string) : returns (log entry).
Proof. unfold log. rt. Qed.

Lemma rt_call_model_plain (ms : list turn) : returns (call_model_plain sv ms).
Proof. unfold call_model_plain, emit. rt. Qed.

Lemma rt_mark_done (i : nat) : returns (mark_done i).
Proof. unfold mark_done, load_todos, save_todos. rt. Qed.

Lemma rt_internet_search (q : string) : returns (internet_search sv (PStr q)).
Proof. unfold internet_search, emit. rt. Qed.

Lemma rt_add_todo (s : string) : returns (add_todo (PStr s)).
Proof. unfold add_todo, add_task, load_todos, save_todos. rt. Qed.

Lemma rt_complete_todo (s : string) : returns (complete_todo sv (PStr s)).
Proof.
  unfold complete_todo, load_todos. apply rt_bind; [apply rt_gets|].
  intros [|t rest]; [apply rt_ret|].
  destruct (best_candidate sv s (t :: rest) 0 None 0%Q) as [[i|] bs]; [|apply rt_ret].
  destruct (Qgtb bs threshold); [apply rt_mark_done | apply rt_ret].
Qed.

Lemma rt_get_current_date : returns (get_current_date sv).
Proof. unfold get_current_date, emit. rt. Qed.

(** With text as its input, no tool raises, whatever the action. *)
Lemma rt_execute_tool (action : pyval) (s : string) :
  returns (execute_tool sv action (PStr s)).
Proof.
  unfold execute_tool.
  apply rt_bind; [apply rt_log | intro].
  apply rt_bind; [apply rt_log | intro].
  apply rt_bind.
  - destruct (is_str action "search");
      [apply rt_bind; [apply rt_internet_search | intro; apply rt_ret]|].
    destruct (is_str action "add_todo");
      [apply rt_bind; [apply rt_add_todo | intro; apply rt_ret]|].
    destruct (is_str action "complete_todo");
      [apply rt_bind; [apply rt_complete_todo | intro; apply rt_ret]|].
    destruct (is_str action "date");
      [apply rt_bind; [apply rt_get_current_date | intro; apply rt_ret]|].
    apply rt_ret.
  - intro result. apply rt_bind; [|intro; apply rt_ret].
    destruct (truthy result); [apply rt_log | apply rt_ret].
Qed.

(** ** The reasoning cycle, step by step *)

Lemma bind_ok (A B : Type) (m : M A) (k : A -> M B) (w w' : world) (a : A) :
  m w = (Ok a, w') -> bind m k w = k a w'.
Proof. intros H. unfold bind. rewrite H. reflexivity. Qed.

Lemma bind_raise (A B : Type) (m : M A) (k : A -> M B) (w w' : world) (e : exn) :
  m w = (Raise e, w') -> bind m k w = (Raise e, w').
Proof. intros H. unfold bind. rewrite H. reflexivity. Qed.

Lemma log_run (entry : string) (w : world) : log entry w = (Ok tt, snd (log entry w)).
Proof. reflexivity. Qed.

Lemma gets_run (A : Type) (f : world -> A) (w : world) : gets f w = (Ok (f w), w).
Proof. reflexivity. Qed.

Lemma memory_query_run (q : string) (k : nat) (w : world) :
  memory_query sv q k w = (Ok (recall sv w q k), snd (emit (MemoryQuery q k) w)).
Proof.
  unfold memory_query, recall, bind, gets, emit, modify.
  destruct (collection_query sv (trace w) (collection w) q k); reflexivity.
Qed.

Lemma call_model_json_run (ms : list turn) (text : string) (w : world) :
  chat_json sv (trace w) ms = Answer text ->
  call_model_json sv ms w = (Ok (safe_parse sv text), snd (emit (ChatJson ms) w)).
Proof.
  intros H. unfold call_model_json, bind, gets, emit, modify. rewrite H. reflexivity.
Qed.

Lemma call_model_plain_run (ms : list turn) (w : world) :
  call_model_plain sv ms w =
    (Ok (chat_plain sv (trace w) ms), snd (emit (ChatPlain ms) w)).
Proof. reflexivity. Qed.

Lemma safe_parse_fails (text : string) :
  json_loads sv text = None ->
  (forall m, brace_span text = Some m -> json_loads sv m = None) ->
  safe_parse sv text = PNone.
Proof.
  intros H1 H2. unfold safe_parse. rewrite H1.
  destruct (brace_span text) as [m|]; [|reflexivity].
  rewrite (H2 m eq_refl). reflexivity.
Qed.

Lemma block_run (a i obs : pyval) (ans : string) (w w1 w2 : world) :
  execute_tool sv a i w = (Ok obs, w1) ->
  call_model_plain sv (second_messages sv obs) w1 = (Ok ans, w2) ->
  (r <- tool_then_synthesize sv a i ;; ret (PStr r)) w = (Ok (PStr ans), w2).
Proof.
  intros H1 H2. unfold tool_then_synthesize, bind. rewrite H1, H2. reflexivity.
Qed.

Lemma fallback_run (ans : string) (w : world) :
  exists v,
    (if negb (truthy (PStr ans))
     then log "Final answer missing from JSON. Falling back to plain model." ;;
          window <- gets short_term ;;
          r <- call_model_plain sv window ;;
          ret (PStr r)
     else ret (PStr ans)) w =
    (Ok v,
     if truthy (PStr ans) then w
     else snd (call_model_plain sv (short_term w)
                 (snd (log "Final answer missing from JSON. Falling back to plain model." w)))).
Proof.
  destruct (truthy (PStr ans)); cbn [negb]; eexists; reflexivity.
Qed.

Lemma memory_directive_run (save_memory memory_content : pyval) (w : world) :
  (truthy save_memory && truthy memory_content = true -> storable sv memory_content = true) ->
  memory_directive sv save_memory memory_content w =
    (Ok tt, snd (memory_directive sv save_memory memory_content w)).
Proof.
  intros H. unfold memory_directive.
  destruct (truthy save_memory && truthy memory_content); [|reflexivity].
  specialize (H eq_refl). unfold bind, add_memory.
  destruct memory_content; cbn in H; try discriminate H; try rewrite H; reflexivity.
Qed.

(** What the memory directive does when the store does not take the
    value: it raises before anything is written or logged. *)
Lemma memory_directive_rejects (sm mc : pyval) (w : world) :
  truthy sm && truthy mc = true -> storable sv mc = false ->
  memory_directive sv sm mc w = (Raise (rejection mc), w).
Proof.
  intros H Hst. unfold memory_directive. rewrite H. unfold bind, add_memory.
  destruct mc; cbn in Hst; try discriminate Hst; try rewrite Hst; reflexivity.
Qed.

(** The world in which the structured call of the reasoning cycle has been
    answered: the store was queried, the two retrieval entries logged, the
    call recorded. *)
Lemma reasoning_cycle_asks (u text : string) (w : world) :
  chat_json sv (trace w ++ [MemoryQuery u 2]) (decision_messages sv w u) = Answer text ->
  exists wj,
    todo_file wj = todo_file w /\ collection wj = collection w /\
    short_term wj = short_term w /\
    internal_log wj = internal_log w ++ retrieval_log sv w u /\
    trace wj = trace w ++ [MemoryQuery u 2; ChatJson (decision_messages sv w u)] /\
    reasoning_cycle sv u w =
      (if negb (truthy (safe_parse sv text)) then
         window' <- gets short_term ;;
         response <- call_model_plain sv window' ;;
         respond (PStr response)
       else
         match safe_parse sv text with
         | PDict d => act_on_decision sv d
         | _ => raise AttributeError
         end) wj.
Proof.
  intros Hchat. unfold reasoning_cycle.
  rewrite (bind_ok _ _ _ _ _ _ _ (memory_query_run u 2 w)).
  rewrite (bind_ok _ _ _ _ _ _ _ (log_run _ _)).
  rewrite (bind_ok _ _ _ _ _ _ _ (log_run _ _)).
  rewrite (bind_ok _ _ _ _ _ _ _ (gets_run _ _ _)).
  rewrite (bind_ok _ _ _ _ _ _ _ (gets_run _ _ _)).
  cbn [log emit modify snd cfg short_term set_internal_log set_trace].
  fold (decision_messages sv w u).
  match goal with
  | |- context [bind (call_model_json sv _) _ ?x] => set (w1 := x)
  end.
  assert (Hj : call_model_json sv (decision_messages sv w u) w1 =
               (Ok (safe_parse sv text), snd (emit (ChatJson (decision_messages sv w u)) w1))).
  { apply call_model_json_run. exact Hchat. }
  rewrite (bind_ok _ _ _ _ _ _ _ Hj).
  exists (snd (emit (ChatJson (decision_messages sv w u)) w1)).
  subst w1. cbn. rewrite <- !app_assoc. cbn. repeat split.
Qed.

(** The reasoning cycle once the structured call is answered, with the
    world it is in spelled out. *)
Lemma reasoning_cycle_asked (u text : string) (w : world) :
  chat_json sv (trace w ++ [MemoryQuery u 2]) (decision_messages sv w u) = Answer text ->
  reasoning_cycle sv u w =
    (if negb (truthy (safe_parse sv text)) then
       window' <- gets short_term ;;
       response <- call_model_plain sv window' ;;
       respond (PStr response)
     else
       match safe_parse sv text with
       | PDict d => act_on_decision sv d
       | _ => raise AttributeError
       end)
    (mkWorld (cfg w) (short_term w) (internal_log w ++ retrieval_log sv w u)
             (todo_file w) (collection w)
             (trace w ++ [MemoryQuery u 2; ChatJson (decision_messages sv w u)])).
Proof.
  intros Hchat. unfold reasoning_cycle.
  rewrite (bind_ok _ _ _ _ _ _ _ (memory_query_run u 2 w)).
  rewrite (bind_ok _ _ _ _ _ _ _ (log_run _ _)).
  rewrite (bind_ok _ _ _ _ _ _ _ (log_run _ _)).
  rewrite (bind_ok _ _ _ _ _ _ _ (gets_run _ _ _)).
  rewrite (bind_ok _ _ _ _ _ _ _ (gets_run _ _ _)).
  cbn [log emit modify snd cfg short_term set_internal_log set_trace].
  fold (decision_messages sv w u).
  match goal with
  | |- context [bind (call_model_json sv _) _ ?x] => set (w1 := x)
  end.
  assert (Hj : call_model_json sv (decision_messages sv w u) w1 =
               (Ok (safe_parse sv text), snd (emit (ChatJson (decision_messages sv w u)) w1))).
  { apply call_model_json_run. exact Hchat. }
  rewrite (bind_ok _ _ _ _ _ _ _ Hj).
  f_equal. subst w1. unfold retrieval_log, recall. cbn.
  rewrite <- !app_assoc. reflexivity.
Qed.

Lemma rt_internet_search_any (query : pyval) : returns (internet_search sv query).
Proof. unfold internet_search, emit. rt. Qed.

(** The end of [execute_tool], after a tool that returns. *)
Lemma rt_observe (m : M string) :
  returns m ->
  returns (result <- (r <- m ;; ret (PStr r)) ;;
           (if truthy result then log ("Tool observation: " +++ fmt sv result) else ret tt) ;;
           ret result).
Proof.
  intros Hm. apply rt_bind; [apply rt_bind; [exact Hm | intro; apply rt_ret]|].
  intro result. apply rt_bind; [|intro; apply rt_ret].
  destruct (truthy result); [apply rt_log | apply rt_ret].
Qed.

Lemma is_str_true (v : pyval) (s : string) : is_str v s = true -> v = PStr s.
Proof.
  destruct v; cbn; try discriminate. intros H. apply String.eqb_eq in H. congruence.
Qed.

Lemma add_todo_not_text (input : pyval) (w : world) :
  (forall s, input <> PStr s) -> add_todo input w = (Raise AttributeError, w).
Proof. intros H. destruct input; try reflexivity. exfalso. exact (H _ eq_refl). Qed.

Lemma complete_todo_not_text (input : pyval) (w : world) :
  (forall s, input <> PStr s) ->
  complete_todo sv input w =
    if existsb (fun t => negb (done t)) (todo_file w) then (Raise AttributeError, w)
    else (Ok (match todo_file w with
              | [] => "There are no tasks to complete."
              | _ => "No matching task found."
              end), w).
Proof.
  intros H. unfold complete_todo, load_todos, bind, gets.
  destruct (todo_file w) as [|t rest]; [reflexivity|].
  destruct input; try (exfalso; exact (H _ eq_refl));
    destruct (existsb (fun t0 => negb (done t0)) (t :: rest)); reflexivity.
Qed.

Lemma tool_raises_not_text (action input : pyval) (todos : list todo) :
  (forall s, input <> PStr s) ->
  tool_raises action input todos =
    is_str action "add_todo"
    || (is_str action "complete_todo" && existsb (fun t => negb (done t)) todos).
Proof. intros H. destruct input; try reflexivity. exfalso. exact (H _ eq_refl). Qed.

(** A tool that is given no text does not touch the task list. *)
Lemma execute_tool_not_text_tasks (action input : pyval) :
  (forall s, input <> PStr s) -> keeps todo_file (execute_tool sv action input).
Proof.
  intros Hin. unfold execute_tool.
  apply kp_bind; [frame | intro]. apply kp_bind; [frame | intro].
  apply kp_bind; [| intro; frame].
  destruct (is_str action "search"); [frame|].
  destruct (is_str action "add_todo").
  { apply kp_bind; [| intro; frame]. intro w. rewrite (add_todo_not_text input w Hin).
    reflexivity. }
  destruct (is_str action "complete_todo").
  { apply kp_bind; [| intro; frame]. intro w. rewrite (complete_todo_not_text input w Hin).
    destruct (existsb (fun t => negb (done t)) (todo_file w)); reflexivity. }
  destruct (is_str action "date"); frame.
Qed.

(** A tool raises only when [tool_raises] says so. *)
Lemma execute_tool_raise (action input : pyval) (w w1 : world) (e : exn) :
  execute_tool sv action input w = (Raise e, w1) ->
  tool_raises action input (todo_file w) = true.
Proof.
  intros H.
  assert (Hin : forall s, input <> PStr s).
  { intros s ->. destruct (rt_execute_tool action s w) as [a [w' E]]. congruence. }
  rewrite (tool_raises_not_text action input _ Hin).
  unfold execute_tool in H.
  rewrite (bind_ok _ _ _ _ _ _ _ (log_run _ _)) in H.
  rewrite (bind_ok _ _ _ _ _ _ _ (log_run _ _)) in H.
  destruct (is_str action "search") eqn:A1.
  { exfalso. revert H.
    match goal with
    | |- _ ?x = _ -> _ =>
        destruct (rt_observe _ (rt_internet_search_any input) x) as [a [w' E]]
    end.
    rewrite E. discriminate. }
  destruct (is_str action "add_todo") eqn:A2; [reflexivity|].
  destruct (is_str action "complete_todo") eqn:A3.
  { cbn [orb andb]. revert H. unfold bind at 1 2.
    rewrite (complete_todo_not_text input _ Hin).
    cbn [log modify snd todo_file set_internal_log].
    destruct (existsb (fun t => negb (done t)) (todo_file w)); [reflexivity|].
    destruct (todo_file w); cbn; unfold ret; discriminate. }
  destruct (is_str action "date") eqn:A4.
  { exfalso. revert H.
    match goal with
    | |- _ ?x = _ -> _ =>
        destruct (rt_observe _ rt_get_current_date x) as [a [w' E]]
    end.
    rewrite E. discriminate. }
  cbn in H. unfold ret in H. discriminate H.
Qed.

(** When [execute_tool] raises and when it returns.  It raises before any
    outside call, with the two entries about the selection logged; when it
    returns, it would return again on the task list it leaves. *)
Lemma execute_tool_outcome (action input : pyval) (w : world) :
  if tool_raises action input (todo_file w)
  then execute_tool sv action input w =
         (Raise AttributeError,
          set_internal_log
            (internal_log w ++
             ["Tool selected: " +++ fmt sv action; "Tool input: " +++ fmt sv input]) w)
  else exists obs w1,
         execute_tool sv action input w = (Ok obs, w1) /\
         tool_raises action input (todo_file w1) = false.
Proof.
  destruct (tool_raises action input (todo_file w)) eqn:T.
  - assert (Hin : forall s, input <> PStr s) by (intros s ->; discriminate T).
    rewrite (tool_raises_not_text action input _ Hin) in T.
    unfold execute_tool.
    rewrite (bind_ok _ _ _ _ _ _ _ (log_run _ _)).
    rewrite (bind_ok _ _ _ _ _ _ _ (log_run _ _)).
    apply orb_true_iff in T. destruct T as [A|A].
    + apply is_str_true in A. subst action. cbn [is_str String.eqb Ascii.eqb Bool.eqb].
      unfold bind at 1 2. rewrite (add_todo_not_text input _ Hin).
      cbn. rewrite <- app_assoc. reflexivity.
    + apply andb_true_iff in A. destruct A as [A Hopen].
      apply is_str_true in A. subst action. cbn [is_str String.eqb Ascii.eqb Bool.eqb].
      unfold bind at 1 2. rewrite (complete_todo_not_text input _ Hin).
      cbn [log modify snd todo_file set_internal_log]. rewrite Hopen.
      cbn. rewrite <- app_assoc. reflexivity.
  - destruct (execute_tool sv action input w) as [[obs|e] w1] eqn:E.
    + exists obs, w1. split; [reflexivity|].
      destruct input as [| b | q | s | l | l]; try reflexivity;
        (rewrite <- T; f_equal;
         match goal with
         | |- todo_file w1 = todo_file w =>
             change w1 with (snd (Ok obs, w1)); rewrite <- E;
             apply execute_tool_not_text_tasks; intros s0; discriminate
         end).
    + apply execute_tool_raise in E. congruence.
Qed.

(** The two tool blocks of a decision whose action is not "none", from the
    world [w] in which the decision was parsed. *)
Lemma act_on_decision_blocks (d : list (string * pyval)) (w : world) :
  let thought := dict_get d "thought" (PStr "") in
  let action := dict_get d "action" (PStr "none") in
  let action_input := dict_get d "action_input" (PStr "") in
  let save_memory := dict_get d "save_memory" (PBool false) in
  let memory_content := dict_get d "memory_content" (PStr "") in
  is_str action "none" = false ->
  let w0 := snd (log ("Thought: " +++ fmt sv thought) w) in
  if tool_raises action action_input (todo_file w) then
    act_on_decision sv d w =
      (Raise AttributeError,
       set_internal_log
         (internal_log w0 ++
          ["Tool selected: " +++ fmt sv action; "Tool input: " +++ fmt sv action_input]) w0)
  else
    exists obs1 w1 ans1 w2 obs2 w4 ans2 w5,
      execute_tool sv action action_input w0 = (Ok obs1, w1) /\
      call_model_plain sv (second_messages sv obs1) w1 = (Ok ans1, w2) /\
      let w3 :=
        snd (log ("Thought: " +++ fmt sv thought)
               (if truthy (PStr ans1) then w2
                else snd (call_model_plain sv (short_term w2)
                            (snd (log "Final answer missing from JSON. Falling back to plain model." w2))))) in
      execute_tool sv action action_input w3 = (Ok obs2, w4) /\
      call_model_plain sv (second_messages sv obs2) w4 = (Ok ans2, w5) /\
      collection w5 = collection w /\
      act_on_decision sv d w =
        bind (memory_directive sv save_memory memory_content)
             (fun _ => respond (PStr ans2)) w5.
Proof.
  intros thought action action_input save_memory memory_content Hact w0.
  pose proof (execute_tool_outcome action action_input w0) as O1.
  change (todo_file w0) with (todo_file w) in O1.
  destruct (tool_raises action action_input (todo_file w)).
  - unfold act_on_decision. cbv zeta.
    fold thought action action_input save_memory memory_content.
    rewrite Hact. cbn [negb].
    rewrite (bind_ok _ _ _ _ _ w0 tt (log_run _ w)).
    unfold tool_then_synthesize, bind. rewrite O1. reflexivity.
  - destruct O1 as [obs1 [w1 [E1 T1]]].
    destruct (rt_call_model_plain (second_messages sv obs1) w1) as [ans1 [w2 E2]].
    exists obs1, w1, ans1, w2.
    set (w3 := snd (log ("Thought: " +++ fmt sv thought)
               (if truthy (PStr ans1) then w2
                else snd (call_model_plain sv (short_term w2)
                            (snd (log "Final answer missing from JSON. Falling back to plain model." w2)))))).
    assert (Htodo : todo_file w3 = todo_file w1).
    { subst w3. rewrite call_model_plain_run in E2. injection E2 as _ <-.
      destruct (truthy (PStr ans1)); reflexivity. }
    pose proof (execute_tool_outcome action action_input w3) as O3.
    rewrite Htodo, T1 in O3. destruct O3 as [obs2 [w4 [E3 _]]].
    destruct (rt_call_model_plain (second_messages sv obs2) w4) as [ans2 [w5 E4]].
    exists obs2, w4, ans2, w5.
    split; [exact E1|]. split; [exact E2|]. cbv zeta. fold w3.
    split; [exact E3|]. split; [exact E4|].
    split.
    + pose proof (call_model_plain_collection (second_messages sv obs2) w4) as H4.
      rewrite E4 in H4. cbn [snd] in H4.
      pose proof (execute_tool_collection action action_input w3) as H3.
      rewrite E3 in H3. cbn [snd] in H3.
      pose proof (call_model_plain_collection (second_messages sv obs1) w1) as H2.
      rewrite E2 in H2. cbn [snd] in H2.
      pose proof (execute_tool_collection action action_input w0) as H1.
      rewrite E1 in H1. cbn [snd] in H1.
      rewrite H4, H3. subst w3. cbn [log modify snd collection set_internal_log].
      destruct (truthy (PStr ans1)).
      * rewrite H2, H1. reflexivity.
      * rewrite call_model_plain_collection. cbn [log modify snd collection set_internal_log].
        rewrite H2, H1. reflexivity.
    + unfold act_on_decision. cbv zeta.
      fold thought action action_input save_memory memory_content.
      rewrite Hact. cbn [negb].
      rewrite (bind_ok _ _ _ _ _ w0 tt (log_run _ w)).
      rewrite (bind_ok _ _ _ _ _ _ _ (block_run _ _ _ _ _ _ _ E1 E2)).
      destruct (fallback_run ans1 w2) as [v Hv].
      rewrite (bind_ok _ _ _ _ _ _ _ Hv).
      rewrite (bind_ok _ _ _ _ _ _ _ (log_run _ _)). fold w3.
      rewrite (bind_ok _ _ _ _ _ _ _ (block_run _ _ _ _ _ _ _ E3 E4)).
      reflexivity.
Qed.

(** C1, as the code has it.  In the reasoning cycle, when the structured
    call is answered with a decision [d] whose action is not "none", the
    tool is invoked on ([action], [action_input]) in the world [w0] that
    holds the two retrieval entries and the first "Thought" entry.

    When that invocation raises, which [add_todo] does on an input that is
    not text and [complete_todo] does on such an input while a task is
    open, the exception leaves the cycle at once: the log has the two
    entries about the selection, no plain call was made, the block is not
    repeated and there is no answer.

    Otherwise, and so whenever [action_input] is text, a plain call turns
    the observation into an answer; then, after the fall-back that only an
    empty answer triggers and the second "Thought" entry, the tool runs
    again on the same ([action], [action_input]) and a second plain call
    turns the new observation into the answer.  Nothing is handed to the
    memory store before the end of the second block: what is left of the
    cycle after it is the memory directive and the closing append.
    Whenever the cycle returns, it returns the text of the second
    synthesis, whatever [final_answer] the decision held; and it does
    return unless the directive is to store a value the store cannot
    take, in which case [add_memory] raises after the second block. *)
Theorem C1_tool_block_runs_twice (u text : string) (d : list (string * pyval)) (w : world) :
  let thought := dict_get d "thought" (PStr "") in
  let action := dict_get d "action" (PStr "none") in
  let action_input := dict_get d "action_input" (PStr "") in
  let save_memory := dict_get d "save_memory" (PBool false) in
  let memory_content := dict_get d "memory_content" (PStr "") in
  chat_json sv (trace w ++ [MemoryQuery u 2]) (decision_messages sv w u) = Answer text ->
  safe_parse sv text = PDict d ->
  is_str action "none" = false ->
  let w0 := decision_point sv w u thought in
  if tool_raises action action_input (todo_file w) then
    reasoning_cycle sv u w =
      (Raise AttributeError,
       set_internal_log
         (internal_log w0 ++
          ["Tool selected: " +++ fmt sv action; "Tool input: " +++ fmt sv action_input]) w0)
  else
    exists obs1 w1 ans1 w2 obs2 w4 ans2 w5,
      execute_tool sv action action_input w0 = (Ok obs1, w1) /\
      call_model_plain sv (second_messages sv obs1) w1 = (Ok ans1, w2) /\
      let w3 :=
        snd (log ("Thought: " +++ fmt sv thought)
               (if truthy (PStr ans1) then w2
                else snd (call_model_plain sv (short_term w2)
                            (snd (log "Final answer missing from JSON. Falling back to plain model." w2))))) in
      execute_tool sv action action_input w3 = (Ok obs2, w4) /\
      call_model_plain sv (second_messages sv obs2) w4 = (Ok ans2, w5) /\
      collection w5 = collection w /\
      reasoning_cycle sv u w =
        bind (memory_directive sv save_memory memory_content)
             (fun _ => respond (PStr ans2)) w5 /\
      (forall r w', reasoning_cycle sv u w = (Ok r, w') -> r = PStr ans2) /\
      ((truthy save_memory && truthy memory_content = true ->
        storable sv memory_content = true) ->
       reasoning_cycle sv u w =
         (Ok (PStr ans2),
          snd (push_turn "assistant" (PStr ans2)
                 (snd (memory_directive sv save_memory memory_content w5))))) /\
      (truthy save_memory && truthy memory_content = true ->
       storable sv memory_content = false ->
       reasoning_cycle sv u w = (Raise (rejection memory_content), w5)).
Proof.
  intros thought action action_input save_memory memory_content Hchat Hparse Hact w0.
  pose proof (reasoning_cycle_asked u text w Hchat) as Hrun.
  assert (Hd : truthy (PDict d) = true).
  { destruct d as [|kv d']; [|reflexivity].
    subst action. cbn in Hact. discriminate Hact. }
  rewrite Hparse, Hd in Hrun. cbn [negb] in Hrun.
  match type of Hrun with
  | _ = act_on_decision sv d ?x => set (wj := x) in Hrun
  end.
  assert (W0 : snd (log ("Thought: " +++ fmt sv thought) wj) = w0).
  { subst wj w0. unfold decision_point, retrieval_log. cbn.
    rewrite <- app_assoc. reflexivity. }
  pose proof (act_on_decision_blocks d wj Hact) as B.
  cbv zeta in B. fold thought action action_input save_memory memory_content in B.
  rewrite W0 in B. change (todo_file wj) with (todo_file w) in B.
  destruct (tool_raises action action_input (todo_file w)).
  - rewrite Hrun. exact B.
  - destruct B as [obs1 [w1 [ans1 [w2 [obs2 [w4 [ans2 [w5 [E1 [E2 [E3 [E4 [Hc Hfin]]]]]]]]]]]]].
    exists obs1, w1, ans1, w2, obs2, w4, ans2, w5.
    split; [exact E1|]. split; [exact E2|]. split; [exact E3|]. split; [exact E4|].
    split; [exact Hc|].
    rewrite Hrun, Hfin.
    split; [reflexivity|]. split.
    + intros r w'. unfold bind.
      destruct (memory_directive sv save_memory memory_content w5) as [[[]|e] wm].
      * cbn. intros H. injection H as <- _. reflexivity.
      * discriminate.
    + split.
      * intros Hst. rewrite (bind_ok _ _ _ _ _ _ _ (memory_directive_run _ _ w5 Hst)).
        reflexivity.
      * intros Hdir Hno.
        apply bind_raise, memory_directive_rejects; assumption.
Qed.

(** C4, as the code has it.  When the structured call is answered with
    text that [json.loads] rejects and whose brace-delimited part, if
    there is one, it rejects too, the answer is the text of a plain call on
    the whole conversation window; no tool runs and nothing is handed to
    the memory store.  The internal log gains the two retrieval entries
    and nothing else: the parse failure itself is not logged. *)
Theorem C4_unparsable_output (u text : string) (w : world) :
  chat_json sv (trace w ++ [MemoryQuery u 2]) (decision_messages sv w u) = Answer text ->
  json_loads sv text = None ->
  (forall m, brace_span text = Some m -> json_loads sv m = None) ->
  let asked := [MemoryQuery u 2; ChatJson (decision_messages sv w u)] in
  let answer := chat_plain sv (trace w ++ asked) (short_term w) in
  let r := fst (reasoning_cycle sv u w) in
  let w' := snd (reasoning_cycle sv u w) in
  r = Ok (PStr answer) /\
  trace w' = trace w ++ asked ++ [ChatPlain (short_term w)] /\
  todo_file w' = todo_file w /\
  collection w' = collection w /\
  internal_log w' = internal_log w ++ retrieval_log sv w u /\
  short_term w' = slice_last max_context (short_term w ++ [mkTurn "assistant" (PStr answer)]).
Proof.
  intros Hchat H1 H2 asked answer r w'. subst r w'.
  unfold reasoning_cycle.
  rewrite (bind_ok _ _ _ _ _ _ _ (memory_query_run u 2 w)).
  rewrite (bind_ok _ _ _ _ _ _ _ (log_run _ _)).
  rewrite (bind_ok _ _ _ _ _ _ _ (log_run _ _)).
  rewrite (bind_ok _ _ _ _ _ _ _ (gets_run _ _ _)).
  rewrite (bind_ok _ _ _ _ _ _ _ (gets_run _ _ _)).
  cbn [log emit modify snd cfg short_term set_internal_log set_trace].
  fold (decision_messages sv w u).
  match goal with
  | |- context [bind (call_model_json sv _) _ ?x] => set (w1 := x)
  end.
  assert (Hj : call_model_json sv (decision_messages sv w u) w1 =
               (Ok PNone, snd (emit (ChatJson (decision_messages sv w u)) w1))).
  { rewrite <- (safe_parse_fails text H1 H2). apply call_model_json_run. exact Hchat. }
  rewrite (bind_ok _ _ _ _ _ _ _ Hj). cbn [truthy negb].
  rewrite (bind_ok _ _ _ _ _ _ _ (gets_run _ _ _)).
  rewrite (bind_ok _ _ _ _ _ _ _ (call_model_plain_run _ _)).
  subst w1 answer asked. cbn.
  rewrite <- !app_assoc. cbn.
  repeat split.
Qed.

(** ** What the two ways of adding a task store *)






(* ================================================================= *)
(** * More of the pipeline *)

(** ** Lists that only grow *)

Lemma ext_ret (A X : Type) (f : world -> list X) (a : A) : extends f (ret a).
Proof. intro w. exists []. cbn. rewrite app_nil_r. reflexivity. Qed.

Lemma ext_raise (A X : Type) (f : world -> list X) (e : exn) : extends f (@raise A e).
Proof. intro w. exists []. cbn. rewrite app_nil_r. reflexivity. Qed.

Lemma ext_gets (A X : Type) (f : world -> list X) (g : world -> A) : extends f (gets g).
Proof. intro w. exists []. cbn. rewrite app_nil_r. reflexivity. Qed.

Lemma ext_modify (X : Type) (f : world -> list X) (g : world -> world) :
  (forall w, exists added, f (g w) = f w ++ added) -> extends f (modify g).
Proof. intros H w. apply H. Qed.

Lemma ext_bind (A B X : Type) (f : world -> list X) (m : M A) (k : A -> M B) :
  extends f m -> (forall a, extends f (k a)) -> extends f (bind m k).
Proof.
  intros Hm Hk w. unfold bind. destruct (Hm w) as [l1 H1].
  destruct (m w) as [[a|e] w1]; cbn in *.
  - destruct (Hk a w1) as [l2 H2]. exists (l1 ++ l2).
    rewrite H2, H1, app_assoc. reflexivity.
  - exists l1. exact H1.
Qed.

Ltac ext_step :=
  match goal with
  | |- extends _ (bind _ _) => apply ext_bind; [| intro]
  | |- extends _ (ret _) => apply ext_ret
  | |- extends _ (raise _) => apply ext_raise
  | |- extends _ (gets _) => apply ext_gets
  | |- extends _ (modify _) =>
      apply ext_modify; intro; cbn;
      first [ eexists; reflexivity
            | exists []; rewrite app_nil_r; reflexivity ]
  | |- extends _ (if ?b then _ else _) => destruct b
  | |- extends _ (match ?x with _ => _ end) => destruct x
  end.

(** Unfold the pipeline down to the monad's operations and discharge an
    [extends] goal. *)
Ltac grow :=
  unfold process_single_intent, route, reasoning_cycle, act_on_decision, respond,
    push_turn, tool_then_synthesize, execute_tool, memory_directive, internet_search,
    add_todo, complete_todo, get_current_date, mark_done, add_task, load_todos,
    save_todos, memory_query, call_model_json, call_model_plain, add_memory, log, emit;
  cbv zeta; repeat ext_step.

Lemma process_extends_log (u : string) : extends internal_log (process_single_intent sv u).
Proof. grow. Qed.

Lemma process_extends_trace (u : string) : extends trace (process_single_intent sv u).
Proof. grow. Qed.

Lemma process_extends_collection (u : string) :
  extends collection (process_single_intent sv u).
Proof. grow. Qed.

Lemma process_keeps_cfg (u : string) : keeps cfg (process_single_intent sv u).
Proof.
  unfold process_single_intent, route, reasoning_cycle, act_on_decision, respond,
    push_turn. cbv zeta. frame.
Qed.

(** ** Tasks are never lost *)

Lemma tasks_preserved_refl (l : list todo) : tasks_preserved l l.
Proof. intros j t H. exists t. auto. Qed.

Lemma tasks_preserved_trans (a b c : list todo) :
  tasks_preserved a b -> tasks_preserved b c -> tasks_preserved a c.
Proof.
  intros Hab Hbc j t H. destruct (Hab j t H) as [t1 [H1 [Ht1 Hd1]]].
  destruct (Hbc j t1 H1) as [t2 [H2 [Ht2 Hd2]]].
  exists t2. split; [exact H2|]. split; [congruence | auto].
Qed.

Lemma tasks_preserved_app (l extra : list todo) : tasks_preserved l (l ++ extra).
Proof.
  intros j t H. exists t. split; [|auto].
  rewrite nth_error_app1; [exact H|]. apply nth_error_Some. congruence.
Qed.

Lemma tasks_preserved_set_done (i : nat) (l : list todo) : tasks_preserved l (set_done i l).
Proof.
  intros j t H. destruct (Nat.eq_dec j i) as [->|Hne].
  - exists (mkTodo (task t) true). split; [apply set_done_at, H | auto].
  - exists t. split; [rewrite set_done_elsewhere; assumption | auto].
Qed.

Lemma st_ret (A : Type) (a : A) : steps keeps_tasks (ret a).
Proof. intro w. apply tasks_preserved_refl. Qed.

Lemma st_raise (A : Type) (e : exn) : steps keeps_tasks (@raise A e).
Proof. intro w. apply tasks_preserved_refl. Qed.

Lemma st_gets (A : Type) (g : world -> A) : steps keeps_tasks (gets g).
Proof. intro w. apply tasks_preserved_refl. Qed.

Lemma st_modify (g : world -> world) :
  (forall w, todo_file (g w) = todo_file w) -> steps keeps_tasks (modify g).
Proof. intros H w. unfold keeps_tasks. cbn. rewrite H. apply tasks_preserved_refl. Qed.

Lemma st_bind (A B : Type) (m : M A) (k : A -> M B) :
  steps keeps_tasks m -> (forall a, steps keeps_tasks (k a)) -> steps keeps_tasks (bind m k).
Proof.
  intros Hm Hk w. unfold bind. specialize (Hm w).
  destruct (m w) as [[a|e] w1]; cbn in *; [|exact Hm].
  eapply tasks_preserved_trans; [exact Hm | apply Hk].
Qed.

Lemma st_add_task (s : string) : steps keeps_tasks (add_task s).
Proof. intro w. apply tasks_preserved_app. Qed.

Lemma st_mark_done (i : nat) : steps keeps_tasks (mark_done i).
Proof.
  intro w. unfold keeps_tasks, mark_done, bind, load_todos, gets.
  destruct (nth_error (todo_file w) i); cbn.
  - apply tasks_preserved_set_done.
  - apply tasks_preserved_refl.
Qed.

Ltac st_step :=
  match goal with
  | |- steps _ (add_task _) => apply st_add_task
  | |- steps _ (mark_done _) => apply st_mark_done
  | |- steps _ (bind _ _) => apply st_bind; [| intro]
  | |- steps _ (ret _) => apply st_ret
  | |- steps _ (raise _) => apply st_raise
  | |- steps _ (gets _) => apply st_gets
  | |- steps _ (modify _) => apply st_modify; intro; reflexivity
  | |- steps _ (if ?b then _ else _) => destruct b
  | |- steps _ (match ?x with _ => _ end) => destruct x
  end.

Lemma process_keeps_tasks (u : string) : steps keeps_tasks (process_single_intent sv u).
Proof.
  unfold process_single_intent, route, reasoning_cycle, act_on_decision, respond,
    push_turn, tool_then_synthesize, execute_tool, memory_directive, internet_search,
    add_todo, complete_todo, get_current_date, load_todos, memory_query,
    call_model_json, call_model_plain, add_memory, log, emit.
  cbv zeta. repeat st_step.
Qed.

(** X1. Over a whole session, whatever is said and whatever the model
    answers, no stored task is removed, moved or renamed, and no task that
    is done becomes open again: every task is found at its index at the
    end, with its text, and done if it was done. *)
Theorem X1_session_never_loses_a_task (inputs : list string) (w : world) :
  tasks_preserved (todo_file w) (todo_file (snd (run_session sv inputs w))).
Proof.
  revert w. induction inputs as [|u rest IH]; intro w; cbn [run_session].
  - apply tasks_preserved_refl.
  - unfold reasoning_loop. pose proof (process_keeps_tasks u w) as H1.
    destruct (process_single_intent sv u w) as [r w1]. cbn [snd] in H1.
    specialize (IH w1). destruct (run_session sv rest w1) as [outs w2].
    cbn [snd] in *. eapply tasks_preserved_trans; [exact H1 | exact IH].
Qed.

(** X2. Over a whole session the internal log, the history of calls to
    outside services and the documents handed to the memory store only
    grow: what was there at the start is a prefix of what is there at the
    end.  The configuration is not touched. *)
Theorem X2_session_append_only (inputs : list string) (w : world) :
  let w' := snd (run_session sv inputs w) in
  (exists added, internal_log w' = internal_log w ++ added) /\
  (exists added, trace w' = trace w ++ added) /\
  (exists added, collection w' = collection w ++ added) /\
  cfg w' = cfg w.
Proof.
  revert w. induction inputs as [|u rest IH]; intro w; cbn [run_session].
  - cbn. repeat split; try (exists []; rewrite app_nil_r; reflexivity).
  - unfold reasoning_loop.
    destruct (process_extends_log u w) as [l1 H1].
    destruct (process_extends_trace u w) as [l2 H2].
    destruct (process_extends_collection u w) as [l3 H3].
    pose proof (process_keeps_cfg u w) as H4.
    destruct (process_single_intent sv u w) as [r w1]. cbn [snd] in *.
    specialize (IH w1). destruct (run_session sv rest w1) as [outs w2].
    cbn [snd] in *. destruct IH as [[m1 I1] [[m2 I2] [[m3 I3] I4]]].
    split; [exists (l1 ++ m1); rewrite I1, H1, app_assoc; reflexivity|].
    split; [exists (l2 ++ m2); rewrite I2, H2, app_assoc; reflexivity|].
    split; [exists (l3 ++ m3); rewrite I3, H3, app_assoc; reflexivity|].
    congruence.
Qed.

(** ** The other rules of the router *)

Lemma slice_last_keeps_tail (A : Type) (n : nat) (xs ys : list A) :
  length ys <= n -> exists pre, slice_last n (xs ++ ys) = pre ++ ys.
Proof.
  intros H. unfold slice_last. destruct n as [|n]; [exists xs; reflexivity|].
  exists (skipn (length (xs ++ ys) - S n) xs).
  rewrite skipn_app. f_equal.
  replace (length (xs ++ ys) - S n - length xs) with 0; [reflexivity|].
  rewrite length_app. lia.
Qed.

(** X3. After an utterance is processed the conversation window ends with
    the user's message followed by the answer that was returned; when the
    processing raises, it ends with the user's message, unanswered. *)
Theorem X3_window_ends_with_the_exchange (u : string) (w : world) :
  match fst (process_single_intent sv u w) with
  | Ok r =>
      exists earlier,
        short_term (snd (process_single_intent sv u w)) =
          earlier ++ [mkTurn "user" (PStr u); mkTurn "assistant" r]
  | Raise _ =>
      exists earlier,
        short_term (snd (process_single_intent sv u w)) = earlier ++ [mkTurn "user" (PStr u)]
  end.
Proof.
  rewrite process_window.
  destruct (fst (process_single_intent sv u w)) as [r|e]; cbn [appended_turns];
    apply slice_last_keeps_tail; unfold max_context; cbn; lia.
Qed.

Lemma process_rule2 (u : string) (w : world) :
  is_preference (strip (lower u)) = false ->
  is_completion (strip (lower u)) = true ->
  process_single_intent sv u w =
    bind (complete_todo sv (PStr u)) (fun response => respond (PStr response))
         (snd (push_turn "user" (PStr u) w)).
Proof.
  intros H1 H2. unfold process_single_intent, route. cbv zeta.
  rewrite H1, H2. reflexivity.
Qed.

Lemma complete_todo_quiet (v : pyval) :
  keeps trace (complete_todo sv v) /\ keeps collection (complete_todo sv v) /\
  keeps internal_log (complete_todo sv v).
Proof. repeat split; frame. Qed.

(** X4. When rule 1 does not match and the normalised input holds one of
    the completion keywords, the answer is what [complete_todo] returns for
    the raw input, and no outside service is called: no model call, no
    memory query, and nothing is handed to the memory store.  This holds
    whether or not a task-creation trigger or a date keyword occurs too. *)
Theorem X4_completion_rule (u : string) (w : world) :
  is_preference (strip (lower u)) = false ->
  (exists k, In k completion_keywords /\ contains k (strip (lower u)) = true) ->
  exists msg w2,
    complete_todo sv (PStr u) (snd (push_turn "user" (PStr u) w)) = (Ok msg, w2) /\
    process_single_intent sv u w =
      (Ok (PStr msg), snd (push_turn "assistant" (PStr msg) w2)) /\
    trace w2 = trace w /\ collection w2 = collection w /\
    internal_log w2 = internal_log w.
Proof.
  intros H1 [k [Hin Hk]].
  assert (H2 : is_completion (strip (lower u)) = true).
  { apply existsb_exists. exists k. split; assumption. }
  set (w1 := snd (push_turn "user" (PStr u) w)).
  destruct (rt_complete_todo u w1) as [msg [w2 E]].
  destruct (complete_todo_quiet (PStr u)) as [Ht [Hc Hl]].
  specialize (Ht w1). specialize (Hc w1). specialize (Hl w1).
  rewrite E in Ht, Hc, Hl. cbn [snd] in Ht, Hc, Hl.
  exists msg, w2. split; [exact E|]. split.
  - rewrite (process_rule2 u w H1 H2). fold w1. unfold bind. rewrite E. reflexivity.
  - split; [exact Ht|]. split; [exact Hc | exact Hl].
Qed.

(** X5. When rules 1 to 3 do not match and the normalised input holds
    "today" or "current date", the answer is the formatted date.  The clock
    is the only outside service read: no model call and no memory query are
    issued, and tasks, memory store and log are left as they were. *)
Theorem X5_date_rule (u : string) (w : world) :
  is_preference (strip (lower u)) = false ->
  (forall k, In k completion_keywords -> contains k (strip (lower u)) = false) ->
  (forall t, In t task_triggers -> contains t (strip (lower u)) = false) ->
  (exists k, In k date_keywords /\ contains k (strip (lower u)) = true) ->
  let r := fst (process_single_intent sv u w) in
  let w' := snd (process_single_intent sv u w) in
  r = Ok (PStr (strftime_now sv (trace w))) /\
  trace w' = trace w ++ [ClockRead] /\
  todo_file w' = todo_file w /\ collection w' = collection w /\
  internal_log w' = internal_log w.
Proof.
  intros H1 H2 H3 [k [Hin Hk]] r w'. subst r w'.
  assert (H4 : is_date_query (strip (lower u)) = true).
  { unfold is_date_query. destruct Hin as [<-|[<-|[]]]; rewrite Hk;
      rewrite ?orb_true_r; reflexivity. }
  assert (H2' : is_completion (strip (lower u)) = false)
    by (apply existsb_all_false, H2).
  assert (H3' : first_trigger (strip (lower u)) = None)
    by (apply find_all_false, H3).
  unfold process_single_intent, route. cbv zeta.
  rewrite H1, H2', H3', H4.
  repeat split.
Qed.

Lemma call_model_json_returns (ms : list turn) (w : world) :
  exists v wj,
    call_model_json sv ms w = (Ok v, wj) /\ trace wj = trace w ++ [ChatJson ms].
Proof.
  unfold call_model_json, bind, gets, emit, modify, log.
  destruct (chat_json sv (trace w) ms); eexists; eexists; split; reflexivity.
Qed.

Lemma reasoning_cycle_opens (u : string) (w : world) :
  exists others,
    trace (snd (reasoning_cycle sv u w)) =
      trace w ++ MemoryQuery u 2 :: ChatJson (decision_messages sv w u) :: others.
Proof.
  unfold reasoning_cycle.
  rewrite (bind_ok _ _ _ _ _ _ _ (memory_query_run u 2 w)).
  rewrite (bind_ok _ _ _ _ _ _ _ (log_run _ _)).
  rewrite (bind_ok _ _ _ _ _ _ _ (log_run _ _)).
  rewrite (bind_ok _ _ _ _ _ _ _ (gets_run _ _ _)).
  rewrite (bind_ok _ _ _ _ _ _ _ (gets_run _ _ _)).
  cbn [log emit modify snd cfg short_term set_internal_log set_trace].
  fold (decision_messages sv w u).
  match goal with
  | |- context [bind (call_model_json sv _) _ ?x] => set (w1 := x)
  end.
  destruct (call_model_json_returns (decision_messages sv w u) w1) as [v [wj [Hj Htr]]].
  rewrite (bind_ok _ _ _ _ _ _ _ Hj).
  match goal with
  | |- context [trace (snd (?k wj))] =>
      assert (Hk : extends trace k) by grow;
      destruct (Hk wj) as [others Ho]; exists others; rewrite Ho, Htr
  end.
  change (trace w1) with (trace w ++ [MemoryQuery u 2]).
  rewrite <- !app_assoc. reflexivity.
Qed.

Lemma process_falls_through (u : string) (w : world) :
  is_preference (strip (lower u)) = false ->
  is_completion (strip (lower u)) = false ->
  first_trigger (strip (lower u)) = None ->
  is_date_query (strip (lower u)) = false ->
  is_knowledge_question (strip (lower u)) && negb (has_search_intent (strip (lower u))) = false ->
  process_single_intent sv u w =
    reasoning_cycle sv u (snd (push_turn "user" (PStr u) w)).
Proof.
  intros H1 H2 H3 H4 H5. unfold process_single_intent, route. cbv zeta.
  rewrite H1, H2, H3, H4, H5. reflexivity.
Qed.

(** X6. When rules 1 to 4 do not match and the input either starts with
    no knowledge-question prefix or holds a search-intent keyword, the
    knowledge guard does not answer: the utterance goes through the
    reasoning cycle, whose first two outside calls are the memory query for
    the raw input with k = 2 and the structured model call on the system
    prompt followed by the conversation window. *)
Theorem X6_guard_lets_search_intent_through (u : string) (w : world) :
  is_preference (strip (lower u)) = false ->
  (forall k, In k completion_keywords -> contains k (strip (lower u)) = false) ->
  (forall t, In t task_triggers -> contains t (strip (lower u)) = false) ->
  (forall k, In k date_keywords -> contains k (strip (lower u)) = false) ->
  ((forall p, In p knowledge_prefixes -> startswith (strip (lower u)) p = false) \/
   (exists k, In k search_intent_keywords /\ contains k (strip (lower u)) = true)) ->
  let w1 := snd (push_turn "user" (PStr u) w) in
  process_single_intent sv u w = reasoning_cycle sv u w1 /\
  exists others,
    trace (snd (process_single_intent sv u w)) =
      trace w ++ MemoryQuery u 2 :: ChatJson (decision_messages sv w1 u) :: others.
Proof.
  intros H1 H2 H3 H4 H5 w1.
  assert (Hrun : process_single_intent sv u w = reasoning_cycle sv u w1).
  { apply process_falls_through.
    - exact H1.
    - apply existsb_all_false, H2.
    - apply find_all_false, H3.
    - unfold is_date_query.
      rewrite (H4 "today"), (H4 "current date"); cbn; auto.
    - destruct H5 as [Hno|[k [Hin Hk]]].
      + assert (Hq : is_knowledge_question (strip (lower u)) = false)
          by (apply existsb_all_false; exact Hno).
        rewrite Hq. reflexivity.
      + assert (Hs : has_search_intent (strip (lower u)) = true).
        { apply existsb_exists. exists k. split; assumption. }
        rewrite Hs. apply andb_false_r. }
  split; [exact Hrun|]. rewrite Hrun.
  destruct (reasoning_cycle_opens u w1) as [others Ho].
  exists others. exact Ho.
Qed.

(** ** The other branches of the reasoning cycle *)

Lemma plain_fallback_run (w : world) :
  (window' <- gets short_term ;;
   response <- call_model_plain sv window' ;;
   respond (PStr response)) w =
  (Ok (PStr (chat_plain sv (trace w) (short_term w))),
   snd (push_turn "assistant" (PStr (chat_plain sv (trace w) (short_term w)))
          (snd (emit (ChatPlain (short_term w)) w)))).
Proof. reflexivity. Qed.

Lemma reasoning_cycle_call_fails (u e : string) (w : world) :
  chat_json sv (trace w ++ [MemoryQuery u 2]) (decision_messages sv w u) = Failure e ->
  exists wj,
    todo_file wj = todo_file w /\ collection wj = collection w /\
    short_term wj = short_term w /\
    internal_log wj =
      internal_log w ++ retrieval_log sv w u ++ ["Model JSON call failed: " +++ e] /\
    trace wj = trace w ++ [MemoryQuery u 2; ChatJson (decision_messages sv w u)] /\
    reasoning_cycle sv u w =
      (window' <- gets short_term ;;
       response <- call_model_plain sv window' ;;
       respond (PStr response)) wj.
Proof.
  intros Hchat. unfold reasoning_cycle.
  rewrite (bind_ok _ _ _ _ _ _ _ (memory_query_run u 2 w)).
  rewrite (bind_ok _ _ _ _ _ _ _ (log_run _ _)).
  rewrite (bind_ok _ _ _ _ _ _ _ (log_run _ _)).
  rewrite (bind_ok _ _ _ _ _ _ _ (gets_run _ _ _)).
  rewrite (bind_ok _ _ _ _ _ _ _ (gets_run _ _ _)).
  cbn [log emit modify snd cfg short_term set_internal_log set_trace].
  fold (decision_messages sv w u).
  match goal with
  | |- context [bind (call_model_json sv _) _ ?x] => set (w1 := x)
  end.
  assert (Hj : call_model_json sv (decision_messages sv w u) w1 =
               (Ok PNone,
                snd (log ("Model JSON call failed: " +++ e)
                       (snd (emit (ChatJson (decision_messages sv w u)) w1))))).
  { unfold call_model_json, bind, gets.
    change (trace w1) with (trace w ++ [MemoryQuery u 2]).
    cbn [emit modify]. rewrite Hchat. reflexivity. }
  rewrite (bind_ok _ _ _ _ _ _ _ Hj). cbn [truthy negb].
  exists (snd (log ("Model JSON call failed: " +++ e)
                 (snd (emit (ChatJson (decision_messages sv w u)) w1)))).
  subst w1. cbn. rewrite <- !app_assoc. cbn. repeat split.
Qed.


(** X8. A structured answer that decodes to a value Python counts as false
    (the empty object, [null], [false], 0, the empty string or list) is
    handled like no answer at all: the reply is the text of a plain call on
    the conversation window, no decision field is read, no tool runs,
    nothing is stored, and the log gains the two retrieval entries only. *)
Theorem X8_empty_decision_is_no_decision (u text : string) (w : world) :
  chat_json sv (trace w ++ [MemoryQuery u 2]) (decision_messages sv w u) = Answer text ->
  truthy (safe_parse sv text) = false ->
  let asked := [MemoryQuery u 2; ChatJson (decision_messages sv w u)] in
  let answer := chat_plain sv (trace w ++ asked) (short_term w) in
  let r := fst (reasoning_cycle sv u w) in
  let w' := snd (reasoning_cycle sv u w) in
  r = Ok (PStr answer) /\
  internal_log w' = internal_log w ++ retrieval_log sv w u /\
  trace w' = trace w ++ asked ++ [ChatPlain (short_term w)] /\
  todo_file w' = todo_file w /\ collection w' = collection w.
Proof.
  intros Hchat Hfalse asked answer r w'. subst r w' answer asked.
  destruct (reasoning_cycle_asks u text w Hchat)
    as [wj [Htodo [Hcoll [Hst [Hlog [Htr Hrun]]]]]].
  rewrite Hfalse in Hrun. cbn [negb] in Hrun.
  rewrite Hrun, plain_fallback_run. cbn [fst snd].
  cbn [push_turn emit modify snd internal_log trace todo_file collection
       set_short_term set_trace].
  rewrite Htr, Hst, Hlog, Htodo, Hcoll, <- app_assoc.
  repeat split.
Qed.

(** X9. A structured answer that decodes to a value that counts as true
    but is not an object (a non-empty list or string, a number, [true])
    makes the cycle raise [AttributeError] at the first [parsed.get]: no
    answer is produced, the window is left as it was (the user's message
    stays unanswered), no tool runs and nothing is stored. *)
Theorem X9_decision_that_is_no_object_raises (u text : string) (w : world) :
  chat_json sv (trace w ++ [MemoryQuery u 2]) (decision_messages sv w u) = Answer text ->
  truthy (safe_parse sv text) = true ->
  (forall d, safe_parse sv text <> PDict d) ->
  let r := fst (reasoning_cycle sv u w) in
  let w' := snd (reasoning_cycle sv u w) in
  r = Raise AttributeError /\
  short_term w' = short_term w /\
  todo_file w' = todo_file w /\ collection w' = collection w /\
  trace w' = trace w ++ [MemoryQuery u 2; ChatJson (decision_messages sv w u)].
Proof.
  intros Hchat Htrue Hnot r w'. subst r w'.
  destruct (reasoning_cycle_asks u text w Hchat)
    as [wj [Htodo [Hcoll [Hst [Hlog [Htr Hrun]]]]]].
  rewrite Htrue in Hrun. cbn [negb] in Hrun. rewrite Hrun.
  destruct (safe_parse sv text) as [| | | | |d] eqn:E;
    try (cbn; repeat split; assumption).
  exfalso. exact (Hnot d eq_refl).
Qed.

Lemma ret_run (A : Type) (a : A) (w : world) : ret a w = (Ok a, w).
Proof. reflexivity. Qed.

(** What the memory directive does when it does not raise. *)
Lemma memory_directive_effect (sm mc : pyval) (w : world) :
  (truthy sm && truthy mc = true -> storable sv mc = true) ->
  let w' := snd (memory_directive sv sm mc w) in
  collection w' = collection w ++ (if truthy sm && truthy mc then [mc] else []) /\
  internal_log w' =
    internal_log w ++
    (if truthy sm && truthy mc then ["Memory saved by LLM: " +++ fmt sv mc] else []) /\
  trace w' = trace w /\ todo_file w' = todo_file w /\ short_term w' = short_term w /\
  cfg w' = cfg w.
Proof.
  intros H. unfold memory_directive.
  destruct (truthy sm && truthy mc).
  - specialize (H eq_refl). unfold bind, add_memory.
    destruct mc; cbn in H; try discriminate H; try rewrite H; cbn; repeat split.
  - cbn. rewrite !app_nil_r. repeat split.
Qed.

Lemma directive_cases (sm mc : pyval) :
  (truthy sm && truthy mc) && negb (storable sv mc) = false ->
  truthy sm && truthy mc = true -> storable sv mc = true.
Proof.
  intros H Hs. rewrite Hs in H. cbn in H. apply negb_false_iff in H. exact H.
Qed.

(** X10. A decision whose action is "none" (or absent) and whose
    [final_answer] counts as true runs no tool and makes no further model
    call.  Unless [save_memory] and [memory_content] both count as true
    and [memory_content] is a value the store does not take, the decision
    is answered with that [final_answer] as it is, and the memory store
    receives [memory_content] exactly when both count as true.  In the
    remaining case (a list or an object as [memory_content], for one)
    [add_memory] raises: nothing is stored, no answer is returned, and the
    user's message stays unanswered in the window. *)
Theorem X10_direct_answer (u text : string) (d : list (string * pyval)) (w : world) :
  let final_answer := dict_get d "final_answer" (PStr "") in
  let save_memory := dict_get d "save_memory" (PBool false) in
  let memory_content := dict_get d "memory_content" (PStr "") in
  chat_json sv (trace w ++ [MemoryQuery u 2]) (decision_messages sv w u) = Answer text ->
  safe_parse sv text = PDict d ->
  is_str (dict_get d "action" (PStr "none")) "none" = true ->
  truthy final_answer = true ->
  let directive := truthy save_memory && truthy memory_content in
  let r := fst (reasoning_cycle sv u w) in
  let w' := snd (reasoning_cycle sv u w) in
  trace w' = trace w ++ [MemoryQuery u 2; ChatJson (decision_messages sv w u)] /\
  todo_file w' = todo_file w /\
  if directive && negb (storable sv memory_content) then
    r = Raise (rejection memory_content) /\
    collection w' = collection w /\
    short_term w' = short_term w
  else
    r = Ok final_answer /\
    collection w' = collection w ++ (if directive then [memory_content] else []) /\
    short_term w' = slice_last max_context (short_term w ++ [mkTurn "assistant" final_answer]).
Proof.
  intros final_answer save_memory memory_content Hchat Hparse Hact Hfa directive r w'.
  subst r w' directive.
  destruct (reasoning_cycle_asks u text w Hchat)
    as [wj [Htodo [Hcoll [Hst [Hlog [Htr Hrun]]]]]].
  assert (Hd : truthy (PDict d) = true).
  { destruct d as [|kv d']; [|reflexivity].
    subst final_answer. cbn in Hfa. discriminate Hfa. }
  rewrite Hparse, Hd in Hrun. cbn [negb] in Hrun. rewrite Hrun.
  unfold act_on_decision. cbv zeta.
  fold final_answer save_memory memory_content.
  rewrite Hact, Hfa. cbn [negb].
  rewrite (bind_ok _ _ _ _ _ _ _ (log_run _ _)).
  rewrite (bind_ok _ _ _ _ _ _ _ (ret_run _ _ _)).
  rewrite Hfa. cbn [negb].
  rewrite (bind_ok _ _ _ _ _ _ _ (ret_run _ _ _)).
  rewrite (bind_ok _ _ _ _ _ _ _ (log_run _ _)).
  rewrite (bind_ok _ _ _ _ _ _ _ (ret_run _ _ _)).
  destruct ((truthy save_memory && truthy memory_content)
            && negb (storable sv memory_content)) eqn:Hcase.
  - apply andb_true_iff in Hcase. destruct Hcase as [Hdir Hno].
    apply negb_true_iff in Hno.
    rewrite (bind_raise _ _ _ _ _ _ _ (memory_directive_rejects _ _ _ Hdir Hno)).
    cbn [fst snd log modify short_term trace todo_file collection set_internal_log].
    rewrite Htr, Htodo, Hcoll, Hst. repeat split.
  - pose proof (directive_cases _ _ Hcase) as Hmem.
    rewrite (bind_ok _ _ _ _ _ _ _ (memory_directive_run _ _ _ Hmem)).
    match goal with
    | |- context [memory_directive sv save_memory memory_content ?x] =>
        destruct (memory_directive_effect save_memory memory_content x Hmem)
          as [Mc [_ [Mt [Mtodo [Mst _]]]]]
    end.
    cbn [respond push_turn bind modify ret fst snd short_term trace todo_file collection
         set_short_term].
    rewrite Mc, Mt, Mtodo, Mst.
    cbn [log modify snd short_term trace todo_file collection set_internal_log].
    rewrite Htr, Htodo, Hcoll, Hst. repeat split.
Qed.

Lemma window_fallback_run (w : world) :
  (log "Final answer missing from JSON. Falling back to plain model." ;;
   window <- gets short_term ;;
   r <- call_model_plain sv window ;;
   ret (PStr r)) w =
  (Ok (PStr (chat_plain sv (trace w) (short_term w))),
   snd (emit (ChatPlain (short_term w))
          (snd (log "Final answer missing from JSON. Falling back to plain model." w)))).
Proof. reflexivity. Qed.

(** X11. A decision (a non-empty object) whose action is "none" (or
    absent) and whose [final_answer] is missing, empty or otherwise counts
    as false makes the cycle log "Final answer missing from JSON. Falling
    back to plain model." between the two "Thought" entries and issue a
    plain call on the conversation window.  No tool runs.  Unless
    [save_memory] and [memory_content] both count as true and
    [memory_content] is a value the store does not take, the text of that
    call is the answer.  In the remaining case [add_memory] raises after
    the plain call was made: its text is lost, no answer is returned, and
    the user's message stays unanswered in the window. *)
Theorem X11_missing_final_answer (u text : string) (d : list (string * pyval)) (w : world) :
  let thought := dict_get d "thought" (PStr "") in
  let save_memory := dict_get d "save_memory" (PBool false) in
  let memory_content := dict_get d "memory_content" (PStr "") in
  chat_json sv (trace w ++ [MemoryQuery u 2]) (decision_messages sv w u) = Answer text ->
  safe_parse sv text = PDict d ->
  d <> [] ->
  is_str (dict_get d "action" (PStr "none")) "none" = true ->
  truthy (dict_get d "final_answer" (PStr "")) = false ->
  let directive := truthy save_memory && truthy memory_content in
  let asked := [MemoryQuery u 2; ChatJson (decision_messages sv w u)] in
  let answer := chat_plain sv (trace w ++ asked) (short_term w) in
  let entries :=
    retrieval_log sv w u ++
    [ "Thought: " +++ fmt sv thought;
      "Final answer missing from JSON. Falling back to plain model.";
      "Thought: " +++ fmt sv thought ] in
  let r := fst (reasoning_cycle sv u w) in
  let w' := snd (reasoning_cycle sv u w) in
  trace w' = trace w ++ asked ++ [ChatPlain (short_term w)] /\
  todo_file w' = todo_file w /\
  if directive && negb (storable sv memory_content) then
    r = Raise (rejection memory_content) /\
    internal_log w' = internal_log w ++ entries /\
    collection w' = collection w /\
    short_term w' = short_term w
  else
    r = Ok (PStr answer) /\
    internal_log w' =
      internal_log w ++ entries ++
      (if directive then ["Memory saved by LLM: " +++ fmt sv memory_content] else []) /\
    collection w' = collection w ++ (if directive then [memory_content] else []) /\
    short_term w' =
      slice_last max_context (short_term w ++ [mkTurn "assistant" (PStr answer)]).
Proof.
  intros thought save_memory memory_content Hchat Hparse Hne Hact Hfa
         directive asked answer entries r w'.
  subst r w' answer asked directive entries.
  destruct (reasoning_cycle_asks u text w Hchat)
    as [wj [Htodo [Hcoll [Hst [Hlog [Htr Hrun]]]]]].
  assert (Hd : truthy (PDict d) = true) by (destruct d; [contradiction | reflexivity]).
  rewrite Hparse, Hd in Hrun. cbn [negb] in Hrun. rewrite Hrun.
  unfold act_on_decision. cbv zeta.
  fold thought save_memory memory_content.
  rewrite Hact, Hfa. cbn [negb].
  rewrite (bind_ok _ _ _ _ _ _ _ (log_run _ _)).
  rewrite (bind_ok _ _ _ _ _ _ _ (ret_run _ _ _)).
  cbv beta iota. cbn [truthy String.eqb negb]. cbv beta iota.
  rewrite (bind_ok _ _ _ _ _ _ _ (window_fallback_run _)).
  rewrite (bind_ok _ _ _ _ _ _ _ (log_run _ _)).
  rewrite (bind_ok _ _ _ _ _ _ _ (ret_run _ _ _)).
  destruct ((truthy save_memory && truthy memory_content)
            && negb (storable sv memory_content)) eqn:Hcase.
  - apply andb_true_iff in Hcase. destruct Hcase as [Hdir Hno].
    apply negb_true_iff in Hno.
    rewrite (bind_raise _ _ _ _ _ _ _ (memory_directive_rejects _ _ _ Hdir Hno)).
    cbn [fst snd log emit modify short_term internal_log trace todo_file collection
         set_internal_log set_trace].
    rewrite Htr, Htodo, Hcoll, Hlog, Hst, <- !app_assoc. repeat split.
  - pose proof (directive_cases _ _ Hcase) as Hmem.
    rewrite (bind_ok _ _ _ _ _ _ _ (memory_directive_run _ _ _ Hmem)).
    match goal with
    | |- context [memory_directive sv save_memory memory_content ?x] =>
        destruct (memory_directive_effect save_memory memory_content x Hmem)
          as [Mc [Ml [Mt [Mtodo [Mst _]]]]]
    end.
    cbn [respond push_turn bind modify ret fst snd internal_log trace todo_file
         collection short_term set_short_term].
    rewrite Mc, Ml, Mt, Mtodo, Mst.
    cbn [log emit modify snd short_term internal_log trace todo_file collection
         set_internal_log set_trace].
    rewrite Htr, Htodo, Hcoll, Hlog, Hst, <- !app_assoc. repeat split.
Qed.

(** ** The tool layer at its edges *)

(** X12. An action that is none of "search", "add_todo", "complete_todo"
    and "date" (another name, or a value that is not text) is no error:
    [execute_tool] logs the selection and the input, runs nothing, logs no
    observation and yields [None]; the synthesis that follows is asked to
    answer from "Observation: None". *)
Theorem X12_unknown_action_yields_none (action action_input : pyval) (w : world) :
  (forall name, In name ["search"; "add_todo"; "complete_todo"; "date"] ->
                is_str action name = false) ->
  execute_tool sv action action_input w =
    (Ok PNone,
     set_internal_log
       (internal_log w ++
        ["Tool selected: " +++ fmt sv action; "Tool input: " +++ fmt sv action_input]) w) /\
  fst (tool_then_synthesize sv action action_input w) =
    Ok (chat_plain sv (trace w)
          [ mkTurn "system" (PStr "Produce the final answer based on the observation.");
            mkTurn "user" (PStr "Observation: None") ]).
Proof.
  intros H.
  assert (H1 : is_str action "search" = false) by (apply H; cbn; auto).
  assert (H2 : is_str action "add_todo" = false) by (apply H; cbn; auto).
  assert (H3 : is_str action "complete_todo" = false) by (apply H; cbn; auto).
  assert (H4 : is_str action "date" = false) by (apply H; cbn; auto 6).
  assert (E : execute_tool sv action action_input w =
    (Ok PNone,
     set_internal_log
       (internal_log w ++
        ["Tool selected: " +++ fmt sv action; "Tool input: " +++ fmt sv action_input]) w)).
  { unfold execute_tool. rewrite H1, H2, H3, H4.
    unfold bind, log, modify, ret. cbn. rewrite <- app_assoc. reflexivity. }
  split; [exact E|].
  unfold tool_then_synthesize. rewrite (bind_ok _ _ _ _ _ _ _ E). reflexivity.
Qed.

(** X13. When the search client returns results but none has a body of
    more than 40 characters, [internet_search] returns the empty text, not
    the "No relevant results found." sentinel; [execute_tool] then logs no
    observation.  The query sent is the input followed by " explanation
    meaning context", with at most 6 results asked for. *)
Theorem X13_search_without_substantive_hits (q : string) (results : list hit) (w : world) :
  ddgs_text sv (trace w) (q +++ " explanation meaning context") 6 = Answer results ->
  results <> [] ->
  (forall r, In r results -> String.length (body r) <= 40) ->
  execute_tool sv (PStr "search") (PStr q) w =
    (Ok (PStr ""),
     set_trace (trace w ++ [WebSearch (q +++ " explanation meaning context")])
       (set_internal_log
          (internal_log w ++ ["Tool selected: search"; "Tool input: " +++ q]) w)).
Proof.
  intros Hd Hne Hshort.
  assert (Hf : filter (fun r => 40 <? String.length (body r)) results = []).
  { clear Hd Hne. induction results as [|r rest IH]; [reflexivity|]. cbn [filter].
    assert (Hr : (40 <? String.length (body r)) = false).
    { apply Nat.ltb_ge. apply Hshort. left. reflexivity. }
    rewrite Hr. apply IH. intros r' Hin. apply Hshort. right. exact Hin. }
  assert (Hs : forall w1, trace w1 = trace w ->
             internet_search sv (PStr q) w1 =
               (Ok "", set_trace (trace w1 ++ [WebSearch (q +++ " explanation meaning context")]) w1)).
  { intros w1 H1. unfold internet_search, bind, gets, emit, modify, ret.
    rewrite H1, Hd. destruct results as [|r0 rest]; [contradiction|].
    unfold format_hits. rewrite Hf. reflexivity. }
  unfold execute_tool.
  rewrite (bind_ok _ _ _ _ _ _ _ (log_run _ _)).
  rewrite (bind_ok _ _ _ _ _ _ _ (log_run _ _)).
  change (is_str (PStr "search") "search") with true. cbv iota.
  match goal with
  | |- bind _ _ ?x = _ =>
      assert (Hi : (r <- internet_search sv (PStr q) ;; ret (PStr r)) x =
                   (Ok (PStr ""),
                    set_trace (trace x ++ [WebSearch (q +++ " explanation meaning context")]) x))
        by (unfold bind; rewrite (Hs x eq_refl); reflexivity);
      rewrite (bind_ok _ _ _ _ _ _ _ Hi)
  end.
  cbn. rewrite <- app_assoc. reflexivity.
Qed.

(** X14. What the tools do with an input that is not text.  The search
    reports "Search failed: ..." without calling the search client and
    without raising.  [add_todo] raises [AttributeError] and leaves the
    task list alone.  [complete_todo] answers "There are no tasks to
    complete." on an empty list and "No matching task found." when every
    task is done, and raises [AttributeError] as soon as one task is not
    done; in no case does it change the list. *)
Theorem X14_tools_on_input_that_is_not_text (v : pyval) (w : world) :
  (forall s, v <> PStr s) ->
  internet_search sv v w = (Ok ("Search failed: " +++ concat_error sv v), w) /\
  add_todo v w = (Raise AttributeError, w) /\
  (todo_file w = [] ->
     complete_todo sv v w = (Ok "There are no tasks to complete.", w)) /\
  (todo_file w <> [] -> (forall t, In t (todo_file w) -> done t = true) ->
     complete_todo sv v w = (Ok "No matching task found.", w)) /\
  ((exists t, In t (todo_file w) /\ done t = false) ->
     complete_todo sv v w = (Raise AttributeError, w)).
Proof.
  intros Hv.
  destruct v as [| | |s| |]; try (exfalso; exact (Hv s eq_refl));
    (split; [reflexivity|]; split; [reflexivity|];
     unfold complete_todo, bind, load_todos, gets;
     split; [intros ->; reflexivity|]; split;
     [ intros Hne Hall; destruct (todo_file w) as [|t0 rest] eqn:Et; [contradiction|];
       assert (Hex : existsb (fun t => negb (done t)) (t0 :: rest) = false)
         by (apply existsb_all_false; intros t Hin; rewrite (Hall t Hin); reflexivity);
       rewrite Hex; reflexivity
     | intros [t [Hin Hd]]; destruct (todo_file w) as [|t0 rest] eqn:Et; [destruct Hin|];
       assert (Hex : existsb (fun t => negb (done t)) (t0 :: rest) = true)
         by (apply existsb_exists; exists t; split; [exact Hin | rewrite Hd; reflexivity]);
       rewrite Hex; reflexivity ]).
Qed.

(** ** Which task is completed *)

(** The loop of [complete_todo] ends on the first of the best. *)
Lemma best_candidate_choice (text : string) (todos : list todo) :
  forall i0 bm bs i s,
    best_candidate sv text todos i0 bm bs = (Some i, s) ->
    (bm = Some i /\ s = bs /\
     forall t, In t todos -> done t = false ->
               (ratio sv (lower text) (lower (task t)) <= bs)%Q) \/
    (i0 <= i /\
     exists t,
       nth_error todos (i - i0) = Some t /\ done t = false /\
       s = ratio sv (lower text) (lower (task t)) /\
       (bs < s)%Q /\
       (forall j t', nth_error todos j = Some t' -> done t' = false ->
                     (ratio sv (lower text) (lower (task t')) <= s)%Q) /\
       (forall j t', j < i - i0 -> nth_error todos j = Some t' -> done t' = false ->
                     (ratio sv (lower text) (lower (task t')) < s)%Q)).
Proof.
  induction todos as [|t0 rest IH]; intros i0 bm bs i s H; cbn [best_candidate] in H.
  - left. injection H as -> ->. split; [reflexivity|]. split; [reflexivity|].
    intros t [].
  - destruct (done t0) eqn:Ed.
    + apply IH in H. destruct H as [[Hb [Hs Hall]]|[Hle [t [Hn [Hd [Hs [Hlt [Hmax Hfirst]]]]]]]].
      * left. split; [exact Hb|]. split; [exact Hs|].
        intros t [<-|Hin] Hdt; [congruence | auto].
      * right. split; [lia|]. exists t.
        replace (i - i0) with (S (i - S i0)) by lia.
        split; [exact Hn|]. split; [exact Hd|]. split; [exact Hs|]. split; [exact Hlt|].
        split.
        -- intros [|j] t' Hj Hdt; cbn in Hj; [injection Hj as <-; congruence|].
           eapply Hmax; eassumption.
        -- intros [|j] t' Hlt' Hj Hdt; cbn in Hj; [injection Hj as <-; congruence|].
           apply (Hfirst j t'); [lia | exact Hj | exact Hdt].
    + destruct (Qgtb (ratio sv (lower text) (lower (task t0))) bs) eqn:Eg.
      * apply Qgtb_true in Eg. apply IH in H.
        destruct H as [[Hb [Hs Hall]]|[Hle [t [Hn [Hd [Hs [Hlt [Hmax Hfirst]]]]]]]].
        -- injection Hb as <-. right. split; [lia|]. exists t0.
           rewrite Nat.sub_diag. split; [reflexivity|]. split; [exact Ed|].
           split; [exact Hs|]. split; [rewrite Hs; exact Eg|]. split.
           ++ intros [|j] t' Hj Hdt; cbn in Hj.
              ** injection Hj as <-. rewrite Hs. apply Qle_refl.
              ** rewrite Hs. apply Hall; [|exact Hdt].
                 eapply nth_error_In. exact Hj.
           ++ intros j t' Hj. lia.
        -- right. split; [lia|]. exists t.
           replace (i - i0) with (S (i - S i0)) by lia.
           split; [exact Hn|]. split; [exact Hd|]. split; [exact Hs|].
           split; [eapply Qlt_trans; eassumption|]. split.
           ++ intros [|j] t' Hj Hdt; cbn in Hj.
              ** injection Hj as <-. apply Qlt_le_weak. exact Hlt.
              ** eapply Hmax; eassumption.
           ++ intros [|j] t' Hlt' Hj Hdt; cbn in Hj.
              ** injection Hj as <-. exact Hlt.
              ** apply (Hfirst j t'); [lia | exact Hj | exact Hdt].
      * apply Qgtb_false in Eg. apply IH in H.
        destruct H as [[Hb [Hs Hall]]|[Hle [t [Hn [Hd [Hs [Hlt [Hmax Hfirst]]]]]]]].
        -- left. split; [exact Hb|]. split; [exact Hs|].
           intros t [<-|Hin] Hdt; [exact Eg | auto].
        -- right. split; [lia|]. exists t.
           replace (i - i0) with (S (i - S i0)) by lia.
           split; [exact Hn|]. split; [exact Hd|]. split; [exact Hs|].
           split; [exact Hlt|]. split.
           ++ intros [|j] t' Hj Hdt; cbn in Hj.
              ** injection Hj as <-. apply Qlt_le_weak.
                 eapply Qle_lt_trans; eassumption.
              ** eapply Hmax; eassumption.
           ++ intros [|j] t' Hlt' Hj Hdt; cbn in Hj.
              ** injection Hj as <-. eapply Qle_lt_trans; eassumption.
              ** apply (Hfirst j t'); [lia | exact Hj | exact Hdt].
Qed.

(** X15. Whenever [complete_todo] changes anything, the task it marks was
    not done, scores above 0.45, scores at least as high as every other
    task that is not done, and strictly higher than every such task before
    it in the list: of several best matches the first one is taken. *)
Theorem X15_complete_todo_marks_first_best (text : string) (w : world) :
  snd (complete_todo sv (PStr text) w) <> w ->
  exists i t,
    nth_error (todo_file w) i = Some t /\ done t = false /\
    complete_todo sv (PStr text) w =
      (Ok ("Task '" +++ task t +++ "' marked as done."),
       set_todo_file (set_done i (todo_file w)) w) /\
    (threshold < ratio sv (lower text) (lower (task t)))%Q /\
    (forall j t', nth_error (todo_file w) j = Some t' -> done t' = false ->
       (ratio sv (lower text) (lower (task t')) <= ratio sv (lower text) (lower (task t)))%Q) /\
    (forall j t', j < i -> nth_error (todo_file w) j = Some t' -> done t' = false ->
       (ratio sv (lower text) (lower (task t')) < ratio sv (lower text) (lower (task t)))%Q).
Proof.
  unfold complete_todo, bind, load_todos, gets.
  destruct (todo_file w) as [|t0 rest] eqn:Et; [intros H; cbn in H; contradiction|].
  destruct (best_candidate sv text (t0 :: rest) 0 None 0%Q) as [[i|] bs] eqn:Eb;
    [|intros H; cbn in H; contradiction].
  destruct (Qgtb bs threshold) eqn:Eg; [|intros H; cbn in H; contradiction].
  intros _. apply Qgtb_true in Eg.
  apply best_candidate_choice in Eb.
  destruct Eb as [[Hb _]|[_ [t [Hn [Hd [Hs [_ [Hmax Hfirst]]]]]]]]; [discriminate Hb|].
  rewrite Nat.sub_0_r in Hn, Hfirst. subst bs.
  exists i, t. split; [exact Hn|]. split; [exact Hd|]. split.
  - unfold mark_done, bind, load_todos, gets, save_todos, modify, ret.
    rewrite Et, Hn. reflexivity.
  - split; [exact Eg|]. split; [exact Hmax | exact Hfirst].
Qed.

(** ** The task file *)

(** X16. [mark_done] with an index past the end answers "Invalid task
    index." and writes nothing; with a valid index it is idempotent: doing
    it a second time gives the same answer and the same task list. *)
Theorem X16_mark_done_bounds_and_idempotence (i : nat) (w : world) :
  (length (todo_file w) <= i -> mark_done i w = (Ok "Invalid task index.", w)) /\
  (let w1 := snd (mark_done i w) in
   mark_done i w1 = (fst (mark_done i w), w1)).
Proof.
  unfold mark_done, bind, load_todos, gets, save_todos, modify, ret. split.
  - intros H. apply nth_error_None in H. rewrite H. reflexivity.
  - destruct (nth_error (todo_file w) i) as [t|] eqn:En; cbn.
    + rewrite (set_done_at i (todo_file w) t En). cbn.
      assert (Hidem : set_done i (set_done i (todo_file w)) = set_done i (todo_file w)).
      { clear En. revert i. induction (todo_file w) as [|t0 rest IH]; intros [|i];
          cbn; try reflexivity. f_equal. apply IH. }
      rewrite Hidem. reflexivity.
    + rewrite En. reflexivity.
Qed.

Lemma duplicate_test_by_text (s : string) (a b : list todo) :
  map task a = map task b ->
  existsb (fun t => String.eqb (lower (strip s)) (lower (strip (task t)))) a =
  existsb (fun t => String.eqb (lower (strip s)) (lower (strip (task t)))) b.
Proof.
  revert b. induction a as [|x a IH]; intros [|y b] H; cbn in *; try discriminate;
    [reflexivity|].
  injection H as Hx Hrest. rewrite Hx. f_equal. apply IH, Hrest.
Qed.

(** X17. Completing tasks never makes a task addable again: the duplicate
    test of [add_todo] looks at the texts only, so after any
    [complete_todo] (and after any [mark_done]) [add_todo] gives the answer
    it would have given before. *)
Theorem X17_done_tasks_still_block_adding (s : string) (v : pyval) (i : nat) (w : world) :
  fst (add_todo (PStr s) (snd (complete_todo sv v w))) = fst (add_todo (PStr s) w) /\
  fst (add_todo (PStr s) (snd (mark_done i w))) = fst (add_todo (PStr s) w).
Proof.
  assert (Hgen : forall w', map task (todo_file w') = map task (todo_file w) ->
            fst (add_todo (PStr s) w') = fst (add_todo (PStr s) w)).
  { intros w' Hm. unfold add_todo, bind, load_todos, gets.
    rewrite (duplicate_test_by_text s _ _ Hm).
    destruct (existsb _ (todo_file w)); reflexivity. }
  split; apply Hgen.
  - destruct (complete_todo_cases v w) as [[Hw _]|[j [t [_ [_ Hc]]]]].
    + rewrite Hw. reflexivity.
    + rewrite Hc. cbn [snd todo_file set_todo_file]. apply set_done_tasks.
  - unfold mark_done, bind, load_todos, gets.
    destruct (nth_error (todo_file w) i); cbn; [apply set_done_tasks | reflexivity].
Qed.

(** ** The proactive suggestion *)

(** X18. [proactive_check] never changes the task list, the window or the
    call history.  When every task is done (or there is none) it yields
    [None] and logs nothing; otherwise it suggests the first task that is
    not done, by its text, and logs one "Proactive suggestion triggered."
    entry. *)
Theorem X18_proactive_check_suggests_first_open_task (w : world) :
  let r := fst (proactive_check w) in
  let w' := snd (proactive_check w) in
  todo_file w' = todo_file w /\ trace w' = trace w /\ short_term w' = short_term w /\
  ((forall t, In t (todo_file w) -> done t = true) -> r = Ok PNone /\ w' = w) /\
  (forall pre t post,
      todo_file w = pre ++ t :: post ->
      (forall x, In x pre -> done x = true) -> done t = false ->
      r = Ok (PStr ("I see we still need to '" +++ task t +++ "'. Shall I handle it now?")) /\
      internal_log w' = internal_log w ++ ["Proactive suggestion triggered."]).
Proof.
  unfold proactive_check, bind, load_todos, gets, log, modify, ret. cbv zeta.
  split; [destruct (List.find _ (todo_file w)); reflexivity|].
  split; [destruct (List.find _ (todo_file w)); reflexivity|].
  split; [destruct (List.find _ (todo_file w)); reflexivity|].
  split.
  - intros Hall.
    rewrite (find_all_false _ (fun t => negb (done t)) (todo_file w)).
    + split; reflexivity.
    + intros x Hx. rewrite (Hall x Hx). reflexivity.
  - intros pre t post Hsplit Hpre Hd. rewrite Hsplit.
    rewrite (find_first _ (fun t => negb (done t)) pre post t).
    + split; reflexivity.
    + intros y Hy. rewrite (Hpre y Hy). reflexivity.
    + rewrite Hd. reflexivity.
Qed.

(** X19. After [add_todo] has added a task, [proactive_check] has a
    suggestion to make; when every task stored before was done, the
    suggestion is the task just added, with the text as it was given. *)
Theorem X19_added_task_is_suggested (s : string) (w : world) :
  (forall t, In t (todo_file w) -> lower (strip (task t)) <> lower (strip s)) ->
  let w1 := snd (add_todo (PStr s) w) in
  (exists msg, fst (proactive_check w1) = Ok (PStr msg)) /\
  ((forall t, In t (todo_file w) -> done t = true) ->
   fst (proactive_check w1) =
     Ok (PStr ("I see we still need to '" +++ s +++ "'. Shall I handle it now?"))).
Proof.
  intros Hfresh w1.
  assert (E : existsb (fun x => String.eqb (lower (strip s)) (lower (strip (task x))))
                      (todo_file w) = false).
  { apply existsb_all_false. intros x Hx. apply String.eqb_neq.
    intros Heq. apply (Hfresh x Hx). symmetry. exact Heq. }
  subst w1. rewrite (add_todo_new s w E). cbn [snd].
  unfold proactive_check, bind, load_todos, gets, log, modify, ret.
  cbn [todo_file set_todo_file]. split.
  - destruct (List.find (fun t => negb (done t)) (todo_file w ++ [mkTodo s false]))
      as [t|] eqn:Ef.
    + eexists. reflexivity.
    + exfalso. pose proof (find_none _ _ Ef (mkTodo s false)) as Hn.
      cbn in Hn. discriminate Hn. apply in_or_app. right. left. reflexivity.
  - intros Hall.
    rewrite (find_first _ (fun t => negb (done t)) (todo_file w) [] (mkTodo s false)).
    + reflexivity.
    + intros y Hy. rewrite (Hall y Hy). reflexivity.
    + reflexivity.
Qed.

(** ** Saying it twice *)

Lemma add_todo_leaves_duplicate (s : string) (w : world) :
  existsb (fun t => String.eqb (lower (strip s)) (lower (strip (task t))))
          (todo_file (snd (add_todo (PStr s) w))) = true.
Proof.
  destruct (existsb (fun t => String.eqb (lower (strip s)) (lower (strip (task t))))
                    (todo_file w)) eqn:E.
  - rewrite (add_todo_duplicate s w E). exact E.
  - rewrite (add_todo_new s w E). cbn [snd todo_file set_todo_file].
    rewrite existsb_app. apply orb_true_iff. right.
    cbn [existsb task]. rewrite String.eqb_refl. reflexivity.
Qed.

(** X20. Saying the same task-creation sentence twice creates the task
    once: when rule 3 handles an utterance, processing the same utterance
    again right away answers "Task already exists." and leaves the task
    list as the first processing left it. *)
Theorem X20_same_sentence_twice_adds_once (u : string) (w : world) :
  is_preference (strip (lower u)) = false ->
  (forall k, In k completion_keywords -> contains k (strip (lower u)) = false) ->
  (exists t, In t task_triggers /\ contains t (strip (lower u)) = true) ->
  let w1 := snd (process_single_intent sv u w) in
  fst (process_single_intent sv u w1) = Ok (PStr "Task already exists.") /\
  todo_file (snd (process_single_intent sv u w1)) = todo_file w1.
Proof.
  intros H1 H2 [t0 [Hin0 Hocc0]] w1.
  destruct (first_trigger (strip (lower u))) as [trigger|] eqn:Hfirst.
  2:{ unfold first_trigger in Hfirst.
      pose proof (find_none _ _ Hfirst t0 Hin0) as Hc. cbn in Hc. congruence. }
  pose proof (process_rule3 u trigger) as Hrule.
  set (t := strip (last_piece (split trigger (strip (lower u))))) in *.
  assert (Hdup : existsb (fun x => String.eqb (lower (strip t)) (lower (strip (task x))))
                         (todo_file w1) = true).
  { subst w1. rewrite (Hrule w H1 (existsb_all_false _ _ _ H2) Hfirst).
    unfold bind.
    pose proof (add_todo_leaves_duplicate t (snd (push_turn "user" (PStr u) w))) as Hl.
    destruct (add_todo (PStr t) (snd (push_turn "user" (PStr u) w))) as [[msg|e] w2];
      exact Hl. }
  rewrite (Hrule w1 H1 (existsb_all_false _ _ _ H2) Hfirst).
  unfold bind.
  rewrite (add_todo_duplicate t (snd (push_turn "user" (PStr u) w1)) Hdup).
  split; reflexivity.
Qed.

(** ** The text of a task created by rule 3 *)



Lemma startswith_refl (s : string) : startswith s s = true.
Proof.
  induction s as [|c r IH]; [reflexivity|]. cbn. rewrite Ascii.eqb_refl. exact IH.
Qed.

Lemma endswith_split (p : string) :
  forall s, endswith s p = true -> exists a, s = a +++ p.
Proof.
  induction s as [|c r IH]; intros H; cbn [endswith] in H.
  - rewrite orb_false_r in H. apply String.eqb_eq in H. subst p.
    exists EmptyString. reflexivity.
  - apply orb_true_iff in H. destruct H as [H|H].
    + apply String.eqb_eq in H. exists EmptyString. exact H.
    + destruct (IH H) as [a Ha]. exists (String c a). cbn. rewrite <- Ha. reflexivity.
Qed.

Lemma drop_all (s : string) : drop (String.length s) s = EmptyString.
Proof. induction s as [|c r IH]; [reflexivity | exact IH]. Qed.

Lemma after_last_at_end (sep : string) :
  borderless sep = true ->
  forall a, after_last sep (a +++ sep) = Some EmptyString.
Proof.
  intros Hb. induction a as [|c a IH].
  - cbn [String.append].
    rewrite (after_last_at_occurrence sep sep Hb (startswith_refl sep)).
    rewrite drop_all. reflexivity.
  - change (String c a +++ sep) with (String c (a +++ sep)).
    cbn [after_last]. rewrite IH. reflexivity.
Qed.

Lemma contains_at_end (sep : string) : forall a, contains sep (a +++ sep) = true.
Proof.
  induction a as [|c a IH].
  - cbn [String.append]. destruct sep; cbn; [reflexivity|].
    rewrite Ascii.eqb_refl, startswith_refl. reflexivity.
  - change (String c a +++ sep) with (String c (a +++ sep)).
    cbn [contains]. rewrite IH. apply orb_true_r.
Qed.

(** X22. A task-creation sentence that stops at the trigger creates a
    task with an empty text: when rules 1 and 2 do not match, [trigger] is
    the first trigger that occurs and the normalised input ends with it,
    the text handed to [add_todo] is empty; unless a task whose trimmed
    text is empty is stored already, the record appended has the empty text
    and the answer is "Task '' added.". *)
Theorem X22_trigger_alone_adds_an_empty_task
    (u trigger : string) (pre post : list string) (w : world) :
  is_preference (strip (lower u)) = false ->
  (forall k, In k completion_keywords -> contains k (strip (lower u)) = false) ->
  task_triggers = pre ++ trigger :: post ->
  (forall t, In t pre -> contains t (strip (lower u)) = false) ->
  endswith (strip (lower u)) trigger = true ->
  (forall t, In t (todo_file w) -> strip (task t) <> EmptyString) ->
  fst (process_single_intent sv u w) = Ok (PStr "Task '' added.") /\
  todo_file (snd (process_single_intent sv u w)) = todo_file w ++ [mkTodo "" false].
Proof.
  intros H1 H2 Hlist Hpre Hend Hstore.
  assert (Hin : In trigger task_triggers).
  { rewrite Hlist. apply in_or_app. right. left. reflexivity. }
  destruct (endswith_split trigger _ Hend) as [a Ha].
  assert (Hocc : contains trigger (strip (lower u)) = true).
  { rewrite Ha. apply contains_at_end. }
  assert (Hfirst : first_trigger (strip (lower u)) = Some trigger).
  { unfold first_trigger. rewrite Hlist.
    apply (find_first _ (fun t => contains t (strip (lower u)))); assumption. }
  pose proof (split_last_is_after_last trigger (strip (lower u))
                (task_triggers_borderless trigger Hin) Hocc) as Hlast.
  rewrite Ha in Hlast at 1.
  rewrite (after_last_at_end trigger (task_triggers_borderless trigger Hin)) in Hlast.
  injection Hlast as Hlast.
  rewrite (process_rule3 u trigger w H1 (existsb_all_false _ _ _ H2) Hfirst).
  rewrite <- Hlast. change (strip "") with "".
  assert (E : existsb (fun x => String.eqb (lower (strip "")) (lower (strip (task x))))
                      (todo_file (snd (push_turn "user" (PStr u) w))) = false).
  { apply existsb_all_false. intros x Hx. apply String.eqb_neq.
    change (lower (strip "")) with "". intros Heq.
    apply (Hstore x Hx). destruct (strip (task x)); [reflexivity | discriminate Heq]. }
  unfold bind. rewrite (add_todo_new "" _ E). split; reflexivity.
Qed.

(** ** Decoding the model's answer *)

Lemma startswith_char (c b : ascii) (r : string) :
  startswith (String c r) (String b EmptyString) = Ascii.eqb c b.
Proof. cbn [startswith]. rewrite startswith_nil. apply andb_true_r. Qed.

Lemma brace_span_skip (s : string) :
  forall pre, contains "{" pre = false -> brace_span (pre +++ s) = brace_span s.
Proof.
  induction pre as [|c pre IH]; intros H; [reflexivity|].
  cbn [contains] in H. rewrite startswith_char in H.
  apply orb_false_iff in H. destruct H as [Hc Hrest].
  change (String c pre +++ s) with (String c (pre +++ s)).
  cbn [brace_span]. rewrite Hc. apply IH, Hrest.
Qed.

Lemma upto_last_close_none (s : string) :
  contains "}" s = false -> upto_last_close s = None.
Proof.
  induction s as [|c r IH]; intros H; [reflexivity|].
  cbn [contains] in H. rewrite startswith_char in H.
  apply orb_false_iff in H. destruct H as [Hc Hrest].
  cbn [upto_last_close]. rewrite (IH Hrest), Hc. reflexivity.
Qed.

Lemma upto_last_close_found (post : string) :
  contains "}" post = false ->
  forall mid, upto_last_close (mid +++ "}" +++ post) = Some (mid +++ "}").
Proof.
  intros Hpost. induction mid as [|c mid IH].
  - cbn [String.append upto_last_close].
    rewrite (upto_last_close_none post Hpost). reflexivity.
  - change (String c mid +++ "}" +++ post) with (String c (mid +++ "}" +++ post)).
    cbn [upto_last_close]. rewrite IH. reflexivity.
Qed.

(** X23. [safe_parse] recovers an object wrapped in prose.  When the whole
    text is not JSON, the text before the first opening brace holds no
    opening brace and the text after the last closing brace holds no
    closing brace, the second attempt decodes exactly the part from that
    opening brace to that closing brace, whatever lies between them; its
    value is the result, and [None] is the result when it does not decode
    either. *)
Theorem X23_safe_parse_recovers_embedded_object (pre mid post : string) :
  json_loads sv (pre +++ "{" +++ mid +++ "}" +++ post) = None ->
  contains "{" pre = false ->
  contains "}" post = false ->
  brace_span (pre +++ "{" +++ mid +++ "}" +++ post) = Some ("{" +++ mid +++ "}") /\
  safe_parse sv (pre +++ "{" +++ mid +++ "}" +++ post) =
    match json_loads sv ("{" +++ mid +++ "}") with
    | Some v => v
    | None => PNone
    end.
Proof.
  intros Hwhole Hpre Hpost.
  assert (Hspan : brace_span (pre +++ "{" +++ mid +++ "}" +++ post) =
                  Some ("{" +++ mid +++ "}")).
  { rewrite (brace_span_skip _ pre Hpre).
    change ("{" +++ mid +++ "}" +++ post) with (String "{" (mid +++ "}" +++ post)).
    cbn [brace_span]. rewrite Ascii.eqb_refl.
    rewrite (upto_last_close_found post Hpost mid). reflexivity. }
  split; [exact Hspan|].
  unfold safe_parse. rewrite Hwhole, Hspan. reflexivity.
Qed.

(** ** Who writes to the memory store *)

Lemma mw_directive (sm mc : pyval) :
  steps (memory_written sm mc) (memory_directive sv sm mc).
Proof.
  intro w. unfold memory_written, memory_directive.
  destruct (truthy sm && truthy mc); [|left; reflexivity].
  unfold bind, add_memory.
  destruct mc; try destruct (collection_accepts sv _); cbn;
    first [ left; reflexivity | right; split; reflexivity ].
Qed.

Lemma mw_pre (A B : Type) (sm mc : pyval) (m : M A) (k : A -> M B) :
  keeps collection m -> (forall a, steps (memory_written sm mc) (k a)) ->
  steps (memory_written sm mc) (bind m k).
Proof.
  intros Hm Hk w. unfold bind. specialize (Hm w).
  destruct (m w) as [[a|e] w1]; cbn in *.
  - specialize (Hk a w1). unfold memory_written in *. rewrite <- Hm. exact Hk.
  - left. exact Hm.
Qed.

Lemma mw_post (A B : Type) (sm mc : pyval) (m : M A) (k : A -> M B) :
  steps (memory_written sm mc) m -> (forall a, keeps collection (k a)) ->
  steps (memory_written sm mc) (bind m k).
Proof.
  intros Hm Hk w. unfold bind. specialize (Hm w).
  destruct (m w) as [[a|e] w1]; cbn in *.
  - unfold memory_written in *. rewrite (Hk a w1). exact Hm.
  - exact Hm.
Qed.

Lemma act_on_decision_memory (d : list (string * pyval)) :
  steps (memory_written (dict_get d "save_memory" (PBool false))
                        (dict_get d "memory_content" (PStr "")))
        (act_on_decision sv d).
Proof.
  unfold act_on_decision. cbv zeta.
  apply mw_pre; [frame | intro].
  apply mw_pre; [frame | intro].
  apply mw_pre; [frame | intro].
  apply mw_pre; [frame | intro].
  apply mw_pre; [frame | intro].
  apply mw_post; [apply mw_directive | intro].
  unfold respond, push_turn. kp.
Qed.

Lemma reasoning_cycle_memory (u : string) (w : world) :
  collection (snd (reasoning_cycle sv u w)) = collection w \/
  (exists text d,
      chat_json sv (trace w ++ [MemoryQuery u 2]) (decision_messages sv w u) = Answer text /\
      safe_parse sv text = PDict d /\
      truthy (dict_get d "save_memory" (PBool false)) = true /\
      truthy (dict_get d "memory_content" (PStr "")) = true /\
      collection (snd (reasoning_cycle sv u w)) =
        collection w ++ [dict_get d "memory_content" (PStr "")]).
Proof.
  destruct (chat_json sv (trace w ++ [MemoryQuery u 2]) (decision_messages sv w u))
    as [text|e] eqn:Hchat.
  - destruct (reasoning_cycle_asks u text w Hchat)
      as [wj [_ [Hcoll [_ [_ [_ Hrun]]]]]].
    rewrite Hrun. destruct (truthy (safe_parse sv text)) eqn:Ht; cbn [negb].
    + destruct (safe_parse sv text) as [| | | | |d] eqn:Hp;
        try (left; cbn; exact Hcoll).
      destruct (act_on_decision_memory d wj) as [Hsame|[Hcond Hadd]].
      * left. rewrite Hsame. exact Hcoll.
      * right. exists text, d. apply andb_true_iff in Hcond. destruct Hcond as [Hs Hm].
        split; [reflexivity|]. split; [exact Hp|]. split; [exact Hs|].
        split; [exact Hm|]. rewrite Hadd, Hcoll. reflexivity.
    + left. rewrite plain_fallback_run. cbn. exact Hcoll.
  - destruct (reasoning_cycle_call_fails u e w Hchat)
      as [wj [_ [Hcoll [_ [_ [_ Hrun]]]]]].
    left. rewrite Hrun, plain_fallback_run. cbn. exact Hcoll.
Qed.

(** X24. The memory store is written only on instruction.  Processing an
    utterance leaves the documents handed to the store as they were, except
    in two cases: rule 1 matched, and the one document "User preference:
    ..." was added; or the utterance went through the reasoning cycle, the
    structured answer decoded to an object whose [save_memory] and
    [memory_content] both count as true, and that [memory_content] was
    added.  Rules 2 to 5, the fall-back answers and the tools never write
    to it. *)
Theorem X24_memory_written_only_on_instruction (u : string) (w : world) :
  let w' := snd (process_single_intent sv u w) in
  let w1 := snd (push_turn "user" (PStr u) w) in
  collection w' = collection w \/
  (is_preference (strip (lower u)) = true /\
   collection w' = collection w ++ [PStr ("User preference: " +++ strip u)]) \/
  (is_preference (strip (lower u)) = false /\
   exists text d,
     chat_json sv (trace w1 ++ [MemoryQuery u 2]) (decision_messages sv w1 u) = Answer text /\
     safe_parse sv text = PDict d /\
     truthy (dict_get d "save_memory" (PBool false)) = true /\
     truthy (dict_get d "memory_content" (PStr "")) = true /\
     collection w' = collection w ++ [dict_get d "memory_content" (PStr "")]).
Proof.
  intros w' w1. subst w'.
  destruct (is_preference (strip (lower u))) eqn:H1.
  - right. left. split; [reflexivity|]. rewrite (process_rule1 u w H1). reflexivity.
  - assert (Hquiet : forall (m : M pyval), keeps collection m ->
              process_single_intent sv u w = m w1 ->
              collection (snd (process_single_intent sv u w)) = collection w).
    { intros m Hm Hrun. rewrite Hrun, (Hm w1). reflexivity. }
    destruct (is_completion (strip (lower u))) eqn:H2.
    { left. eapply Hquiet; [|apply (process_rule2 u w H1 H2)].
      unfold respond, push_turn. frame. }
    destruct (first_trigger (strip (lower u))) as [trigger|] eqn:H3.
    { left. eapply Hquiet; [|apply (process_rule3 u trigger w H1 H2 H3)].
      unfold respond, push_turn. frame. }
    destruct (is_date_query (strip (lower u))) eqn:H4.
    { left. unfold process_single_intent, route. cbv zeta.
      rewrite H1, H2, H3, H4. reflexivity. }
    destruct (is_knowledge_question (strip (lower u)) &&
              negb (has_search_intent (strip (lower u)))) eqn:H5.
    { left. unfold process_single_intent, route. cbv zeta.
      rewrite H1, H2, H3, H4, H5. reflexivity. }
    rewrite (process_falls_through u w H1 H2 H3 H4 H5). fold w1.
    destruct (reasoning_cycle_memory u w1) as [Hsame|[text [d [Ha [Hp [Hs [Hm Hadd]]]]]]].
    + left. exact Hsame.
    + right. right. split; [reflexivity|]. exists text, d.
      repeat (split; [assumption|]). exact Hadd.
Qed.

(** ** The structured call *)

Lemma co_ret (A : Type) (P : event -> Prop) (a : A) : calls_only P (ret a).
Proof. intro w. exists []. cbn. rewrite app_nil_r. split; [reflexivity | constructor]. Qed.

Lemma co_raise (A : Type) (P : event -> Prop) (e : exn) : calls_only P (@raise A e).
Proof. intro w. exists []. cbn. rewrite app_nil_r. split; [reflexivity | constructor]. Qed.

Lemma co_gets (A : Type) (P : event -> Prop) (g : world -> A) : calls_only P (gets g).
Proof. intro w. exists []. cbn. rewrite app_nil_r. split; [reflexivity | constructor]. Qed.

Lemma co_quiet (P : event -> Prop) (g : world -> world) :
  (forall w, trace (g w) = trace w) -> calls_only P (modify g).
Proof.
  intros H w. exists []. cbn. rewrite app_nil_r. split; [apply H | constructor].
Qed.

Lemma co_emit (P : event -> Prop) (e : event) : P e -> calls_only P (emit e).
Proof. intros H w. exists [e]. split; [reflexivity | constructor; [exact H | constructor]]. Qed.

Lemma co_bind (A B : Type) (P : event -> Prop) (m : M A) (k : A -> M B) :
  calls_only P m -> (forall a, calls_only P (k a)) -> calls_only P (bind m k).
Proof.
  intros Hm Hk w. unfold bind. destruct (Hm w) as [l1 [H1 P1]].
  destruct (m w) as [[a|e] w1]; cbn in *.
  - destruct (Hk a w1) as [l2 [H2 P2]]. exists (l1 ++ l2).
    split; [rewrite H2, H1, app_assoc; reflexivity | apply Forall_app; split; assumption].
  - exists l1. split; assumption.
Qed.

Ltac co_step :=
  match goal with
  | |- calls_only _ (bind _ _) => apply co_bind; [| intro]
  | |- calls_only _ (ret _) => apply co_ret
  | |- calls_only _ (raise _) => apply co_raise
  | |- calls_only _ (gets _) => apply co_gets
  | |- calls_only _ (emit _) => apply co_emit; reflexivity
  | |- calls_only _ (modify _) => apply co_quiet; intro; reflexivity
  | |- calls_only _ (if ?b then _ else _) => destruct b
  | |- calls_only _ (match ?x with _ => _ end) => destruct x
  end.

(** Unfold the pipeline below the structured call and discharge a
    [calls_only] goal. *)
Ltac quiet :=
  unfold act_on_decision, respond, push_turn, tool_then_synthesize, execute_tool,
    memory_directive, internet_search, add_todo, complete_todo, get_current_date,
    mark_done, add_task, load_todos, save_todos, call_model_plain, add_memory, log;
  cbv zeta; repeat co_step.

(** The messages of the structured call: the system prompt, then the
    window, whose last entry is the user's message. *)
Lemma decision_messages_shape (u : string) (w : world) :
  let w1 := snd (push_turn "user" (PStr u) w) in
  let messages := decision_messages sv w1 u in
  length messages <= 1 + max_context /\
  List.last messages (mkTurn "" PNone) = mkTurn "user" (PStr u).
Proof.
  intros w1 messages. subst messages. unfold decision_messages.
  assert (Hst : short_term w1 = slice_last max_context (short_term w ++ [mkTurn "user" (PStr u)]))
    by reflexivity.
  split.
  - cbn [length]. rewrite Hst.
    pose proof (slice_last_length _ max_context
                  (short_term w ++ [mkTurn "user" (PStr u)])) as Hl.
    unfold max_context in *. lia.
  - destruct (slice_last_keeps_tail _ max_context (short_term w) [mkTurn "user" (PStr u)])
      as [earlier He]; [unfold max_context; cbn; lia|].
    rewrite Hst, He.
    change (List.last ((mkTurn "system"
              (PStr (system_prompt sv (cfg w1)
                 (PList (map PStr (q_documents (recall sv w1 u 2))))))
              :: earlier) ++ [mkTurn "user" (PStr u)]) (mkTurn "" PNone)
            = mkTurn "user" (PStr u)).
    apply last_last.
Qed.

(** The calls of the reasoning cycle: the memory query, the structured
    call, and after them no other structured call. *)
Lemma reasoning_cycle_calls (u : string) (w : world) :
  exists others,
    trace (snd (reasoning_cycle sv u w)) =
      trace w ++ MemoryQuery u 2 :: ChatJson (decision_messages sv w u) :: others /\
    Forall (fun e => is_structured e = false) others.
Proof.
  unfold reasoning_cycle.
  rewrite (bind_ok _ _ _ _ _ _ _ (memory_query_run u 2 w)).
  rewrite (bind_ok _ _ _ _ _ _ _ (log_run _ _)).
  rewrite (bind_ok _ _ _ _ _ _ _ (log_run _ _)).
  rewrite (bind_ok _ _ _ _ _ _ _ (gets_run _ _ _)).
  rewrite (bind_ok _ _ _ _ _ _ _ (gets_run _ _ _)).
  cbn [log emit modify snd cfg short_term set_internal_log set_trace].
  fold (decision_messages sv w u).
  match goal with
  | |- context [bind (call_model_json sv _) _ ?x] => set (w1 := x)
  end.
  destruct (call_model_json_returns (decision_messages sv w u) w1) as [v [wj [Hj Htr]]].
  rewrite (bind_ok _ _ _ _ _ _ _ Hj).
  match goal with
  | |- context [trace (snd (?k wj))] =>
      assert (Hk : calls_only (fun e => is_structured e = false) k) by quiet;
      destruct (Hk wj) as [others [Ho HP]]; exists others; rewrite Ho, Htr
  end.
  change (trace w1) with (trace w ++ [MemoryQuery u 2]).
  rewrite <- !app_assoc. split; [reflexivity | exact HP].
Qed.

(** The calls of one utterance: no structured call at all, or the calls of
    the reasoning cycle. *)
Lemma process_calls (u : string) (w : world) :
  let w1 := snd (push_turn "user" (PStr u) w) in
  exists added,
    trace (snd (process_single_intent sv u w)) = trace w ++ added /\
    (Forall (fun e => is_structured e = false) added \/
     exists others,
       added = MemoryQuery u 2 :: ChatJson (decision_messages sv w1 u) :: others /\
       Forall (fun e => is_structured e = false) others).
Proof.
  intros w1.
  assert (Hrun : process_single_intent sv u w = route sv u w1) by reflexivity.
  rewrite Hrun. change (trace w) with (trace w1).
  assert (Hq : forall m : M pyval,
             calls_only (fun e => is_structured e = false) m ->
             exists added,
               trace (snd (m w1)) = trace w1 ++ added /\
               (Forall (fun e => is_structured e = false) added \/
                exists others,
                  added = MemoryQuery u 2 :: ChatJson (decision_messages sv w1 u) :: others /\
                  Forall (fun e => is_structured e = false) others)).
  { intros m Hm. destruct (Hm w1) as [added [Ha HP]]. exists added. auto. }
  unfold route. cbv zeta.
  destruct (is_preference _); [apply Hq; quiet|].
  destruct (is_completion _); [apply Hq; quiet|].
  destruct (first_trigger _); [apply Hq; quiet|].
  destruct (is_date_query _); [apply Hq; quiet|].
  destruct (_ && _); [apply Hq; quiet|].
  destruct (reasoning_cycle_calls u w1) as [others [Ho HP]].
  eexists. split; [exact Ho|]. right. exists others. split; [reflexivity | exact HP].
Qed.

(** X25. The structured call is issued at most once per utterance and is
    bounded.  Among the calls to outside services that processing an
    utterance adds, at most one is a structured model call, and the
    messages of every such call are the system prompt (with the memories
    retrieved for the raw input) followed by the conversation window as it
    is once the user's message is in it: at most [max_context] + 1 = 7
    messages, the last of which is the user's message as typed. *)
Theorem X25_structured_call_is_bounded (u : string) (w : world) :
  let w1 := snd (push_turn "user" (PStr u) w) in
  let w' := snd (process_single_intent sv u w) in
  exists added,
    trace w' = trace w ++ added /\
    length (filter is_structured added) <= 1 /\
    forall msgs, In (ChatJson msgs) added ->
      msgs =
        mkTurn "system"
          (PStr (system_prompt sv (cfg w)
                   (PList (map PStr (q_documents (recall sv w1 u 2))))))
        :: slice_last max_context (short_term w ++ [mkTurn "user" (PStr u)]) /\
      length msgs <= 1 + max_context /\
      List.last msgs (mkTurn "" PNone) = mkTurn "user" (PStr u).
Proof.
  intros w1 w'. subst w'.
  assert (Hnone : forall l, Forall (fun e => is_structured e = false) l ->
                            filter is_structured l = [] /\
                            forall msgs, ~ In (ChatJson msgs) l).
  { intros l Hl. split.
    - induction Hl as [|e l He _ IH]; [reflexivity|]. cbn. rewrite He. exact IH.
    - intros msgs Hin. rewrite Forall_forall in Hl. specialize (Hl _ Hin).
      discriminate Hl. }
  destruct (process_calls u w) as [added [Ha [HP|[others [Hadd HP]]]]]; exists added.
  - split; [exact Ha|]. destruct (Hnone added HP) as [Hf Hno].
    split; [rewrite Hf; cbn; lia|].
    intros msgs Hin. exfalso. exact (Hno msgs Hin).
  - split; [exact Ha|]. subst added. destruct (Hnone others HP) as [Hf Hno].
    split; [cbn; rewrite Hf; cbn; lia|].
    intros msgs [Hin|[Hin|Hin]]; [discriminate Hin| |exfalso; exact (Hno msgs Hin)].
    injection Hin as <-.
    split; [reflexivity|]. apply decision_messages_shape.
Qed.

(** ** Who writes to the task list *)

Lemma execute_tool_other_keeps_tasks (action action_input : pyval) :
  is_str action "add_todo" = false -> is_str action "complete_todo" = false ->
  keeps todo_file (execute_tool sv action action_input).
Proof.
  intros H1 H2. unfold execute_tool. rewrite H1, H2.
  unfold internet_search, get_current_date, log, emit. kp.
Qed.

Lemma act_on_decision_other_keeps_tasks (d : list (string * pyval)) :
  is_str (dict_get d "action" (PStr "none")) "add_todo" = false ->
  is_str (dict_get d "action" (PStr "none")) "complete_todo" = false ->
  keeps todo_file (act_on_decision sv d).
Proof.
  intros H1 H2.
  pose proof (execute_tool_other_keeps_tasks
                (dict_get d "action" (PStr "none"))
                (dict_get d "action_input" (PStr "")) H1 H2) as Hx.
  unfold act_on_decision, tool_then_synthesize. cbv zeta.
  repeat match goal with
         | |- keeps _ (execute_tool _ _ _) => exact Hx
         | |- keeps _ (bind _ _) => apply kp_bind; [| intro]
         | |- keeps _ (if ?b then _ else _) => destruct b
         | |- keeps _ _ =>
             solve [ unfold respond, push_turn, memory_directive, call_model_plain,
                       add_memory, log, emit; kp ]
         end.
Qed.

Lemma reasoning_cycle_tasks (u : string) (w : world) :
  todo_file (snd (reasoning_cycle sv u w)) = todo_file w \/
  (exists text d,
      chat_json sv (trace w ++ [MemoryQuery u 2]) (decision_messages sv w u) = Answer text /\
      safe_parse sv text = PDict d /\
      (is_str (dict_get d "action" (PStr "none")) "add_todo" = true \/
       is_str (dict_get d "action" (PStr "none")) "complete_todo" = true)).
Proof.
  destruct (chat_json sv (trace w ++ [MemoryQuery u 2]) (decision_messages sv w u))
    as [text|e] eqn:Hchat.
  - destruct (reasoning_cycle_asks u text w Hchat)
      as [wj [Htodo [_ [_ [_ [_ Hrun]]]]]].
    rewrite Hrun. destruct (truthy (safe_parse sv text)) eqn:Ht; cbn [negb].
    + destruct (safe_parse sv text) as [| | | | |d] eqn:Hp;
        try (left; cbn; exact Htodo).
      destruct (is_str (dict_get d "action" (PStr "none")) "add_todo") eqn:Ha;
        [right; exists text, d; auto|].
      destruct (is_str (dict_get d "action" (PStr "none")) "complete_todo") eqn:Hc;
        [right; exists text, d; auto|].
      left. rewrite (act_on_decision_other_keeps_tasks d Ha Hc wj). exact Htodo.
    + left. rewrite plain_fallback_run. cbn. exact Htodo.
  - destruct (reasoning_cycle_call_fails u e w Hchat)
      as [wj [Htodo [_ [_ [_ [_ Hrun]]]]]].
    left. rewrite Hrun, plain_fallback_run. cbn. exact Htodo.
Qed.

(** X26. The task list is written only by the task paths.  Processing an
    utterance leaves the task list as it was unless rule 1 did not match
    and either a completion keyword occurs in the normalised input (rule
    2), or a task-creation trigger does (rule 3), or the utterance went
    through the reasoning cycle and the structured answer decoded to an
    object whose action is "add_todo" or "complete_todo".  The preference,
    date and knowledge rules, the search and date tools and the fall-back
    answers never touch it. *)
Theorem X26_tasks_written_only_by_task_paths (u : string) (w : world) :
  let w' := snd (process_single_intent sv u w) in
  let w1 := snd (push_turn "user" (PStr u) w) in
  todo_file w' = todo_file w \/
  (is_preference (strip (lower u)) = false /\
   ((exists k, In k completion_keywords /\ contains k (strip (lower u)) = true) \/
    (exists t, In t task_triggers /\ contains t (strip (lower u)) = true) \/
    (exists text d,
        chat_json sv (trace w1 ++ [MemoryQuery u 2]) (decision_messages sv w1 u) = Answer text /\
        safe_parse sv text = PDict d /\
        (is_str (dict_get d "action" (PStr "none")) "add_todo" = true \/
         is_str (dict_get d "action" (PStr "none")) "complete_todo" = true)))).
Proof.
  intros w' w1. subst w'.
  destruct (is_preference (strip (lower u))) eqn:H1.
  - left. rewrite (process_rule1 u w H1). reflexivity.
  - destruct (is_completion (strip (lower u))) eqn:H2.
    { right. split; [reflexivity|]. left.
      apply existsb_exists in H2. exact H2. }
    destruct (first_trigger (strip (lower u))) as [trigger|] eqn:H3.
    { right. split; [reflexivity|]. right. left.
      apply find_some in H3. exists trigger. exact H3. }
    destruct (is_date_query (strip (lower u))) eqn:H4.
    { left. unfold process_single_intent, route. cbv zeta.
      rewrite H1, H2, H3, H4. reflexivity. }
    destruct (is_knowledge_question (strip (lower u)) &&
              negb (has_search_intent (strip (lower u)))) eqn:H5.
    { left. unfold process_single_intent, route. cbv zeta.
      rewrite H1, H2, H3, H4, H5. reflexivity. }
    rewrite (process_falls_through u w H1 H2 H3 H4 H5). fold w1.
    destruct (reasoning_cycle_tasks u w1) as [Hsame|Hdec].
    + left. exact Hsame.
    + right. split; [reflexivity|]. right. right. exact Hdec.
Qed.

End Properties.

(* ================================================================= *)
(** * The properties on concrete runs *)

Local Open Scope string_scope.
Local Open Scope list_scope.

(** A decision that asks for [add_todo] makes the tool run twice: the task
    is added by the first run and found there by the second. *)
Example decision_runs_tool_twice :
  let w := snd (process_single_intent Demo.env "please talk to Bob" (Demo.fresh [])) in
  internal_log w =
    [ "Retrieved memory: []"; "Distances: []"; "Thought: ";
      "Tool selected: add_todo"; "Tool input: Call Bob";
      "Tool observation: Task 'Call Bob' added."; "Thought: ";
      "Tool selected: add_todo"; "Tool input: Call Bob";
      "Tool observation: Task already exists." ] /\
  todo_file w = [mkTodo "Call Bob" false].
Proof. vm_compute. split; reflexivity. Qed.

Lemma C1_witness :
  exists ans w',
    reasoning_cycle Demo.env "please talk to Bob" (Demo.heard "please talk to Bob" []) =
      (Ok (PStr ans), w').
Proof.
  pose proof (C1_tool_block_runs_twice Demo.env "please talk to Bob" Demo.decision_text
                Demo.decision (Demo.heard "please talk to Bob" [])) as H.
  cbv zeta in H.
  change (tool_raises (dict_get Demo.decision "action" (PStr "none"))
            (dict_get Demo.decision "action_input" (PStr ""))
            (todo_file (Demo.heard "please talk to Bob" []))) with false in H.
  cbv iota in H.
  destruct H as (obs1 & w1 & ans1 & w2 & obs2 & w4 & ans2 & w5 & _ & _ & _ & _ & _ & _ & _ & H & _).
  - vm_compute. reflexivity.
  - vm_compute. reflexivity.
  - reflexivity.
  - exists ans2. eexists. apply H.
    intros Hsave. vm_compute in Hsave. discriminate Hsave.
Defined.

(** A decision that asks for [add_todo] and gives [null] as its input: the
    first tool invocation raises, no synthesis call is made, the block is
    not repeated and there is no answer. *)
Lemma C1_counterexample_input_not_text :
  let u := "note it down" in
  let sv := Slips.env (Answer Slips.no_input_text) in
  let w := Demo.heard u [] in
  chat_json sv (trace w ++ [MemoryQuery u 2]) (decision_messages sv w u) =
    Answer Slips.no_input_text /\
  safe_parse sv Slips.no_input_text = PDict Slips.no_input /\
  is_str (dict_get Slips.no_input "action" (PStr "none")) "none" = false /\
  fst (reasoning_cycle sv u w) = Raise AttributeError /\
  trace (snd (reasoning_cycle sv u w)) =
    [MemoryQuery u 2; ChatJson (decision_messages sv w u)] /\
  internal_log (snd (reasoning_cycle sv u w)) =
    [ "Retrieved memory: []"; "Distances: []"; "Thought: ";
      "Tool selected: add_todo"; "Tool input: None" ] /\
  ~ (exists ms, In (ChatPlain ms) (trace (snd (reasoning_cycle sv u w)))).
Proof.
  cbv zeta.
  split; [reflexivity|]. split; [vm_compute; reflexivity|]. split; [reflexivity|].
  split; [vm_compute; reflexivity|]. split; [vm_compute; reflexivity|].
  split; [vm_compute; reflexivity|].
  intros [ms Hin]. vm_compute in Hin.
  destruct Hin as [Hin|[Hin|[]]]; discriminate Hin.
Qed.

Lemma C2_witness :
  complete_todo Demo.env (PStr "I did the laundry") (Demo.fresh [mkTodo "Write report" false]) =
    (Ok "No matching task found.", Demo.fresh [mkTodo "Write report" false]).
Proof.
  apply (C2_complete_todo_refusals Demo.env "I did the laundry"
           (Demo.fresh [mkTodo "Write report" false])).
  - discriminate.
  - apply Qle_bool_iff. vm_compute. reflexivity.
Defined.

Lemma C2_counterexample_empty_list :
  todo_file (Demo.fresh []) = [] /\
  fst (complete_todo Demo.env (PStr "I finished the report") (Demo.fresh [])) =
    Ok "There are no tasks to complete." /\
  fst (complete_todo Demo.env (PStr "I finished the report") (Demo.fresh [])) <>
    Ok "No matching task found.".
Proof.
  split; [reflexivity|]. split; [reflexivity|]. vm_compute. discriminate.
Qed.

Lemma C3_witness :
  let outs := fst (run_session Demo.env Demo.four_utterances (new_agent Demo.persona [])) in
  let w := snd (run_session Demo.env Demo.four_utterances (new_agent Demo.persona [])) in
  max_context < length (appended_turns outs) /\
  short_term w = skipn (length (appended_turns outs) - max_context) (appended_turns outs) /\
  length (short_term w) = max_context.
Proof.
  intros outs w.
  assert (H : max_context < length (appended_turns outs)).
  { apply Nat.ltb_lt. vm_compute. reflexivity. }
  split; [exact H|].
  destruct (C3_window_is_the_last_six Demo.env) as [_ [_ Hsession]].
  destruct (Hsession Demo.four_utterances Demo.persona []) as [_ [_ Hlast]].
  exact (Hlast H).
Defined.

Lemma C4_witness :
  fst (reasoning_cycle Demo.env "tell me something" (Demo.heard "tell me something" [])) =
    Ok (PStr (chat_plain Demo.env
                (trace (Demo.heard "tell me something" []) ++
                 [ MemoryQuery "tell me something" 2;
                   ChatJson (decision_messages Demo.env (Demo.heard "tell me something" [])
                               "tell me something") ])
                (short_term (Demo.heard "tell me something" [])))).
Proof.
  apply (C4_unparsable_output Demo.env "tell me something" "Sure, here is what I think."
           (Demo.heard "tell me something" [])).
  - vm_compute. reflexivity.
  - reflexivity.
  - intros m H. vm_compute in H. discriminate H.
Defined.

Lemma C4_counterexample_parse_failure_not_logged :
  let u := "tell me something" in
  let reply_text := "Sure, here is what I think." in
  chat_json Demo.env (trace (Demo.heard u []) ++ [MemoryQuery u 2])
            (decision_messages Demo.env (Demo.heard u []) u) = Answer reply_text /\
  json_loads Demo.env reply_text = None /\
  brace_span reply_text = None /\
  fst (process_single_intent Demo.env u (Demo.fresh [])) = Ok (PStr "answer 2") /\
  internal_log (snd (process_single_intent Demo.env u (Demo.fresh []))) =
    [ "Retrieved memory: []"; "Distances: []" ] /\
  ~ (exists entry,
        In entry (internal_log (snd (process_single_intent Demo.env u (Demo.fresh [])))) /\
        entry <> "Retrieved memory: []" /\ entry <> "Distances: []").
Proof.
  cbv zeta.
  split; [vm_compute; reflexivity|]. split; [reflexivity|]. split; [reflexivity|].
  split; [vm_compute; reflexivity|]. split; [vm_compute; reflexivity|].
  intros [entry [Hin [H1 H2]]]. vm_compute in Hin.
  destruct Hin as [<-|[<-|[]]]; [apply H1 | apply H2]; reflexivity.
Qed.

Lemma C5_witness :
  fst (process_single_intent Demo.env "I like tea" (Demo.fresh [])) =
    Ok (PStr "Got it. I'll remember that.") /\
  collection (snd (process_single_intent Demo.env "I like tea" (Demo.fresh []))) =
    collection (Demo.fresh []) ++ [PStr ("User preference: " +++ strip "I like tea")] /\
  trace (snd (process_single_intent Demo.env "I like tea" (Demo.fresh []))) =
    trace (Demo.fresh []) /\
  todo_file (snd (process_single_intent Demo.env "I like tea" (Demo.fresh []))) =
    todo_file (Demo.fresh []).
Proof.
  apply (C5_preference_capture Demo.env "I like tea" (Demo.fresh [])).
  - exists "i like". split; [left; reflexivity | reflexivity].
  - reflexivity.
Defined.

Lemma C6_witness :
  fst (add_todo (PStr " buy milk ") (snd (add_todo (PStr "Buy Milk") (Demo.fresh [])))) =
    Ok "Task already exists." /\
  length (todo_file (snd (add_todo (PStr " buy milk ")
                            (snd (add_todo (PStr "Buy Milk") (Demo.fresh [])))))) =
    length (todo_file (Demo.fresh [])) + 1.
Proof.
  destruct (C6_add_todo_twice "Buy Milk" " buy milk " (Demo.fresh []) eq_refl)
    as [H2 [_ [Hnew _]]].
  split; [exact H2|].
  apply Hnew. intros t [].
Defined.

Lemma C6_counterexample_task_already_there :
  let w := Demo.fresh [mkTodo "buy milk" false] in
  let w1 := snd (add_todo (PStr "Buy Milk") w) in
  let w2 := snd (add_todo (PStr " buy milk ") w1) in
  lower (strip "Buy Milk") = lower (strip " buy milk ") /\
  fst (add_todo (PStr " buy milk ") w1) = Ok "Task already exists." /\
  length (todo_file w2) = length (todo_file w) /\
  length (todo_file w2) <> length (todo_file w) + 1.
Proof.
  cbv zeta. split; [reflexivity|]. split; [reflexivity|].
  split; [reflexivity|]. vm_compute. discriminate.
Qed.

Lemma C7_witness :
  let u := "What is photosynthesis" in
  let question :=
    [ mkTurn "system" (PStr "You are Autonomous AI Agent."); mkTurn "user" (PStr u) ] in
  fst (process_single_intent Demo.env u (Demo.fresh [])) =
    Ok (PStr (chat_plain Demo.env [] question)) /\
  trace (snd (process_single_intent Demo.env u (Demo.fresh []))) = [ChatPlain question].
Proof.
  cbv zeta.
  destruct (C7_knowledge_guard Demo.env "What is photosynthesis" (Demo.fresh []))
    as [Hr [Ht _]].
  - reflexivity.
  - intros k [<-|[<-|[<-|[]]]]; reflexivity.
  - intros t [<-|[<-|[<-|[]]]]; reflexivity.
  - intros k [<-|[<-|[]]]; reflexivity.
  - exists "what is". split; [left; reflexivity | reflexivity].
  - intros k [<-|[<-|[<-|[<-|[<-|[<-|[]]]]]]]; reflexivity.
  - split; [exact Hr | exact Ht].
Defined.

Lemma C8_witness :
  exists msg w2,
    after_last "remind me to" (strip (lower "Remind me to Call Bob")) = Some " call bob" /\
    add_todo (PStr "call bob") (Demo.heard "Remind me to Call Bob" []) = (Ok msg, w2) /\
    process_single_intent Demo.env "Remind me to Call Bob" (Demo.fresh []) =
      (Ok (PStr msg), snd (push_turn "assistant" (PStr msg) w2)).
Proof.
  destruct (C8_task_creation Demo.env "Remind me to Call Bob" "remind me to"
              ["i need to"; "i have to"] [] (Demo.fresh []))
    as [rest [msg [w2 [Hrest [Hadd Hrun]]]]].
  - reflexivity.
  - intros k [<-|[<-|[<-|[]]]]; reflexivity.
  - reflexivity.
  - intros t [<-|[<-|[]]]; reflexivity.
  - reflexivity.
  - assert (Hr : rest = " call bob").
    { vm_compute in Hrest. injection Hrest as <-. reflexivity. }
    subst rest. exists msg, w2.
    split; [reflexivity|]. split; [exact Hadd | exact Hrun].
Defined.


(** What the rule stored for "Remind me to Call Bob", next to what the
    reasoning cycle stores for the input "Call Bob". *)
Example rule_lower_cases_reasoning_keeps_case :
  todo_file (snd (process_single_intent Demo.env "Remind me to Call Bob" (Demo.fresh []))) =
    [mkTodo "call bob" false] /\
  todo_file (snd (process_single_intent Demo.env "please talk to Bob" (Demo.fresh []))) =
    [mkTodo "Call Bob" false].
Proof. vm_compute. split; reflexivity. Qed.

Lemma C10_witness :
  let w := Demo.fresh [mkTodo "Call Bob" true; mkTodo "Buy Milk" false] in
  let w' := snd (complete_todo Demo.env (PStr "I finished buy milk") w) in
  nth_error (todo_file w') 0 = Some (mkTodo "Call Bob" true) /\
  length (todo_file w') = 2.
Proof.
  cbv zeta.
  destruct (C10_complete_todo_frame Demo.env (PStr "I finished buy milk")
              (Demo.fresh [mkTodo "Call Bob" true; mkTodo "Buy Milk" false]))
    as [Hlen [_ [Hdone _]]].
  split; [|exact Hlen].
  apply (Hdone 0 (mkTodo "Call Bob" true)); reflexivity.
Defined.

(** One open task, matched above the threshold and marked. *)
Example bought_milk :
  ratio Demo.env (lower "I finished buy milk") (lower "buy milk") == 16 # 27 /\
  complete_todo Demo.env (PStr "I finished buy milk") (Demo.fresh [mkTodo "buy milk" false]) =
    (Ok "Task 'buy milk' marked as done.", Demo.fresh [mkTodo "buy milk" true]).
Proof. split; reflexivity. Qed.

(* ================================================================= *)
(** * More of the pipeline on concrete runs *)

Lemma X1_witness :
  exists t',
    nth_error (todo_file (snd (run_session Demo.env Demo.four_utterances
                                 (Demo.fresh [mkTodo "Buy Milk" true])))) 0 = Some t' /\
    task t' = "Buy Milk" /\
    (done (mkTodo "Buy Milk" true) = true -> done t' = true).
Proof.
  apply (X1_session_never_loses_a_task Demo.env Demo.four_utterances
           (Demo.fresh [mkTodo "Buy Milk" true]) 0 (mkTodo "Buy Milk" true)).
  reflexivity.
Defined.

Lemma X4_witness :
  exists msg w2,
    process_single_intent Demo.env "I finished buy milk" (Demo.fresh [mkTodo "Buy Milk" false]) =
      (Ok (PStr msg), snd (push_turn "assistant" (PStr msg) w2)) /\
    trace w2 = [].
Proof.
  destruct (X4_completion_rule Demo.env "I finished buy milk"
              (Demo.fresh [mkTodo "Buy Milk" false]))
    as [msg [w2 [_ [Hrun [Htr _]]]]].
  - reflexivity.
  - exists "i finished". split; [right; left; reflexivity | reflexivity].
  - exists msg, w2. split; [exact Hrun | exact Htr].
Defined.

Lemma X5_witness :
  fst (process_single_intent Demo.env "What day is it today" (Demo.fresh [])) =
    Ok (PStr (strftime_now Demo.env [])) /\
  trace (snd (process_single_intent Demo.env "What day is it today" (Demo.fresh []))) =
    [ClockRead].
Proof.
  destruct (X5_date_rule Demo.env "What day is it today" (Demo.fresh []))
    as [Hr [Ht _]].
  - reflexivity.
  - intros k [<-|[<-|[<-|[]]]]; reflexivity.
  - intros t [<-|[<-|[<-|[]]]]; reflexivity.
  - exists "today". split; [left; reflexivity | reflexivity].
  - split; [exact Hr | exact Ht].
Defined.

Lemma X6_witness :
  process_single_intent Demo.env "What is the latest news" (Demo.fresh []) =
    reasoning_cycle Demo.env "What is the latest news"
      (Demo.heard "What is the latest news" []).
Proof.
  apply (X6_guard_lets_search_intent_through Demo.env "What is the latest news"
           (Demo.fresh [])).
  - reflexivity.
  - intros k [<-|[<-|[<-|[]]]]; reflexivity.
  - intros t [<-|[<-|[<-|[]]]]; reflexivity.
  - intros k [<-|[<-|[]]]; reflexivity.
  - right. exists "latest". split; [right; left; reflexivity | reflexivity].
Defined.


Lemma X8_witness :
  fst (reasoning_cycle (Cases.env (Answer "{}")) "tell me something"
         (Demo.heard "tell me something" [])) = Ok (PStr "answer 2").
Proof.
  destruct (X8_empty_decision_is_no_decision (Cases.env (Answer "{}"))
              "tell me something" "{}" (Demo.heard "tell me something" []))
    as [Hr _].
  - reflexivity.
  - reflexivity.
  - rewrite Hr. vm_compute. reflexivity.
Defined.

Lemma X9_witness :
  fst (reasoning_cycle (Cases.env (Answer "[1]")) "tell me something"
         (Demo.heard "tell me something" [])) = Raise AttributeError.
Proof.
  apply (X9_decision_that_is_no_object_raises (Cases.env (Answer "[1]"))
           "tell me something" "[1]" (Demo.heard "tell me something" [])).
  - reflexivity.
  - reflexivity.
  - intros d H. vm_compute in H. discriminate H.
Defined.

Lemma X10_witness :
  (fst (reasoning_cycle (Cases.env (Answer Cases.direct_text)) "capital of France"
          (Demo.heard "capital of France" [])) = Ok (PStr "Paris.") /\
   collection (snd (reasoning_cycle (Cases.env (Answer Cases.direct_text)) "capital of France"
                      (Demo.heard "capital of France" []))) =
     [PStr "User asked about France"]) /\
  (fst (reasoning_cycle (Slips.env (Answer Slips.hoard_text)) "capital of France"
          (Demo.heard "capital of France" [])) = Raise TypeError /\
   short_term (snd (reasoning_cycle (Slips.env (Answer Slips.hoard_text)) "capital of France"
                      (Demo.heard "capital of France" []))) =
     [mkTurn "user" (PStr "capital of France")]).
Proof.
  split.
  - destruct (X10_direct_answer (Cases.env (Answer Cases.direct_text)) "capital of France"
                Cases.direct_text Cases.direct (Demo.heard "capital of France" []))
      as [_ [_ [Hr [Hc _]]]].
    + reflexivity.
    + vm_compute. reflexivity.
    + reflexivity.
    + reflexivity.
    + split; [exact Hr | exact Hc].
  - destruct (X10_direct_answer (Slips.env (Answer Slips.hoard_text)) "capital of France"
                Slips.hoard_text Slips.hoard (Demo.heard "capital of France" []))
      as [_ [_ [Hr [_ Hw]]]].
    + reflexivity.
    + vm_compute. reflexivity.
    + reflexivity.
    + reflexivity.
    + split; [exact Hr | exact Hw].
Defined.

Lemma X11_witness :
  fst (reasoning_cycle (Cases.env (Answer Cases.silent_text)) "tell me something"
         (Demo.heard "tell me something" [])) = Ok (PStr "answer 2") /\
  (fst (reasoning_cycle (Slips.env (Answer Slips.hoard_silent_text)) "tell me something"
          (Demo.heard "tell me something" [])) = Raise TypeError /\
   trace (snd (reasoning_cycle (Slips.env (Answer Slips.hoard_silent_text))
                 "tell me something" (Demo.heard "tell me something" []))) =
     [ MemoryQuery "tell me something" 2;
       ChatJson (decision_messages (Slips.env (Answer Slips.hoard_silent_text))
                   (Demo.heard "tell me something" []) "tell me something");
       ChatPlain [mkTurn "user" (PStr "tell me something")] ]).
Proof.
  split.
  - destruct (X11_missing_final_answer (Cases.env (Answer Cases.silent_text))
                "tell me something" Cases.silent_text Cases.silent
                (Demo.heard "tell me something" []))
      as [_ [_ [Hr _]]].
    + reflexivity.
    + vm_compute. reflexivity.
    + discriminate.
    + reflexivity.
    + reflexivity.
    + rewrite Hr. vm_compute. reflexivity.
  - destruct (X11_missing_final_answer (Slips.env (Answer Slips.hoard_silent_text))
                "tell me something" Slips.hoard_silent_text Slips.hoard_silent
                (Demo.heard "tell me something" []))
      as [Ht [_ [Hr _]]].
    + reflexivity.
    + vm_compute. reflexivity.
    + discriminate.
    + reflexivity.
    + reflexivity.
    + split; [exact Hr | exact Ht].
Defined.

Lemma X12_witness :
  fst (execute_tool Demo.env (PStr "translate") (PStr "bonjour") (Demo.fresh [])) = Ok PNone.
Proof.
  destruct (X12_unknown_action_yields_none Demo.env (PStr "translate") (PStr "bonjour")
              (Demo.fresh [])) as [H _].
  - intros name [<-|[<-|[<-|[<-|[]]]]]; reflexivity.
  - rewrite H. reflexivity.
Defined.

Lemma X13_witness :
  fst (execute_tool (Cases.env (Failure "unused")) (PStr "search") (PStr "rocq")
         (Demo.fresh [])) = Ok (PStr "").
Proof.
  rewrite (X13_search_without_substantive_hits (Cases.env (Failure "unused")) "rocq"
             [mkHit "Rocq" "A proof assistant."] (Demo.fresh [])).
  - reflexivity.
  - reflexivity.
  - discriminate.
  - intros r [<-|[]]. cbn. lia.
Defined.

Lemma X14_witness :
  add_todo PNone (Demo.fresh [mkTodo "Buy Milk" false]) =
    (Raise AttributeError, Demo.fresh [mkTodo "Buy Milk" false]) /\
  complete_todo Demo.env PNone (Demo.fresh [mkTodo "Buy Milk" false]) =
    (Raise AttributeError, Demo.fresh [mkTodo "Buy Milk" false]).
Proof.
  destruct (X14_tools_on_input_that_is_not_text Demo.env PNone
              (Demo.fresh [mkTodo "Buy Milk" false]))
    as [_ [Ha [_ [_ Hc]]]].
  - intros s. discriminate.
  - split; [exact Ha|]. apply Hc.
    exists (mkTodo "Buy Milk" false). split; [left; reflexivity | reflexivity].
Defined.

Lemma X15_witness :
  exists i t,
    nth_error [mkTodo "Call Bob" false; mkTodo "Buy Milk" false] i = Some t /\
    complete_todo Demo.env (PStr "I finished buy milk")
        (Demo.fresh [mkTodo "Call Bob" false; mkTodo "Buy Milk" false]) =
      (Ok ("Task '" +++ task t +++ "' marked as done."),
       set_todo_file (set_done i [mkTodo "Call Bob" false; mkTodo "Buy Milk" false])
         (Demo.fresh [mkTodo "Call Bob" false; mkTodo "Buy Milk" false])).
Proof.
  destruct (X15_complete_todo_marks_first_best Demo.env "I finished buy milk"
              (Demo.fresh [mkTodo "Call Bob" false; mkTodo "Buy Milk" false]))
    as [i [t [Hn [_ [Hrun _]]]]].
  - intros H. apply (f_equal todo_file) in H. vm_compute in H. discriminate H.
  - exists i, t. split; [exact Hn | exact Hrun].
Defined.

Lemma X16_witness :
  mark_done 5 (Demo.fresh [mkTodo "Buy Milk" false]) =
    (Ok "Invalid task index.", Demo.fresh [mkTodo "Buy Milk" false]).
Proof.
  apply (proj1 (X16_mark_done_bounds_and_idempotence 5
                  (Demo.fresh [mkTodo "Buy Milk" false]))).
  cbn. lia.
Defined.

Lemma X18_witness :
  fst (proactive_check (Demo.fresh [mkTodo "Call Bob" true; mkTodo "Buy Milk" false])) =
    Ok (PStr "I see we still need to 'Buy Milk'. Shall I handle it now?").
Proof.
  destruct (X18_proactive_check_suggests_first_open_task
              (Demo.fresh [mkTodo "Call Bob" true; mkTodo "Buy Milk" false]))
    as [_ [_ [_ [_ Hsome]]]].
  apply (Hsome [mkTodo "Call Bob" true] (mkTodo "Buy Milk" false) []).
  - reflexivity.
  - intros x [<-|[]]. reflexivity.
  - reflexivity.
Defined.

Lemma X19_witness :
  fst (proactive_check (snd (add_todo (PStr "Call Bob") (Demo.fresh [])))) =
    Ok (PStr ("I see we still need to '" +++ "Call Bob" +++ "'. Shall I handle it now?")).
Proof.
  apply (X19_added_task_is_suggested "Call Bob" (Demo.fresh [])).
  - intros t [].
  - intros t [].
Defined.

Lemma X20_witness :
  fst (process_single_intent Demo.env "Remind me to Call Bob"
         (snd (process_single_intent Demo.env "Remind me to Call Bob" (Demo.fresh [])))) =
    Ok (PStr "Task already exists.").
Proof.
  apply (X20_same_sentence_twice_adds_once Demo.env "Remind me to Call Bob" (Demo.fresh [])).
  - reflexivity.
  - intros k [<-|[<-|[<-|[]]]]; reflexivity.
  - exists "remind me to". split; [right; right; left; reflexivity | reflexivity].
Defined.


Lemma X22_witness :
  fst (process_single_intent Demo.env "I need to" (Demo.fresh [])) =
    Ok (PStr "Task '' added.") /\
  todo_file (snd (process_single_intent Demo.env "I need to" (Demo.fresh []))) =
    [] ++ [mkTodo "" false].
Proof.
  apply (X22_trigger_alone_adds_an_empty_task Demo.env "I need to" "i need to"
           [] ["i have to"; "remind me to"] (Demo.fresh [])).
  - reflexivity.
  - intros k [<-|[<-|[<-|[]]]]; reflexivity.
  - reflexivity.
  - intros t [].
  - reflexivity.
  - intros t [].
Defined.

Lemma X23_witness :
  safe_parse Demo.env ("Sure: " +++ "{" +++ Cases.decision_inside +++ "}" +++ " Done.") =
    PDict Demo.decision.
Proof.
  destruct (X23_safe_parse_recovers_embedded_object Demo.env
              "Sure: " Cases.decision_inside " Done.") as [_ Hs].
  - vm_compute. reflexivity.
  - reflexivity.
  - reflexivity.
  - rewrite Hs. vm_compute. reflexivity.
Defined.
